(** * aos_communicationmanager: network manager and launcher node handler

    A shallow embedding of [networkmanager/networkmanager.go] and of the node
    handler of package [launcher], with the properties of the design
    document proved (or refuted) on the embedded code.

    Conventions.
    - A Go [map] is a [gmap].  Go leaves the order of a [range] over a map
      unspecified, so the order is a parameter of the model ([RangeOrder]).
    - A Go slice is a [list]; a nil slice and an empty slice are both [[]].
    - Go's [(value, error)] results are pairs [A * option error]; a function
      that only reports failure returns [option error].  The receiver is
      threaded explicitly: a method takes the manager and returns the
      manager it leaves behind, also when it fails.
    - [uint64] is [N], Go's [int] is a 64-bit two's complement [Z].
    - The collaborators that live outside this file of the repository
      (storage, node manager, subnet allocator, DNS server, package [net])
      are type classes. *)

From Stdlib Require Import ZArith Lia.
From Stdlib.Strings Require Import Ascii Byte.
From stdpp Require Import base option list strings gmap fin_maps pretty.

Local Open Scope string_scope.
Local Open Scope list_scope.

(** ** Go's standard library, as far as the code uses it *)

Module gostrings.

(** [strings.Split(s, sep)] for a one-byte separator: the pieces between
    the separators, one piece (the empty string) for the empty input. *)
Fixpoint Split (s : string) (sep : ascii) : list string :=
  match s with
  | EmptyString => [EmptyString]
  | String c s' =>
      if decide (c = sep) then EmptyString :: Split s' sep
      else match Split s' sep with
           | piece :: pieces => String c piece :: pieces
           | [] => [String c EmptyString]
           end
  end.

(** [slices.Contains]. *)
Definition Contains (l : list string) (x : string) : bool :=
  bool_decide (x ∈ l).

End gostrings.

Module net.

(** [net.IP] is a byte slice; [nil] is the empty list. *)
Abbreviation IP := (list Byte.byte).

(** The conversion [net.IP(s)] of a string: its bytes, unparsed. *)
Definition IP_of_string (s : string) : IP := String.list_byte_of_string s.

(** The part of package [net] the manager calls. *)
Class Lib := {
  IPNet : Type;
  (** [net.ParseCIDR], [None] for a parse error *)
  ParseCIDR : string → option IPNet;
  (** [net.ParseIP], [None] for nil *)
  ParseIP : string → option IP;
  (** [IPNet.Contains] *)
  Contains : IPNet → IP → bool;
  (** [IP.String] *)
  IP_String : IP → string;
  (** [IPNet.String] *)
  IPNet_String : IPNet → string;
}.

End net.

(** ** Package aostypes (aos_common), the records the code reads and builds *)

Module aostypes.

Record InstanceIdent := {
  ServiceID : string;
  SubjectID : string;
  Instance : N;
}.

Global Instance InstanceIdent_eq_dec : EqDecision InstanceIdent.
Proof. solve_decision. Defined.

Global Program Instance InstanceIdent_countable : Countable InstanceIdent :=
  inj_countable'
    (λ i, (ServiceID i, SubjectID i, Instance i))
    (λ t, {| ServiceID := t.1.1; SubjectID := t.1.2; Instance := t.2 |}) _.
Next Obligation. by intros []. Qed.

Record FirewallRule := {
  DstIP : string;
  DstPort : string;
  Proto : string;
  SrcIP : string;
}.

Record NetworkParameters := {
  NetworkID : string;
  Subnet : string;
  IP : string;
  VlanID : N;
  DNSServers : list string;
  FirewallRules : list FirewallRule;
}.

(** The zero value [aostypes.NetworkParameters{}]. *)
Definition NetworkParameters_zero : NetworkParameters :=
  {| NetworkID := ""; Subnet := ""; IP := ""; VlanID := 0%N;
     DNSServers := []; FirewallRules := [] |}.

Record ServiceDevice := {
  Name : string;
  Permissions : string;
}.

End aostypes.

(** ** Package networkmanager *)

Module networkmanager.

Definition vlanIDCapacity : N := 4096.
Definition allowedConnectionsExpectedLen : nat := 3.
Definition exposePortConfigExpectedLen : nat := 2.

(** An error value handed back by a collaborator (storage, node manager,
    subnet allocator, VLAN hook, DNS server). *)
Definition ext_error := string.

(** The error values the package returns.  [errRuleNotFound] is the
    package's sentinel; [aoserrors.Wrap] keeps the identity of what it
    wraps, so a wrapped collaborator error stays [errExternal].
    [panicIndexOutOfRange] is not an error value but Go's run-time panic
    on [networks[0]] of an empty slice. *)
Inductive error :=
  | errRuleNotFound
  | errUnsupportedAllowedConnections (connConf : list string)
  | errUnsupportedExposedPorts (exposePort : string)
  | errInvalidIP (ip : string)
  | errParseCIDR (subnet : string)
  | errExternal (e : ext_error)
  | panicIndexOutOfRange.

Global Instance error_eq_dec : EqDecision error.
Proof. solve_decision. Defined.

(** A result whose value the caller drops when the error is set. *)
Inductive result (A : Type) :=
  | Ok (a : A)
  | Err (e : error).
Global Arguments Ok {A} a.
Global Arguments Err {A} e.

(** [FirewallRule]: an exposed port. *)
Record FirewallRule := {
  Protocol : string;
  Port : string;
}.

(** [InstanceNetworkInfo] embeds [aostypes.InstanceIdent] and
    [aostypes.NetworkParameters]. *)
Record InstanceNetworkInfo := {
  info_InstanceIdent : aostypes.InstanceIdent;
  info_NetworkParameters : aostypes.NetworkParameters;
  Rules : list FirewallRule;
}.

(** [NetworkParametersStorage] embeds [aostypes.NetworkParameters]. *)
Record NetworkParametersStorage := {
  nps_NetworkParameters : aostypes.NetworkParameters;
  NodeID : string;
}.

Record NetworkParameters := {
  Hosts : list string;
  AllowConnections : list string;
  ExposePorts : list string;
}.

(** The [Storage] interface (the two getters serve only [New]). *)
Class Storage := {
  storage_t : Type;
  AddNetworkInstanceInfo :
    InstanceNetworkInfo → storage_t → option ext_error * storage_t;
  RemoveNetworkInstanceInfo :
    aostypes.InstanceIdent → storage_t → option ext_error * storage_t;
  RemoveNetworkInfo :
    string → string → storage_t → option ext_error * storage_t;
  AddNetworkInfo :
    NetworkParametersStorage → storage_t → option ext_error * storage_t;
}.

(** The [NodeManager] interface. *)
Class NodeManager := {
  nodeManager_t : Type;
  UpdateNetwork :
    string → list aostypes.NetworkParameters → nodeManager_t →
    option ext_error * nodeManager_t;
}.

(** The subnet allocator [ipSubnet], declared outside this file.
    [GetIPSubnet] is the package hook, which [New] sets to the allocator's
    [prepareSubnet]; on failure it hands back a nil IP. *)
Class Ipam `{net.Lib} := {
  ipSubnet : Type;
  GetIPSubnet :
    string → ipSubnet → (ext_error + net.IPNet * net.IP) * ipSubnet;
  releaseIPToSubnet : string → net.IP → ipSubnet → ipSubnet;
  releaseIPNetPool : string → ipSubnet → ipSubnet;
}.

(** The hook [GetVlanID]; [vlan_t] is the state of its random source. *)
Class VlanSource := {
  vlan_t : Type;
  GetVlanID : string → vlan_t → (ext_error + N) * vlan_t;
}.

(** [getVlanID], which [New] installs as the hook, on the outcome of its
    [rand.Int(rand.Reader, vlanIDCapacity)]: a number below
    [vlanIDCapacity], or an error. *)
Definition getVlanID (drawn : ext_error + N) : ext_error + N :=
  match drawn with
  | inl e => inl e
  | inr vlanID => inr (vlanID + 1)%N
  end.

(** Modelled from the spec: the type [dnsServer] is declared outside this
    file; the code reads its [IPAddress] and deletes from its [hosts], a
    map from the textual IP to host names. *)
Record dnsServer := {
  IPAddress : string;
  hosts : gmap string (list string);
}.

(** [dnsServer.addHosts], defined outside this file. *)
Class DnsServer := {
  addHosts : list string → string → dnsServer → option ext_error * dnsServer;
}.

(** The order in which [range] visits a map: some enumeration of its
    entries. *)
Class RangeOrder := {
  range : ∀ {K} `{Countable K} {V}, gmap K V → list (K * V);
  range_perm : ∀ {K} `{Countable K} {V} (m : gmap K V),
    range m ≡ₚ map_to_list m;
}.

Section manager.
Context `{!net.Lib, !Storage, !NodeManager, !Ipam, !VlanSource, !DnsServer,
          !RangeOrder}.

(** The [NetworkManager] struct.  [vlanSource] is not a field of the Go
    struct: it is the state behind the package hook [GetVlanID]. *)
Record NetworkManager := {
  instancesData :
    gmap string (gmap aostypes.InstanceIdent InstanceNetworkInfo);
  providerNetworks : gmap string (list NetworkParametersStorage);
  ipamSubnet : ipSubnet;
  dns : dnsServer;
  storage : storage_t;
  nodeManager : nodeManager_t;
  vlanSource : vlan_t;
}.

Definition set_instancesData (m : NetworkManager) v : NetworkManager :=
  {| instancesData := v; providerNetworks := providerNetworks m;
     ipamSubnet := ipamSubnet m; dns := dns m; storage := storage m;
     nodeManager := nodeManager m; vlanSource := vlanSource m |}.
Definition set_providerNetworks (m : NetworkManager) v : NetworkManager :=
  {| instancesData := instancesData m; providerNetworks := v;
     ipamSubnet := ipamSubnet m; dns := dns m; storage := storage m;
     nodeManager := nodeManager m; vlanSource := vlanSource m |}.
Definition set_ipamSubnet (m : NetworkManager) v : NetworkManager :=
  {| instancesData := instancesData m; providerNetworks := providerNetworks m;
     ipamSubnet := v; dns := dns m; storage := storage m;
     nodeManager := nodeManager m; vlanSource := vlanSource m |}.
Definition set_dns (m : NetworkManager) v : NetworkManager :=
  {| instancesData := instancesData m; providerNetworks := providerNetworks m;
     ipamSubnet := ipamSubnet m; dns := v; storage := storage m;
     nodeManager := nodeManager m; vlanSource := vlanSource m |}.
Definition set_storage (m : NetworkManager) v : NetworkManager :=
  {| instancesData := instancesData m; providerNetworks := providerNetworks m;
     ipamSubnet := ipamSubnet m; dns := dns m; storage := v;
     nodeManager := nodeManager m; vlanSource := vlanSource m |}.
Definition set_nodeManager (m : NetworkManager) v : NetworkManager :=
  {| instancesData := instancesData m; providerNetworks := providerNetworks m;
     ipamSubnet := ipamSubnet m; dns := dns m; storage := storage m;
     nodeManager := v; vlanSource := vlanSource m |}.
Definition set_vlanSource (m : NetworkManager) v : NetworkManager :=
  {| instancesData := instancesData m; providerNetworks := providerNetworks m;
     ipamSubnet := ipamSubnet m; dns := dns m; storage := storage m;
     nodeManager := nodeManager m; vlanSource := v |}.

(** *** Parsing the policy strings *)

Definition parseAllowConnection (connection : string)
  : result (string * string * string) :=
  let connConf := gostrings.Split connection "/" in
  if decide (allowedConnectionsExpectedLen < length connConf
             ∨ length connConf < 2)
  then Err (errUnsupportedAllowedConnections connConf)
  else
    let serviceID := nth 0 connConf "" in
    let port := nth 1 connConf "" in
    let protocol :=
      if decide (length connConf = allowedConnectionsExpectedLen)
      then nth 2 connConf "" else "tcp" in
    Ok (serviceID, port, protocol).

Definition ruleExists (info : InstanceNetworkInfo) (port protocol : string)
  : bool :=
  existsb (λ rule, bool_decide (Port rule = port)
                   && bool_decide (protocol = Protocol rule))
          (Rules info).

Fixpoint parseExposedPorts (exposePorts : list string)
  : result (list FirewallRule) :=
  match exposePorts with
  | [] => Ok []
  | exposePort :: rest =>
      let portConfig := gostrings.Split exposePort "/" in
      if decide (exposePortConfigExpectedLen < length portConfig
                 ∨ length portConfig = 0)
      then Err (errUnsupportedExposedPorts exposePort)
      else
        let protocol :=
          if decide (length portConfig = exposePortConfigExpectedLen)
          then nth 1 portConfig "" else "tcp" in
        match parseExposedPorts rest with
        | Ok rules =>
            Ok ({| Protocol := protocol; Port := nth 0 portConfig "" |}
                :: rules)
        | Err e => Err e
        end
  end.

(** *** Firewall rules *)

Definition checkIPInSubnet (subnet ip : string) : result bool :=
  match net.ParseCIDR subnet with
  | None => Err (errParseCIDR subnet)
  | Some ipnet =>
      match net.ParseIP ip with
      | None => Err (errInvalidIP ip)
      | Some parsedIP => Ok (net.Contains ipnet parsedIP)
      end
  end.

(** The instances in the order the two nested [range] loops of
    [getInstanceRule] meet them. *)
Definition rangeInstances (m : NetworkManager) : list InstanceNetworkInfo :=
  flat_map (λ entry, snd <$> range entry.2) (range (instancesData m)).

Fixpoint getInstanceRule_loop (instances : list InstanceNetworkInfo)
    (serviceID subnet port protocol ip : string)
  : result aostypes.FirewallRule :=
  match instances with
  | [] => Err errRuleNotFound
  | instanceNetworkInfo :: rest =>
      let target := info_NetworkParameters instanceNetworkInfo in
      if decide (aostypes.ServiceID (info_InstanceIdent instanceNetworkInfo)
                 ≠ serviceID)
      then getInstanceRule_loop rest serviceID subnet port protocol ip
      else
        match checkIPInSubnet subnet (aostypes.IP target) with
        | Err e => Err e
        | Ok true => getInstanceRule_loop rest serviceID subnet port protocol ip
        | Ok false =>
            if ruleExists instanceNetworkInfo port protocol
            then Ok {| aostypes.DstIP := aostypes.IP target;
                       aostypes.SrcIP := ip;
                       aostypes.Proto := protocol;
                       aostypes.DstPort := port |}
            else getInstanceRule_loop rest serviceID subnet port protocol ip
        end
  end.

Definition getInstanceRule (m : NetworkManager)
    (serviceID subnet port protocol ip : string)
  : result aostypes.FirewallRule :=
  getInstanceRule_loop (rangeInstances m) serviceID subnet port protocol ip.

(** The loop of [prepareFirewallRules]; [rules] is the slice built so far. *)
Fixpoint prepareFirewallRules_loop (m : NetworkManager) (subnet ip : string)
    (rules : list aostypes.FirewallRule) (allowConnection : list string)
  : result (list aostypes.FirewallRule) :=
  match allowConnection with
  | [] => Ok rules
  | connection :: rest =>
      match parseAllowConnection connection with
      | Err e => Err e
      | Ok (serviceID, port, protocol) =>
          match getInstanceRule m serviceID subnet port protocol ip with
          | Err e =>
              if decide (e = errRuleNotFound)
              then prepareFirewallRules_loop m subnet ip rules rest
              else Err e
          | Ok instanceRule =>
              prepareFirewallRules_loop m subnet ip
                (rules ++ [instanceRule]) rest
          end
      end
  end.

Definition prepareFirewallRules (m : NetworkManager) (subnet ip : string)
    (allowConnection : list string) : result (list aostypes.FirewallRule) :=
  prepareFirewallRules_loop m subnet ip [] allowConnection.

(** *** The instance cache *)

Definition deleteNetworkParametersFromCache (networkID : string)
    (instanceIdent : aostypes.InstanceIdent) (ip : net.IP)
    (m : NetworkManager) : NetworkManager :=
  let m := set_instancesData m
             (alter (delete instanceIdent) networkID (instancesData m)) in
  let m := set_dns m
             {| IPAddress := IPAddress (dns m);
                hosts := delete (net.IP_String ip) (hosts (dns m)) |} in
  set_ipamSubnet m (releaseIPToSubnet networkID ip (ipamSubnet m)).

Definition addNetworkParametersToCache
    (instanceNetworkInfo : InstanceNetworkInfo) (m : NetworkManager)
  : NetworkManager :=
  let networkID :=
    aostypes.NetworkID (info_NetworkParameters instanceNetworkInfo) in
  let instances := default ∅ (instancesData m !! networkID) in
  set_instancesData m
    (<[networkID :=
         <[info_InstanceIdent instanceNetworkInfo := instanceNetworkInfo]>
           instances]> (instancesData m)).

Fixpoint getNetworkParametersToCache_loop
    (instanceIdent : aostypes.InstanceIdent)
    (networks :
       list (string * gmap aostypes.InstanceIdent InstanceNetworkInfo))
  : aostypes.NetworkParameters * string * bool :=
  match networks with
  | [] => (aostypes.NetworkParameters_zero, "", false)
  | (networkID, instanceData) :: rest =>
      match instanceData !! instanceIdent with
      | Some networkParameter =>
          (info_NetworkParameters networkParameter, networkID, true)
      | None => getNetworkParametersToCache_loop instanceIdent rest
      end
  end.

Definition getNetworkParametersToCache
    (instanceIdent : aostypes.InstanceIdent) (m : NetworkManager)
  : aostypes.NetworkParameters * string * bool :=
  getNetworkParametersToCache_loop instanceIdent (range (instancesData m)).

Definition removeInstanceNetworkParameters (networkID : string)
    (instanceIdent : aostypes.InstanceIdent) (ip : net.IP)
    (m : NetworkManager) : option error * NetworkManager :=
  let m := deleteNetworkParametersFromCache networkID instanceIdent ip m in
  let '(err, st) := RemoveNetworkInstanceInfo instanceIdent (storage m) in
  (errExternal <$> err, set_storage m st).

(** [createNetwork].  The deferred function runs on every return with a
    non-nil [err], with the [ip] obtained so far (nil when the hook
    failed). *)
Definition createNetwork (instanceIdent : aostypes.InstanceIdent)
    (networkID : string) (params : NetworkParameters) (m : NetworkManager)
  : (aostypes.NetworkParameters * option error) * NetworkManager :=
  let '(got, ipam) := GetIPSubnet networkID (ipamSubnet m) in
  let m := set_ipamSubnet m ipam in
  match got with
  | inl e =>
      ((aostypes.NetworkParameters_zero, Some (errExternal e)),
       deleteNetworkParametersFromCache networkID instanceIdent [] m)
  | inr (subnet, ip) =>
      let networkParameters :=
        {| aostypes.NetworkID := networkID;
           aostypes.IP := net.IP_String ip;
           aostypes.Subnet := net.IPNet_String subnet;
           aostypes.DNSServers := [IPAddress (dns m)];
           aostypes.VlanID := 0%N;
           aostypes.FirewallRules := [] |} in
      let parsed :=
        if decide (0 < length (ExposePorts params))
        then parseExposedPorts (ExposePorts params) else Ok [] in
      match parsed with
      | Err e =>
          ((networkParameters, Some e),
           deleteNetworkParametersFromCache networkID instanceIdent ip m)
      | Ok rules =>
          let instanceNetworkInfo :=
            {| info_InstanceIdent := instanceIdent;
               info_NetworkParameters := networkParameters;
               Rules := rules |} in
          let '(err, st) :=
            AddNetworkInstanceInfo instanceNetworkInfo (storage m) in
          let m := set_storage m st in
          match err with
          | Some e =>
              ((networkParameters, Some (errExternal e)),
               deleteNetworkParametersFromCache networkID instanceIdent ip m)
          | None =>
              ((networkParameters, None),
               addNetworkParametersToCache instanceNetworkInfo m)
          end
      end
  end.

(** The host names [PrepareInstanceNetworkParameters] adds to
    [params.Hosts] ([%d] of a [uint64] is its decimal form). *)
Definition instanceHosts (instanceIdent : aostypes.InstanceIdent)
    (networkID : string) (Hosts : list string) : list string :=
  let serviceID := aostypes.ServiceID instanceIdent in
  let subjectID := aostypes.SubjectID instanceIdent in
  let instance := aostypes.Instance instanceIdent in
  if decide (serviceID ≠ "" ∧ subjectID ≠ "") then
    let Hosts :=
      Hosts ++ [(pretty instance +:+ "." +:+ subjectID +:+ "." +:+ serviceID)]
    in
    let Hosts :=
      Hosts ++ [(pretty instance +:+ "." +:+ subjectID +:+ "." +:+ serviceID
                 +:+ "." +:+ networkID)] in
    if decide (instance = 0%N) then
      let Hosts := Hosts ++ [(subjectID +:+ "." +:+ serviceID)] in
      Hosts ++ [(subjectID +:+ "." +:+ serviceID +:+ "." +:+ networkID)]
    else Hosts
  else Hosts.

Definition with_FirewallRules (p : aostypes.NetworkParameters)
    (rules : list aostypes.FirewallRule) : aostypes.NetworkParameters :=
  {| aostypes.NetworkID := aostypes.NetworkID p;
     aostypes.Subnet := aostypes.Subnet p;
     aostypes.IP := aostypes.IP p;
     aostypes.VlanID := aostypes.VlanID p;
     aostypes.DNSServers := aostypes.DNSServers p;
     aostypes.FirewallRules := rules |}.

Definition PrepareInstanceNetworkParameters
    (instanceIdent : aostypes.InstanceIdent) (networkID : string)
    (params : NetworkParameters) (m : NetworkManager)
  : (aostypes.NetworkParameters * option error) * NetworkManager :=
  let Hosts := instanceHosts instanceIdent networkID (Hosts params) in
  let '(networkParameters, currentNetworkID, found) :=
    getNetworkParametersToCache instanceIdent m in
  let '(found, m) :=
    if found && bool_decide (networkID ≠ currentNetworkID)
    then (false,
          (removeInstanceNetworkParameters networkID instanceIdent
             (net.IP_of_string (aostypes.IP networkParameters)) m).2)
    else (found, m) in
  let '((networkParameters, err), m) :=
    if negb found then createNetwork instanceIdent networkID params m
    else ((networkParameters, None), m) in
  match err with
  | Some e => ((networkParameters, Some e), m)
  | None =>
      let '(err, d) := addHosts Hosts (aostypes.IP networkParameters) (dns m) in
      let m := set_dns m d in
      match err with
      | Some e => ((networkParameters, Some (errExternal e)), m)
      | None =>
          if decide (0 < length (AllowConnections params)) then
            match prepareFirewallRules m (aostypes.Subnet networkParameters)
                    (aostypes.IP networkParameters) (AllowConnections params)
            with
            | Err e => ((networkParameters, Some e), m)
            | Ok firewallRules =>
                ((with_FirewallRules networkParameters firewallRules, None), m)
            end
          else ((networkParameters, None), m)
      end
  end.

Definition RemoveInstanceNetworkParameters
    (instanceIdent : aostypes.InstanceIdent) (m : NetworkManager)
  : NetworkManager :=
  let '(networkParameters, networkID, found) :=
    getNetworkParametersToCache instanceIdent m in
  if negb found then m
  else (removeInstanceNetworkParameters networkID instanceIdent
          (net.IP_of_string (aostypes.IP networkParameters)) m).2.

(** *** Provider networks *)

(** The two filtering loops of [removeProviderNetworks]: the rows bound to
    [nodeID] are removed from storage (a failure is only logged), the
    others are kept. *)
Fixpoint dropNodeNetworks (networkID nodeID : string)
    (networksInfo : list NetworkParametersStorage) (st : storage_t)
  : list NetworkParametersStorage * storage_t :=
  match networksInfo with
  | [] => ([], st)
  | info :: rest =>
      if decide (NodeID info = nodeID)
      then dropNodeNetworks networkID nodeID rest
             (RemoveNetworkInfo networkID nodeID st).2
      else
        let '(kept, st) := dropNodeNetworks networkID nodeID rest st in
        (info :: kept, st)
  end.

(** One turn of the outer loop of [removeProviderNetworks]. *)
Definition removeProviderNetworks_body (providers : list string)
    (nodeID : string) (m : NetworkManager)
    (entry : string * list NetworkParametersStorage) : NetworkManager :=
  let '(networkID, networksInfo) := entry in
  let '(validNetworks, st) :=
    dropNodeNetworks networkID "" networksInfo (storage m) in
  let m := set_storage m st in
  let providerFound := bool_decide (networkID ∈ providers) in
  if providerFound && bool_decide (0 < length validNetworks) then
    set_providerNetworks m (<[networkID := validNetworks]> (providerNetworks m))
  else
    let '(filteredNetworks, st) :=
      dropNodeNetworks networkID nodeID validNetworks (storage m) in
    let m := set_storage m st in
    let m := set_providerNetworks m
               (<[networkID := filteredNetworks]> (providerNetworks m)) in
    if bool_decide (0 < length filteredNetworks) then m
    else
      let m :=
        foldl (λ m inst,
                 (removeInstanceNetworkParameters networkID inst.1
                    (net.IP_of_string
                       (aostypes.IP (info_NetworkParameters inst.2))) m).2)
              m (range (default ∅ (instancesData m !! networkID))) in
      let m := set_providerNetworks m (delete networkID (providerNetworks m)) in
      set_ipamSubnet m (releaseIPNetPool networkID (ipamSubnet m)).

Definition removeProviderNetworks (providers : list string) (nodeID : string)
    (m : NetworkManager) : NetworkManager :=
  foldl (removeProviderNetworks_body providers nodeID) m
        (range (providerNetworks m)).

Definition with_Subnet_IP (p : aostypes.NetworkParameters)
    (subnet ip : string) : aostypes.NetworkParameters :=
  {| aostypes.NetworkID := aostypes.NetworkID p;
     aostypes.Subnet := subnet;
     aostypes.IP := ip;
     aostypes.VlanID := aostypes.VlanID p;
     aostypes.DNSServers := aostypes.DNSServers p;
     aostypes.FirewallRules := aostypes.FirewallRules p |}.

(** [setupNetworkParameters] writes through the pointer [networkParameter];
    the written record is handed back with the error. *)
Definition setupNetworkParameters (providerID : string)
    (networkParameter : NetworkParametersStorage) (m : NetworkManager)
  : (NetworkParametersStorage * option error) * NetworkManager :=
  let '(got, ipam) := GetIPSubnet providerID (ipamSubnet m) in
  let m := set_ipamSubnet m ipam in
  match got with
  | inl e => ((networkParameter, Some (errExternal e)), m)
  | inr (subnet, ip) =>
      let networkParameter :=
        {| nps_NetworkParameters :=
             with_Subnet_IP (nps_NetworkParameters networkParameter)
               (net.IPNet_String subnet) (net.IP_String ip);
           NodeID := NodeID networkParameter |} in
      let '(err, st) := AddNetworkInfo networkParameter (storage m) in
      let m := set_storage m st in
      match err with
      | Some e => ((networkParameter, Some (errExternal e)), m)
      | None =>
          ((networkParameter, None),
           set_providerNetworks m
             (<[providerID :=
                  default [] (providerNetworks m !! providerID)
                  ++ [networkParameter]]> (providerNetworks m)))
      end
  end.

Definition createProviderNetwork (providerID nodeID : string)
    (m : NetworkManager)
  : (aostypes.NetworkParameters * option error) * NetworkManager :=
  let '(got, src) := GetVlanID providerID (vlanSource m) in
  let m := set_vlanSource m src in
  match got with
  | inl e => ((aostypes.NetworkParameters_zero, Some (errExternal e)), m)
  | inr vlanID =>
      let networkParameter :=
        {| nps_NetworkParameters :=
             {| aostypes.NetworkID := providerID;
                aostypes.Subnet := "";
                aostypes.IP := "";
                aostypes.VlanID := vlanID;
                aostypes.DNSServers := [];
                aostypes.FirewallRules := [] |};
           NodeID := nodeID |} in
      let '((networkParameter, err), m) :=
        setupNetworkParameters providerID networkParameter m in
      match err with
      | Some e => ((aostypes.NetworkParameters_zero, Some e), m)
      | None => ((nps_NetworkParameters networkParameter, None), m)
      end
  end.

Definition updateProviderNetworkForNode (providerID nodeID : string)
    (existingNetwork : aostypes.NetworkParameters) (m : NetworkManager)
  : (aostypes.NetworkParameters * option error) * NetworkManager :=
  let networkParameter :=
    {| nps_NetworkParameters := existingNetwork; NodeID := nodeID |} in
  let '((networkParameter, err), m) :=
    setupNetworkParameters providerID networkParameter m in
  match err with
  | Some e => ((aostypes.NetworkParameters_zero, Some e), m)
  | None => ((nps_NetworkParameters networkParameter, None), m)
  end.

(** The loop of [addProviderNetworks]; [networkParameters] is the slice
    built so far, which is also what an early return hands back. *)
Fixpoint addProviderNetworks_loop (nodeID : string)
    (networkParameters : list aostypes.NetworkParameters)
    (providers : list string) (m : NetworkManager)
  : (list aostypes.NetworkParameters * option error) * NetworkManager :=
  match providers with
  | [] => ((networkParameters, None), m)
  | providerID :: rest =>
      match providerNetworks m !! providerID with
      | Some networks =>
          match List.find (λ n, bool_decide (NodeID n = nodeID)) networks with
          | Some networkParameter =>
              addProviderNetworks_loop nodeID
                (networkParameters ++ [nps_NetworkParameters networkParameter])
                rest m
          | None =>
              match networks with
              | [] => ((networkParameters, Some panicIndexOutOfRange), m)
              | first :: _ =>
                  let '((netParam, err), m) :=
                    updateProviderNetworkForNode providerID nodeID
                      (nps_NetworkParameters first) m in
                  match err with
                  | Some e => ((networkParameters, Some e), m)
                  | None =>
                      addProviderNetworks_loop nodeID
                        (networkParameters ++ [netParam]) rest m
                  end
              end
          end
      | None =>
          let '((netParam, err), m) :=
            createProviderNetwork providerID nodeID m in
          match err with
          | Some e => ((networkParameters, Some e), m)
          | None =>
              addProviderNetworks_loop nodeID
                (networkParameters ++ [netParam]) rest m
          end
      end
  end.

Definition addProviderNetworks (providers : list string) (nodeID : string)
    (m : NetworkManager)
  : (list aostypes.NetworkParameters * option error) * NetworkManager :=
  addProviderNetworks_loop nodeID [] providers m.

Definition UpdateProviderNetwork (providers : list string) (nodeID : string)
    (m : NetworkManager) : option error * NetworkManager :=
  let m := removeProviderNetworks providers nodeID m in
  let '((networkParameters, err), m) :=
    addProviderNetworks providers nodeID m in
  match err with
  | Some e => (Some e, m)
  | None =>
      let '(err, nm) := UpdateNetwork nodeID networkParameters (nodeManager m) in
      (errExternal <$> err, set_nodeManager m nm)
  end.

(** [GetInstances]. *)
Definition GetInstances (m : NetworkManager) : list aostypes.InstanceIdent :=
  flat_map (λ entry, fst <$> range entry.2) (range (instancesData m)).

(** The loop of [New] over the provider networks read from the storage. *)
Definition New_providerNetworks
    (networksInfo : list NetworkParametersStorage)
  : gmap string (list NetworkParametersStorage) :=
  foldl (λ providerNetworks networkInfo,
           let networkID :=
             aostypes.NetworkID (nps_NetworkParameters networkInfo) in
           <[networkID :=
               default [] (providerNetworks !! networkID) ++ [networkInfo]]>
             providerNetworks)
        ∅ networksInfo.

Definition with_DNSServers (info : InstanceNetworkInfo)
    (servers : list string) : InstanceNetworkInfo :=
  {| info_InstanceIdent := info_InstanceIdent info;
     info_NetworkParameters :=
       {| aostypes.NetworkID :=
            aostypes.NetworkID (info_NetworkParameters info);
          aostypes.Subnet := aostypes.Subnet (info_NetworkParameters info);
          aostypes.IP := aostypes.IP (info_NetworkParameters info);
          aostypes.VlanID := aostypes.VlanID (info_NetworkParameters info);
          aostypes.DNSServers := servers;
          aostypes.FirewallRules :=
            aostypes.FirewallRules (info_NetworkParameters info) |};
     Rules := Rules info |}.

(** The loop of [New] over the instances read from the storage;
    [dnsIPAddress] is the [IPAddress] of the DNS server. *)
Definition New_instancesData (dnsIPAddress : string)
    (networkInstancesInfos : list InstanceNetworkInfo)
  : gmap string (gmap aostypes.InstanceIdent InstanceNetworkInfo) :=
  foldl (λ instancesData networkInfo,
           let networkID :=
             aostypes.NetworkID (info_NetworkParameters networkInfo) in
           let instancesData :=
             if decide (size (default ∅ (instancesData !! networkID)) = 0)
             then <[networkID := ∅]> instancesData else instancesData in
           let networkInfo := with_DNSServers networkInfo [dnsIPAddress] in
           <[networkID :=
               <[info_InstanceIdent networkInfo := networkInfo]>
                 (default ∅ (instancesData !! networkID))]> instancesData)
        ∅ networkInstancesInfos.

End manager.

Global Arguments NetworkManager {_ _ _ _ _}.

End networkmanager.

(** ** Package launcher: the node handler *)

Module launcher.

Definition wrap_int (z : Z) : Z := ((z + 2 ^ 63) mod 2 ^ 64 - 2 ^ 63)%Z.

Inductive error :=
  | errCantAllocateDevice (device : string)
  | errNoNodeWithRunner (runners : list string)
  | errNoNodeWithLabels (labels : list string)
  | errNoNodeWithResources (resources : list string)
  | errNoAvailableDevice.

Record nodeDevice := {
  name : string;
  sharedCount : Z;
  allocatedCount : Z;
}.

(** The fields of [nodeHandler] the filters and the allocation read.
    [nodeRunners] is what [nodeInfo.GetNodeRunners()] (aos_common) returns
    for the node: a list of runner names, or an error. *)
Record nodeHandler := {
  nodeID : string;
  nodeRunners : string + list string;
  availableResources : list string;
  availableLabels : list string;
  availableDevices : list nodeDevice;
  priority : N;
}.




(** The inner loop of [allocateDevices] for one requested device:
    [Some devices] when a counter was incremented ([continue
    serviceDeviceLoop]), [None] when the function returns its error. *)
Fixpoint allocateDevice (devices : list nodeDevice) (serviceDevice : string)
  : option (list nodeDevice) :=
  match devices with
  | [] => None
  | device :: rest =>
      if decide (name device ≠ serviceDevice)
      then (device ::.) <$> allocateDevice rest serviceDevice
      else if decide (sharedCount device ≠ 0%Z) then
        if decide (allocatedCount device = sharedCount device) then None
        else Some ({| name := name device;
                      sharedCount := sharedCount device;
                      allocatedCount := wrap_int (allocatedCount device + 1)%Z |}
                   :: rest)
      else (device ::.) <$> allocateDevice rest serviceDevice
  end.

(** [allocateDevices] on the node's device table: the error, if any, and
    the table it leaves (increments made before a failure stay). *)
Fixpoint allocateDevices (serviceDevices : list aostypes.ServiceDevice)
    (devices : list nodeDevice) : option error * list nodeDevice :=
  match serviceDevices with
  | [] => (None, devices)
  | serviceDevice :: rest =>
      match allocateDevice devices (aostypes.Name serviceDevice) with
      | None =>
          (Some (errCantAllocateDevice (aostypes.Name serviceDevice)), devices)
      | Some devices => allocateDevices rest devices
      end
  end.

Definition nodeHasDesiredDevices (node : nodeHandler)
    (desiredDevices : list aostypes.ServiceDevice) : bool :=
  forallb
    (λ desiredDevice,
       existsb
         (λ nodeDevice,
            bool_decide (aostypes.Name desiredDevice = name nodeDevice)
            && (bool_decide (sharedCount nodeDevice = 0%Z)
                || bool_decide (allocatedCount nodeDevice
                                ≠ sharedCount nodeDevice)))
         (availableDevices node))
    desiredDevices.

Definition getNodesByDevices (availableNodes : list nodeHandler)
    (desiredDevices : list aostypes.ServiceDevice)
  : list nodeHandler * option error :=
  if decide (length desiredDevices = 0) then (availableNodes, None)
  else
    let nodes :=
      List.filter (λ node, nodeHasDesiredDevices node desiredDevices)
                  availableNodes in
    if decide (length nodes = 0) then (nodes, Some errNoAvailableDevice)
    else (nodes, None).

Definition getNodesByResources (nodes : list nodeHandler)
    (desiredResources : list string) : list nodeHandler :=
  if decide (length desiredResources = 0) then nodes
  else
    List.filter
      (λ node,
         negb (bool_decide (length (availableResources node) = 0))
         && forallb (gostrings.Contains (availableResources node))
                    desiredResources)
      nodes.

Definition getNodesByLabels (nodes : list nodeHandler)
    (desiredLabels : list string) : list nodeHandler :=
  if decide (length desiredLabels = 0) then nodes
  else
    List.filter
      (λ node,
         negb (bool_decide (length (availableLabels node) = 0))
         && forallb (gostrings.Contains (availableLabels node)) desiredLabels)
      nodes.

Section runners.
(** The package variable [defaultRunners], declared outside this file. *)
Variable defaultRunners : list string.

(** The test of the inner loop of [getNodeByRunners]; a node whose runners
    cannot be read is skipped. *)
Definition nodeRuns (runner : string) (node : nodeHandler) : bool :=
  match nodeRunners node with
  | inl _ => false
  | inr nodeRunners =>
      (bool_decide (length nodeRunners = 0)
       && gostrings.Contains defaultRunners runner)
      || gostrings.Contains nodeRunners runner
  end.

Definition getNodeByRunners (allNodes : list nodeHandler)
    (runners : list string) : list nodeHandler :=
  let runners :=
    if decide (length runners = 0) then defaultRunners else runners in
  foldl (λ nodes runner,
           foldl (λ nodes node,
                    if nodeRuns runner node then nodes ++ [node] else nodes)
                 nodes allNodes)
        [] runners.

(** [getNodesByStaticResources], on the runners and resources of the
    service configuration and the labels of the instance. *)
Definition getNodesByStaticResources (allNodes : list nodeHandler)
    (runners resources labels : list string)
  : list nodeHandler * option error :=
  let nodes := getNodeByRunners allNodes runners in
  if decide (length nodes = 0) then (nodes, Some (errNoNodeWithRunner runners))
  else
    let nodes := getNodesByLabels nodes labels in
    if decide (length nodes = 0)
    then (nodes, Some (errNoNodeWithLabels labels))
    else
      let nodes := getNodesByResources nodes resources in
      if decide (length nodes = 0)
      then (nodes, Some (errNoNodeWithResources resources))
      else (nodes, None).

End runners.

(** The priority of [nodes[i]]. *)
Definition priorityAt (nodes : list nodeHandler) (i : nat) : N :=
  default 0%N (priority <$> nodes !! i).

(** The loop of [getMostPriorityNode] over the indices [1 .. len-1]. *)
Definition maxNodePriorityIndex (nodes : list nodeHandler) : nat :=
  foldl (λ maxNodePriorityIndex i,
           if decide (priorityAt nodes maxNodePriorityIndex
                      < priorityAt nodes i)%N
           then i else maxNodePriorityIndex)
        0 (seq 1 (length nodes - 1)).

(** [getMostPriorityNode]; [None] is the panic of [nodes[0]] on an empty
    slice. *)
Definition getMostPriorityNode (nodes : list nodeHandler)
  : option nodeHandler :=
  if decide (length nodes = 1) then nodes !! 0
  else nodes !! maxNodePriorityIndex nodes.

Section run_request.
(** The descriptors of a run request.  [reflect.DeepEqual] compares them
    field by field; of a service and of a layer the code reads and writes
    only the URL, the other fields are one value with that equality. *)
Context {InstanceInfo ServiceFields LayerFields : Type}.
Context `{!EqDecision ServiceFields, !EqDecision LayerFields}.

(** [aostypes.ServiceInfo] and [aostypes.LayerInfo]. *)
Record ServiceInfo := {
  ServiceInfo_URL : string;
  ServiceInfo_fields : ServiceFields;
}.
Record LayerInfo := {
  LayerInfo_URL : string;
  LayerInfo_fields : LayerFields;
}.

Global Instance ServiceInfo_eq_dec : EqDecision ServiceInfo.
Proof. solve_decision. Defined.
Global Instance LayerInfo_eq_dec : EqDecision LayerInfo.
Proof. solve_decision. Defined.

(** [imagemanager.ServiceInfo] and [imagemanager.LayerInfo]: the
    descriptor and its remote URL. *)
Record imageService := {
  service_ServiceInfo : ServiceInfo;
  service_RemoteURL : string;
}.
Record imageLayer := {
  layer_LayerInfo : LayerInfo;
  layer_RemoteURL : string;
}.

Record runRequestInfo := {
  Services : list ServiceInfo;
  Layers : list LayerInfo;
  Instances : list InstanceInfo;
}.

(** The descriptor [addRunRequest] schedules for a service and for a
    layer: with the remote URL on a node that is not the local one. *)
Definition scheduledService (isLocalNode : bool) (service : imageService)
  : ServiceInfo :=
  if isLocalNode then service_ServiceInfo service
  else {| ServiceInfo_URL := service_RemoteURL service;
          ServiceInfo_fields :=
            ServiceInfo_fields (service_ServiceInfo service) |}.

Definition scheduledLayer (isLocalNode : bool) (layer : imageLayer)
  : LayerInfo :=
  if isLocalNode then layer_LayerInfo layer
  else {| LayerInfo_URL := layer_RemoteURL layer;
          LayerInfo_fields := LayerInfo_fields (layer_LayerInfo layer) |}.

(** [addRunRequest] on the node's [isLocalNode] and [currentRunRequest]. *)
Definition addRunRequest (isLocalNode : bool) (instance : InstanceInfo)
    (service : imageService) (layers : list imageLayer)
    (currentRunRequest : runRequestInfo) : runRequestInfo :=
  let serviceInfo := scheduledService isLocalNode service in
  let isNewService :=
    negb (existsb (λ oldService, bool_decide (oldService = serviceInfo))
                  (Services currentRunRequest)) in
  {| Instances := Instances currentRunRequest ++ [instance];
     Services :=
       if isNewService then Services currentRunRequest ++ [serviceInfo]
       else Services currentRunRequest;
     Layers :=
       foldl (λ Layers layer,
                let newLayer := scheduledLayer isLocalNode layer in
                if existsb (λ oldLayer, bool_decide (newLayer = oldLayer))
                           Layers
                then Layers else Layers ++ [newLayer])
             (Layers currentRunRequest) layers |}.

End run_request.

Global Arguments ServiceInfo : clear implicits.
Global Arguments LayerInfo : clear implicits.
Global Arguments imageService : clear implicits.
Global Arguments imageLayer : clear implicits.
Global Arguments runRequestInfo : clear implicits.

End launcher.

(** ** Executable collaborators

    Instances of the collaborator classes on which the operations can be
    run: an IPv4 reading of package [net], the subnet allocator of the
    design document, an in-memory storage whose writes can be made to
    fail, a node manager that records what is published, a VLAN source
    that replays a given sequence of draws, a DNS server that keeps its
    host table, and [range] in the order of [map_to_list]. *)

Module ipv4.

Definition byte_of_Z (z : Z) : Byte.byte :=
  default Byte.x00 (Byte.of_N (Z.to_N (Z.land z 255))).
Definition Z_of_byte (b : Byte.byte) : Z := Z.of_N (Byte.to_N b).

(** A 32-bit address and its four bytes, most significant first. *)
Definition to_bytes (a : Z) : net.IP :=
  [byte_of_Z (Z.shiftr a 24); byte_of_Z (Z.shiftr a 16);
   byte_of_Z (Z.shiftr a 8); byte_of_Z a].

Definition of_bytes (ip : net.IP) : option Z :=
  match ip with
  | [a; b; c; d] =>
      Some (Z.lor (Z.shiftl (Z_of_byte a) 24)
              (Z.lor (Z.shiftl (Z_of_byte b) 16)
                 (Z.lor (Z.shiftl (Z_of_byte c) 8) (Z_of_byte d))))
  | _ => None
  end.

Record IPNet := {
  base : Z;
  prefix : Z;
}.

Definition mask (prefix : Z) : Z :=
  Z.land (Z.shiftl (2 ^ 32 - 1) (32 - prefix)) (2 ^ 32 - 1).

Definition Contains (n : IPNet) (ip : net.IP) : bool :=
  match of_bytes ip with
  | Some a => bool_decide (Z.land a (mask (prefix n)) = base n)
  | None => false
  end.

Fixpoint parse_digits (s : string) (acc : N) : option N :=
  match s with
  | EmptyString => Some acc
  | String c s' =>
      let n := N_of_ascii c in
      if decide (48 ≤ n ≤ 57)%N
      then parse_digits s' (acc * 10 + (n - 48))%N
      else None
  end.

(** A decimal number of one to three digits without a leading zero. *)
Definition parse_dec (s : string) : option N :=
  match s with
  | EmptyString => None
  | String c s' =>
      if decide ((c = "0"%char ∧ s' ≠ EmptyString) ∨ 3 < String.length s)
      then None else parse_digits s 0%N
  end.

Definition parse_addr (s : string) : option Z :=
  match gostrings.Split s "." with
  | [a; b; c; d] =>
      a ← parse_dec a; b ← parse_dec b; c ← parse_dec c; d ← parse_dec d;
      if decide (a ≤ 255 ∧ b ≤ 255 ∧ c ≤ 255 ∧ d ≤ 255)%N
      then Some (Z.of_N (((a * 256 + b) * 256 + c) * 256 + d))
      else None
  | _ => None
  end.

Definition ParseIP (s : string) : option net.IP := to_bytes <$> parse_addr s.

Definition ParseCIDR (s : string) : option IPNet :=
  match gostrings.Split s "/" with
  | [addr; len] =>
      a ← parse_addr addr; len ← parse_dec len;
      if decide (len ≤ 32)%N
      then Some {| base := Z.land a (mask (Z.of_N len));
                   prefix := Z.of_N len |}
      else None
  | _ => None
  end.

Definition dotted (a : Z) : string :=
  pretty (Z.land (Z.shiftr a 24) 255) +:+ "." +:+
  pretty (Z.land (Z.shiftr a 16) 255) +:+ "." +:+
  pretty (Z.land (Z.shiftr a 8) 255) +:+ "." +:+
  pretty (Z.land a 255).

Definition hex_digit (n : Z) : ascii :=
  ascii_of_N (Z.to_N (if decide (n < 10)%Z then 48 + n else 87 + n)).

Fixpoint hexString (ip : net.IP) : string :=
  match ip with
  | [] => EmptyString
  | b :: rest =>
      String (hex_digit (Z.shiftr (Z_of_byte b) 4))
        (String (hex_digit (Z.land (Z_of_byte b) 15)) (hexString rest))
  end.

(** [IP.String]: the nil address, a four-byte address, and the fallback
    for a slice that is no address. *)
Definition IP_String (ip : net.IP) : string :=
  match ip with
  | [] => "<nil>"
  | _ => match of_bytes ip with
         | Some a => dotted a
         | None => "?" +:+ hexString ip
         end
  end.

Definition IPNet_String (n : IPNet) : string :=
  dotted (base n) +:+ "/" +:+ pretty (prefix n).

#[export] Instance lib : net.Lib := {|
  net.IPNet := IPNet;
  net.ParseCIDR := ParseCIDR;
  net.ParseIP := ParseIP;
  net.Contains := Contains;
  net.IP_String := IP_String;
  net.IPNet_String := IPNet_String;
|}.

End ipv4.

Module sim.
Import networkmanager.
#[export] Existing Instance ipv4.lib.

(** Modelled from the spec: the subnet allocator (type [ipSubnet] with
    [prepareSubnet], [releaseIPToSubnet] and [releaseIPNetPool]) is
    declared outside this file.  A network that has a subnet gets the next
    unused host of it; a new network gets the first subnet of the
    aggregate that is still free, and its first host.  Releasing an IP
    marks it free; releasing a network gives its subnet back. *)
Record ipSubnet := {
  free : list ipv4.IPNet;
  pools : gmap string (ipv4.IPNet * list Z);
}.

Definition next_host (n : ipv4.IPNet) (used : list Z) : option Z :=
  List.find
    (λ a, bool_decide (a ∉ used)
          && bool_decide (a - ipv4.base n < 2 ^ (32 - ipv4.prefix n) - 1)%Z)
    ((λ k, ipv4.base n + Z.of_nat k)%Z <$> seq 1 (S (length used))).

Definition prepareSubnet (networkID : string) (a : ipSubnet)
  : (ext_error + ipv4.IPNet * net.IP) * ipSubnet :=
  match pools a !! networkID with
  | Some (n, used) =>
      match next_host n used with
      | Some ip =>
          (inr (n, ipv4.to_bytes ip),
           {| free := free a;
              pools := <[networkID := (n, used ++ [ip])]> (pools a) |})
      | None => (inl "no available ip", a)
      end
  | None =>
      match free a with
      | n :: rest =>
          match next_host n [] with
          | Some ip =>
              (inr (n, ipv4.to_bytes ip),
               {| free := rest;
                  pools := <[networkID := (n, [ip])]> (pools a) |})
          | None => (inl "no available ip", a)
          end
      | [] => (inl "no available subnet", a)
      end
  end.

Definition releaseIPToSubnet (networkID : string) (ip : net.IP)
    (a : ipSubnet) : ipSubnet :=
  match pools a !! networkID, ipv4.of_bytes ip with
  | Some (n, used), Some addr =>
      {| free := free a;
         pools :=
           <[networkID :=
               (n, List.filter (λ u, bool_decide (u ≠ addr)) used)]>
             (pools a) |}
  | _, _ => a
  end.

Definition releaseIPNetPool (networkID : string) (a : ipSubnet) : ipSubnet :=
  match pools a !! networkID with
  | Some (n, _) =>
      {| free := n :: free a; pools := delete networkID (pools a) |}
  | None => a
  end.

#[export] Instance ipam : Ipam := {|
  networkmanager.ipSubnet := ipSubnet;
  GetIPSubnet := prepareSubnet;
  networkmanager.releaseIPToSubnet := releaseIPToSubnet;
  networkmanager.releaseIPNetPool := releaseIPNetPool;
|}.

(** An in-memory storage.  While [failing] is set every write is refused,
    as a database that is down would. *)
Record db := {
  instanceRows : gmap aostypes.InstanceIdent InstanceNetworkInfo;
  networkRows : list NetworkParametersStorage;
  failing : bool;
}.

#[export] Instance store : Storage := {|
  storage_t := db;
  AddNetworkInstanceInfo info d :=
    if failing d then (Some "storage is down", d)
    else (None, {| instanceRows :=
                     <[info_InstanceIdent info := info]> (instanceRows d);
                   networkRows := networkRows d; failing := failing d |});
  RemoveNetworkInstanceInfo ident d :=
    if failing d then (Some "storage is down", d)
    else (None, {| instanceRows := delete ident (instanceRows d);
                   networkRows := networkRows d; failing := failing d |});
  RemoveNetworkInfo networkID nodeID d :=
    if failing d then (Some "storage is down", d)
    else (None,
          {| instanceRows := instanceRows d;
             networkRows :=
               List.filter
                 (λ row, negb (bool_decide
                    (aostypes.NetworkID (nps_NetworkParameters row) = networkID
                     ∧ NodeID row = nodeID)))
                 (networkRows d);
             failing := failing d |});
  AddNetworkInfo info d :=
    if failing d then (Some "storage is down", d)
    else (None, {| instanceRows := instanceRows d;
                   networkRows := networkRows d ++ [info];
                   failing := failing d |});
|}.

(** A node manager that records every publication. *)
#[export] Instance nodes : NodeManager := {|
  nodeManager_t := list (string * list aostypes.NetworkParameters);
  UpdateNetwork nodeID networkParameters published :=
    (None, published ++ [(nodeID, networkParameters)]);
|}.

(** [getVlanID] on a random source that replays the draws it is given. *)
#[export] Instance vlans : VlanSource := {|
  vlan_t := list N;
  GetVlanID _ draws :=
    match draws with
    | drawn :: rest => (getVlanID (inr (drawn mod vlanIDCapacity)%N), rest)
    | [] => (getVlanID (inl "no random data"), [])
    end;
|}.

(** Modelled from the spec: [dnsServer.addHosts] is defined outside this
    file; it overwrites the entry of the IP with the given host names. *)
#[export] Instance dnsd : DnsServer := {|
  addHosts names ip d :=
    (None, {| IPAddress := IPAddress d; hosts := <[ip := names]> (hosts d) |});
|}.

#[export] Instance order : RangeOrder := {|
  range K _ _ V m := map_to_list m;
  range_perm K _ _ V m := reflexivity (map_to_list m);
|}.

(** The aggregate the allocator carves its subnets from. *)
Definition aggregate : list ipv4.IPNet :=
  [{| ipv4.base := 2886795264; ipv4.prefix := 16 |};
   {| ipv4.base := 2886860800; ipv4.prefix := 16 |};
   {| ipv4.base := 2886926336; ipv4.prefix := 16 |}].

(** The manager [New] builds on an empty storage. *)
Definition fresh (draws : list N) (down : bool) : NetworkManager :=
  {| instancesData := ∅;
     providerNetworks := ∅;
     ipamSubnet := {| free := aggregate; pools := ∅ |};
     dns := {| IPAddress := "10.0.0.1"; hosts := ∅ |};
     storage := {| instanceRows := ∅; networkRows := []; failing := down |};
     nodeManager := [];
     vlanSource := draws |}.

End sim.

(** * Vocabulary of the properties *)

Module launcher_spec.
Import launcher.

(** The counters of a device are within its shares. *)
Definition device_ok (d : nodeDevice) : Prop :=
  (0 ≤ allocatedCount d ≤ sharedCount d)%Z.

(** What one call may do to a device: nothing, or one more share of a
    shareable device that was not exhausted. *)
Definition device_step (d d' : nodeDevice) : Prop :=
  name d' = name d ∧ sharedCount d' = sharedCount d ∧
  (allocatedCount d' = allocatedCount d
   ∨ (sharedCount d ≠ 0%Z ∧ allocatedCount d ≠ sharedCount d
      ∧ allocatedCount d' = wrap_int (allocatedCount d + 1))).


(** A request for the device "gpu", and a node whose only device it is. *)
Definition gpu_request : list aostypes.ServiceDevice :=
  [{| aostypes.Name := "gpu"; aostypes.Permissions := "rw" |}].

Definition node_with_gpu (shared allocated : Z) : nodeHandler :=
  {| nodeID := "node1"; nodeRunners := inr [];
     availableResources := []; availableLabels := [];
     availableDevices :=
       [{| name := "gpu"; sharedCount := shared;
           allocatedCount := allocated |}];
     priority := 5%N |}.

End launcher_spec.

Module manager_spec.
Import networkmanager.

Section vocabulary.
Context `{!net.Lib, !Storage, !NodeManager, !Ipam, !VlanSource, !DnsServer,
          !RangeOrder}.

(** The record of [instanceIdent] filed under [networkID], if any. *)
Definition bound_in (m : NetworkManager) (networkID : string)
    (instanceIdent : aostypes.InstanceIdent) : option InstanceNetworkInfo :=
  match instancesData m !! networkID with
  | Some instances => instances !! instanceIdent
  | None => None
  end.

(** [target] is an instance an [AllowConnections] entry for
    [serviceID/port/protocol] of a source in [subnet] may be resolved to:
    it runs the service, lies outside the subnet and exposes the port. *)
Definition is_target (subnet serviceID port protocol : string)
    (target : InstanceNetworkInfo) : Prop :=
  aostypes.ServiceID (info_InstanceIdent target) = serviceID
  ∧ checkIPInSubnet subnet (aostypes.IP (info_NetworkParameters target))
    = Ok false
  ∧ ruleExists target port protocol = true.

(** The rule for the target [target]. *)
Definition rule_to (target : InstanceNetworkInfo) (port protocol ip : string)
  : aostypes.FirewallRule :=
  {| aostypes.DstIP := aostypes.IP (info_NetworkParameters target);
     aostypes.SrcIP := ip;
     aostypes.Proto := protocol;
     aostypes.DstPort := port |}.

(** What one [AllowConnections] entry adds to the rules. *)
Definition entry_rules (m : NetworkManager) (subnet ip connection : string)
  : list aostypes.FirewallRule :=
  match parseAllowConnection connection with
  | Ok (serviceID, port, protocol) =>
      match getInstanceRule m serviceID subnet port protocol ip with
      | Ok rule => [rule]
      | Err _ => []
      end
  | Err _ => []
  end.

Definition with_ExposePorts (params : NetworkParameters)
    (exposePorts : list string) : NetworkParameters :=
  {| Hosts := Hosts params; AllowConnections := AllowConnections params;
     ExposePorts := exposePorts |}.

(** The bindings of a provider network that are not those of [nodeID]. *)
Definition keepOthers (nodeID : string)
    (networksInfo : list NetworkParametersStorage)
  : list NetworkParametersStorage :=
  List.filter (λ info, bool_decide (NodeID info ≠ nodeID)) networksInfo.

(** What [removeProviderNetworks providers nodeID] leaves of the bindings
    [networksInfo] of the network [networkID]; [None] when the network is
    torn down. *)
Definition keptNetworks (providers : list string) (nodeID networkID : string)
    (networksInfo : list NetworkParametersStorage)
  : option (list NetworkParametersStorage) :=
  let validNetworks := keepOthers "" networksInfo in
  if bool_decide (networkID ∈ providers)
     && bool_decide (0 < length validNetworks)
  then Some validNetworks
  else
    let filteredNetworks := keepOthers nodeID validNetworks in
    if bool_decide (0 < length filteredNetworks) then Some filteredNetworks
    else None.

(** Every binding is filed under its own network, and the bindings of one
    network carry one VLAN. *)
Definition vlan_stable
    (networks : gmap string (list NetworkParametersStorage)) : Prop :=
  ∀ networkID bindings, networks !! networkID = Some bindings →
    ∀ b, b ∈ bindings →
      aostypes.NetworkID (nps_NetworkParameters b) = networkID
      ∧ ∀ b', b' ∈ bindings →
          aostypes.VlanID (nps_NetworkParameters b)
          = aostypes.VlanID (nps_NetworkParameters b').

(** The managers [UpdateProviderNetwork] calls lead to from one that has
    no instance and no provider network. *)
Inductive reachable : NetworkManager → Prop :=
  | reachable_empty m :
      instancesData m = ∅ → providerNetworks m = ∅ → reachable m
  | reachable_update m providers nodeID :
      reachable m →
      reachable (UpdateProviderNetwork providers nodeID m).2.

(** The provider networks are settled for [providers] and [nodeID]: no
    network is empty or has an unassigned binding, and [nodeID] is bound
    to exactly the networks of [providers]. *)
Definition settled (providers : list string) (nodeID : string)
    (networks : gmap string (list NetworkParametersStorage)) : Prop :=
  (∀ networkID bindings, networks !! networkID = Some bindings →
     bindings ≠ []
     ∧ Forall (λ b, NodeID b ≠ "") bindings
     ∧ (networkID ∈ providers → ∃ b, b ∈ bindings ∧ NodeID b = nodeID)
     ∧ (networkID ∉ providers → Forall (λ b, NodeID b ≠ nodeID) bindings))
  ∧ ∀ providerID, providerID ∈ providers →
      is_Some (networks !! providerID).

(** The binding [b] may be added for [nodeID] to the network [networkID]:
    to a network that has bindings, none of them of [nodeID], with the
    network and VLAN of its first binding; or as the first one. *)
Definition joins (networks : gmap string (list NetworkParametersStorage))
    (nodeID networkID : string) (b : NetworkParametersStorage) : Prop :=
  NodeID b = nodeID
  ∧ match networks !! networkID with
    | Some bindings =>
        Forall (λ x, NodeID x ≠ nodeID) bindings
        ∧ ∃ first rest, bindings = first :: rest
            ∧ aostypes.NetworkID (nps_NetworkParameters b)
              = aostypes.NetworkID (nps_NetworkParameters first)
            ∧ aostypes.VlanID (nps_NetworkParameters b)
              = aostypes.VlanID (nps_NetworkParameters first)
    | None => aostypes.NetworkID (nps_NetworkParameters b) = networkID
    end.

End vocabulary.
End manager_spec.

(** ** Scenarios on the executable collaborators *)

Module scenario.
Import networkmanager sim.

Definition svcA : aostypes.InstanceIdent :=
  {| aostypes.ServiceID := "svcA"; aostypes.SubjectID := "sub";
     aostypes.Instance := 0%N |}.
Definition svcB0 : aostypes.InstanceIdent :=
  {| aostypes.ServiceID := "svcB"; aostypes.SubjectID := "sub";
     aostypes.Instance := 0%N |}.
Definition svcB1 : aostypes.InstanceIdent :=
  {| aostypes.ServiceID := "svcB"; aostypes.SubjectID := "sub";
     aostypes.Instance := 1%N |}.

(** A policy that exposes port 80, and one that connects to it. *)
Definition web : NetworkParameters :=
  {| Hosts := []; AllowConnections := []; ExposePorts := ["80"] |}.
Definition client : NetworkParameters :=
  {| Hosts := []; AllowConnections := ["svcB/80"; "nosuch/443"];
     ExposePorts := [] |}.

(** [svcB] runs on "netX" and on "netY", [svcA] on "netX". *)
Definition three_instances : NetworkManager :=
  let m := fresh [] false in
  let m := (PrepareInstanceNetworkParameters svcB0 "netX" web m).2 in
  let m := (PrepareInstanceNetworkParameters svcB1 "netY" web m).2 in
  (PrepareInstanceNetworkParameters svcA "netX" client m).2.

(** The record of [svcA] in [three_instances]. *)
Definition svcA_info : InstanceNetworkInfo :=
  {| info_InstanceIdent := svcA;
     info_NetworkParameters :=
       {| aostypes.NetworkID := "netX";
          aostypes.Subnet := "172.17.0.0/16";
          aostypes.IP := "172.17.0.2";
          aostypes.VlanID := 0%N;
          aostypes.DNSServers := ["10.0.0.1"];
          aostypes.FirewallRules := [] |};
     Rules := [] |}.

(** The rule from [svcA] to the instance of [svcB] on "netY". *)
Definition svcA_to_svcB : aostypes.FirewallRule :=
  {| aostypes.DstIP := "172.18.0.1"; aostypes.DstPort := "80";
     aostypes.Proto := "tcp"; aostypes.SrcIP := "172.17.0.2" |}.

(** [svcA] runs on "netX" alone. *)
Definition on_netX : NetworkManager :=
  (PrepareInstanceNetworkParameters svcA "netX" web (fresh [] false)).2.

(** "netX" is bound to "nodeA", and then also to "nodeB". *)
Definition one_node : NetworkManager :=
  (UpdateProviderNetwork ["netX"] "nodeA" (fresh [5%N; 7%N] false)).2.
Definition two_nodes : NetworkManager :=
  (UpdateProviderNetwork ["netX"] "nodeB" one_node).2.

Definition binding (nodeID ip : string) : NetworkParametersStorage :=
  {| nps_NetworkParameters :=
       {| aostypes.NetworkID := "netX";
          aostypes.Subnet := "172.17.0.0/16";
          aostypes.IP := ip;
          aostypes.VlanID := 6%N;
          aostypes.DNSServers := [];
          aostypes.FirewallRules := [] |};
     NodeID := nodeID |}.

(** The storage goes down. *)
Definition storage_down (m : NetworkManager) : NetworkManager :=
  set_storage m
    {| instanceRows := instanceRows (storage m);
       networkRows := networkRows (storage m);
       failing := true |}.

End scenario.

(** ** Further vocabulary of the network manager *)

Module policy_spec.
Import networkmanager.

(** How often the byte [sep] occurs in [s]. *)
Fixpoint count_sep (sep : ascii) (s : string) : nat :=
  match s with
  | EmptyString => 0
  | String c s' =>
      (if decide (c = sep) then 1 else 0) + count_sep sep s'
  end.

(** [strings.Join] for a one-byte separator. *)
Fixpoint Join (pieces : list string) (sep : ascii) : string :=
  match pieces with
  | [] => EmptyString
  | [piece] => piece
  | piece :: rest => piece +:+ String sep (Join rest sep)
  end.

(** [rule] is what the [ExposePorts] entry [exposePort] stands for. *)
Definition exposes (exposePort : string) (rule : FirewallRule) : Prop :=
  count_sep "/" (Port rule) = 0
  ∧ ((exposePort = Port rule ∧ Protocol rule = "tcp")
     ∨ (count_sep "/" (Protocol rule) = 0
        ∧ exposePort = Port rule +:+ "/" +:+ Protocol rule)).

(** The record of [instanceIdent] filed under [networkID] in a table of
    instance records. *)
Definition filed_in
    (instancesData :
       gmap string (gmap aostypes.InstanceIdent InstanceNetworkInfo))
    (networkID : string) (instanceIdent : aostypes.InstanceIdent)
  : option InstanceNetworkInfo :=
  match instancesData !! networkID with
  | Some instances => instances !! instanceIdent
  | None => None
  end.

(** The rows of [networkID], and those of [instanceIdent] in it. *)
Definition rows_of (networkID : string)
    (networksInfo : list NetworkParametersStorage)
  : list NetworkParametersStorage :=
  List.filter
    (λ row, bool_decide
              (aostypes.NetworkID (nps_NetworkParameters row) = networkID))
    networksInfo.

Definition rows_of_instance (networkID : string)
    (instanceIdent : aostypes.InstanceIdent)
    (infos : list InstanceNetworkInfo) : list InstanceNetworkInfo :=
  List.filter
    (λ row, bool_decide
              (aostypes.NetworkID (info_NetworkParameters row) = networkID
               ∧ info_InstanceIdent row = instanceIdent))
    infos.

End policy_spec.

(** ** Further vocabulary and scenarios of the node handler *)

Module placement_spec.
Import launcher.

(** [d] is what a device [d0] may have become after allocations: the same
    device, and still without a free share if [d0] had none. *)
Definition device_keeps (d0 d : nodeDevice) : Prop :=
  name d = name d0 ∧ sharedCount d = sharedCount d0
  ∧ (allocatedCount d0 = sharedCount d0 →
     allocatedCount d = sharedCount d).

(** The shares in use on a node. *)
Definition allocated (devices : list nodeDevice) : Z :=
  foldr (λ d total, (allocatedCount d + total)%Z) 0%Z devices.

(** [node'] is [node] with some labels and resources taken away. *)
Definition fewer_capabilities (node' node : nodeHandler) : Prop :=
  nodeID node' = nodeID node
  ∧ nodeRunners node' = nodeRunners node
  ∧ (∀ label, label ∈ availableLabels node' → label ∈ availableLabels node)
  ∧ (∀ resource, resource ∈ availableResources node' →
                 resource ∈ availableResources node).

(** [nodes'] lists nodes of [nodes], in their order, some of them left
    out and the others with fewer capabilities. *)
Inductive shrinks : list nodeHandler → list nodeHandler → Prop :=
  | shrinks_nil : shrinks [] []
  | shrinks_keep node' node nodes' nodes :
      fewer_capabilities node' node → shrinks nodes' nodes →
      shrinks (node' :: nodes') (node :: nodes)
  | shrinks_drop node nodes' nodes :
      shrinks nodes' nodes → shrinks nodes' (node :: nodes).

Definition plain_node (id : string) (runners labels resources : list string)
    (devices : list nodeDevice) (prio : N) : nodeHandler :=
  {| nodeID := id; nodeRunners := inr runners;
     availableResources := resources; availableLabels := labels;
     availableDevices := devices; priority := prio |}.

(** Three nodes; the second and the third share the highest priority. *)
Definition cluster : list nodeHandler :=
  [plain_node "n1" ["runc"] ["a"; "b"] ["disk"] [] 5;
   plain_node "n2" [] ["a"] ["disk"; "gpu"] [] 10;
   plain_node "n3" ["crun"; "runc"] ["a"; "b"] [] [] 10].

(** The same nodes after "n1" has lost the label "b". *)
Definition smaller_cluster : list nodeHandler :=
  [plain_node "n1" ["runc"] ["a"] ["disk"] [] 5;
   plain_node "n2" [] ["a"] ["disk"; "gpu"] [] 10;
   plain_node "n3" ["crun"; "runc"] ["a"; "b"] [] [] 10].

Definition two_devices : list nodeDevice :=
  [{| name := "gpu"; sharedCount := 2%Z; allocatedCount := 0%Z |};
   {| name := "cam"; sharedCount := 1%Z; allocatedCount := 1%Z |}].

Definition request (names : list string) : list aostypes.ServiceDevice :=
  (λ n, {| aostypes.Name := n; aostypes.Permissions := "rw" |}) <$> names.

Definition service_v1 : imageService string :=
  {| service_ServiceInfo :=
       {| ServiceInfo_URL := "file:///svc"; ServiceInfo_fields := "svc 1.0" |};
     service_RemoteURL := "https://cm/svc" |}.

Definition layer_v1 : imageLayer string :=
  {| layer_LayerInfo :=
       {| LayerInfo_URL := "file:///layer"; LayerInfo_fields := "sha:1" |};
     layer_RemoteURL := "https://cm/layer" |}.

Definition empty_request : runRequestInfo nat string string :=
  {| Services := []; Layers := []; Instances := [] |}.

End placement_spec.

(** ** The managers the public operations lead to *)

Module lifecycle_spec.
Import networkmanager.

Section vocabulary.
Context `{!net.Lib, !Storage, !NodeManager, !Ipam, !VlanSource, !DnsServer,
          !RangeOrder}.

(** Every instance record is filed under its own network and identity. *)
Definition well_filed
    (instancesData :
       gmap string (gmap aostypes.InstanceIdent InstanceNetworkInfo))
  : Prop :=
  ∀ networkID instances instanceIdent info,
    instancesData !! networkID = Some instances →
    instances !! instanceIdent = Some info →
    info_InstanceIdent info = instanceIdent
    ∧ aostypes.NetworkID (info_NetworkParameters info) = networkID.

(** Every binding is filed under its own network. *)
Definition own_network
    (networks : gmap string (list NetworkParametersStorage)) : Prop :=
  ∀ networkID bindings b,
    networks !! networkID = Some bindings → b ∈ bindings →
    aostypes.NetworkID (nps_NetworkParameters b) = networkID.

(** The managers the exported operations lead to from one whose tables
    are those [New] builds from the rows of the storage. *)
Inductive operated : NetworkManager → Prop :=
  | operated_new m networksInfo networkInstancesInfos :
      providerNetworks m = New_providerNetworks networksInfo →
      instancesData m
      = New_instancesData (IPAddress (dns m)) networkInstancesInfos →
      operated m
  | operated_prepare m instanceIdent networkID params :
      operated m →
      operated
        (PrepareInstanceNetworkParameters instanceIdent networkID params m).2
  | operated_remove m instanceIdent :
      operated m →
      operated (RemoveInstanceNetworkParameters instanceIdent m)
  | operated_update m providers nodeID :
      operated m →
      operated (UpdateProviderNetwork providers nodeID m).2.

(** Both tables of a manager are filed that way. *)
Definition tables_kept (m : NetworkManager) : Prop :=
  well_filed (instancesData m) ∧ own_network (providerNetworks m).

(** The network [networkID] is torn down by
    [removeProviderNetworks providers nodeID]: it is known and none of its
    bindings is kept. *)
Definition torn_down (providers : list string) (nodeID : string)
    (m : NetworkManager) (networkID : string) : Prop :=
  ∃ bindings,
    providerNetworks m !! networkID = Some bindings
    ∧ manager_spec.keptNetworks providers nodeID networkID bindings = None.

End vocabulary.
End lifecycle_spec.

Module lifecycle_scenario.
Import networkmanager sim scenario.

(** [svcA] runs on "netX", which is then bound to "nodeA". *)
Definition served : NetworkManager :=
  let m :=
    (PrepareInstanceNetworkParameters svcA "netX" web
       (fresh [5%N] false)).2 in
  (UpdateProviderNetwork ["netX"] "nodeA" m).2.

(** An instance that exposes port 80 over TCP and port 53 over UDP. *)
Definition resolver : InstanceNetworkInfo :=
  {| info_InstanceIdent := svcB0;
     info_NetworkParameters := aostypes.NetworkParameters_zero;
     Rules := [{| Port := "80"; Protocol := "tcp" |};
               {| Port := "53"; Protocol := "udp" |}] |}.

End lifecycle_scenario.

(** ** The scan of [getInstanceRule] *)

Module firewall_spec.
Import networkmanager.

Section vocabulary.
Context `{!net.Lib}.

(** The scan of [getInstanceRule] for [serviceID/port/protocol] from
    [subnet] goes past the instance [x]: it runs another service, or its
    IP lies in the subnet, or it lies outside and does not expose the
    port. *)
Definition passed_over (subnet serviceID port protocol : string)
    (x : InstanceNetworkInfo) : Prop :=
  aostypes.ServiceID (info_InstanceIdent x) ≠ serviceID
  ∨ checkIPInSubnet subnet (aostypes.IP (info_NetworkParameters x)) = Ok true
  ∨ (checkIPInSubnet subnet (aostypes.IP (info_NetworkParameters x))
     = Ok false
     ∧ ruleExists x port protocol = false).

End vocabulary.
End firewall_spec.

Module firewall_scenario.
Import networkmanager sim scenario.

(** The records of the two instances of [svcB] in [three_instances]. *)
Definition svcB0_info : InstanceNetworkInfo :=
  {| info_InstanceIdent := svcB0;
     info_NetworkParameters :=
       {| aostypes.NetworkID := "netX";
          aostypes.Subnet := "172.17.0.0/16";
          aostypes.IP := "172.17.0.1";
          aostypes.VlanID := 0%N;
          aostypes.DNSServers := ["10.0.0.1"];
          aostypes.FirewallRules := [] |};
     Rules := [{| Port := "80"; Protocol := "tcp" |}] |}.
Definition svcB1_info : InstanceNetworkInfo :=
  {| info_InstanceIdent := svcB1;
     info_NetworkParameters :=
       {| aostypes.NetworkID := "netY";
          aostypes.Subnet := "172.18.0.0/16";
          aostypes.IP := "172.18.0.1";
          aostypes.VlanID := 0%N;
          aostypes.DNSServers := ["10.0.0.1"];
          aostypes.FirewallRules := [] |};
     Rules := [{| Port := "80"; Protocol := "tcp" |}] |}.

(** The rule from the instance on "netY" to the one of [svcB] on "netX". *)
Definition netY_to_svcB : aostypes.FirewallRule :=
  {| aostypes.DstIP := "172.17.0.1"; aostypes.DstPort := "80";
     aostypes.Proto := "tcp"; aostypes.SrcIP := "172.18.0.1" |}.

End firewall_scenario.

(** ** An identity left bound under two networks *)

Module rebinding_scenario.
Import networkmanager sim scenario.

(** [svcA] is bound on "netX" and then prepared for "netY": the record
    under "netX" stays, so the identity is bound under both. *)
Definition both_networks : NetworkManager :=
  (PrepareInstanceNetworkParameters svcA "netY" web on_netX).2.

(** A request with a malformed [ExposePorts] entry, and one that exposes
    another port. *)
Definition malformed : NetworkParameters :=
  {| Hosts := []; AllowConnections := []; ExposePorts := ["80/tcp/udp"] |}.
Definition other_port : NetworkParameters :=
  {| Hosts := []; AllowConnections := []; ExposePorts := ["443"] |}.

End rebinding_scenario.

(** ** Device tables outside the counter invariant *)

Module shares_scenario.
Import launcher.




End shares_scenario.

(** * Properties of the node handler *)

Section launcher_properties.
Import launcher launcher_spec.

Lemma device_step_refl d : device_step d d.
Proof. repeat split; auto. Qed.



Lemma allocateDevice_step devices n devices' :
  allocateDevice devices n = Some devices' →
  Forall2 device_step devices devices'.
Proof.
  revert devices'. induction devices as [| d rest IH]; intros devices' H.
  - discriminate.
  - simpl in H. destruct (decide (name d ≠ n)).
    + destruct (allocateDevice rest n) as [rest' |] eqn:E; simplify_eq/=.
      constructor; [apply device_step_refl | by apply IH].
    + destruct (decide (sharedCount d ≠ 0%Z)).
      * destruct (decide (allocatedCount d = sharedCount d)); simplify_eq.
        constructor.
        -- unfold device_step; simpl. tauto.
        -- apply Forall2_same_length_lookup. split; [done |].
           intros i x y Hx Hy. simplify_eq. apply device_step_refl.
      * destruct (allocateDevice rest n) as [rest' |] eqn:E; simplify_eq/=.
        constructor; [apply device_step_refl | by apply IH].
Qed.











End launcher_properties.

Section launcher_filters.
Import launcher launcher_spec.

Lemma nodeHasDesiredDevices_iff node desiredDevices :
  nodeHasDesiredDevices node desiredDevices = true ↔
  ∀ desired, desired ∈ desiredDevices →
    ∃ d, d ∈ availableDevices node ∧ name d = aostypes.Name desired
         ∧ (sharedCount d = 0%Z ∨ allocatedCount d ≠ sharedCount d).
Proof.
  unfold nodeHasDesiredDevices. rewrite forallb_forall. split.
  - intros H desired Hin. apply list_elem_of_In, H in Hin.
    apply existsb_exists in Hin as (d & Hd & Hcond).
    exists d. apply list_elem_of_In in Hd.
    apply andb_prop in Hcond as [Hn Hc]. apply bool_decide_eq_true in Hn.
    apply orb_prop in Hc as [Hc | Hc]; apply bool_decide_eq_true in Hc; auto.
  - intros H desired Hin. apply list_elem_of_In, H in Hin as (d & Hd & Hn & Hc).
    apply existsb_exists. exists d. split; [by apply list_elem_of_In |].
    apply andb_true_intro. split; [by apply bool_decide_eq_true |].
    apply orb_true_intro.
    destruct Hc; [left | right]; by apply bool_decide_eq_true.
Qed.

Lemma getNodesByDevices_filter availableNodes desiredDevices :
  (getNodesByDevices availableNodes desiredDevices).1
  = List.filter (λ node, nodeHasDesiredDevices node desiredDevices)
                availableNodes.
Proof.
  unfold getNodesByDevices. destruct (decide (length desiredDevices = 0)) as [H0 |].
  - apply nil_length_inv in H0 as ->. simpl.
    induction availableNodes as [| n l IH]; [done |]. simpl. by rewrite <- IH.
  - by destruct (decide _).
Qed.

(** C2, as amended. Under the counter invariant of C4, a node passes the
    devices filter if and only if, for every requested device, it has a
    local device of that name whose [sharedCount] is 0 or whose
    [allocatedCount] is strictly less than its [sharedCount]: a device
    with [sharedCount = 0] always satisfies the filter for its name. *)
Theorem devices_filter_free_share
    (availableNodes : list nodeHandler)
    (desiredDevices : list aostypes.ServiceDevice)
    (Hok : ∀ node, node ∈ availableNodes →
                   Forall device_ok (availableDevices node)) :
  ∀ node,
    node ∈ (getNodesByDevices availableNodes desiredDevices).1 ↔
    node ∈ availableNodes
    ∧ ∀ desired, desired ∈ desiredDevices →
        ∃ d, d ∈ availableDevices node ∧ name d = aostypes.Name desired
             ∧ (sharedCount d = 0%Z
                ∨ (allocatedCount d < sharedCount d)%Z).
Proof.
  intros node. rewrite getNodesByDevices_filter.
  rewrite list_elem_of_In, filter_In, <- list_elem_of_In.
  rewrite nodeHasDesiredDevices_iff. split.
  - intros [Hin H]. split; [done |]. intros desired Hd.
    destruct (H desired Hd) as (d & Hdin & Hn & Hc).
    exists d. repeat split; auto.
    destruct Hc as [| Hne]; [by left | right].
    pose proof (Hok node Hin) as Hall.
    rewrite Forall_forall in Hall. specialize (Hall d Hdin).
    unfold device_ok in Hall. lia.
  - intros [Hin H]. split; [done |]. intros desired Hd.
    destruct (H desired Hd) as (d & Hdin & Hn & Hc).
    exists d. repeat split; auto. destruct Hc; [by left | right; lia].
Qed.

Lemma devices_filter_free_share_witness :
  node_with_gpu 2 1 ∈ (getNodesByDevices [node_with_gpu 2 1] gpu_request).1.
Proof.
  apply (devices_filter_free_share [node_with_gpu 2 1] gpu_request).
  - intros node Hin. apply list_elem_of_singleton in Hin as ->.
    repeat constructor; simpl; lia.
  - split; [by apply list_elem_of_singleton |].
    intros desired Hin. apply list_elem_of_singleton in Hin as ->.
    eexists. split; [by apply list_elem_of_singleton |].
    split; [reflexivity | right; simpl; lia].
Defined.

(** C2 as the spec states it fails: a node whose only "gpu" device has
    [sharedCount = 0] passes the filter for a request of "gpu", although
    it has no device of that name with [sharedCount > 0]. *)
Lemma devices_filter_unshared_passes :
  let node := node_with_gpu 0 0 in
  nodeHasDesiredDevices node gpu_request = true
  ∧ node ∈ (getNodesByDevices [node] gpu_request).1
  ∧ ¬ (∀ desired, desired ∈ gpu_request →
         ∃ d, d ∈ availableDevices node ∧ name d = aostypes.Name desired
              ∧ (0 < sharedCount d)%Z
              ∧ (allocatedCount d < sharedCount d)%Z).
Proof.
  intros node. split; [reflexivity |]. split.
  - rewrite getNodesByDevices_filter. simpl. by apply list_elem_of_singleton.
  - intros H. destruct (H _ (list_elem_of_here _ _)) as (d & Hd & _ & Hs & _).
    apply list_elem_of_singleton in Hd as ->. simpl in Hs. lia.
Qed.



Lemma getNodeByRunners_loop defaultRunners allNodes runners nodes :
  foldl (λ nodes runner,
           foldl (λ nodes node,
                    if nodeRuns defaultRunners runner node
                    then nodes ++ [node] else nodes)
                 nodes allNodes)
        nodes runners
  = nodes ++ flat_map (λ runner,
                         List.filter (nodeRuns defaultRunners runner) allNodes)
                      runners.
Proof.
  revert nodes. induction runners as [| runner rest IH]; intros nodes; simpl.
  - by rewrite app_nil_r.
  - rewrite IH, app_assoc. f_equal.
    clear IH. revert nodes.
    induction allNodes as [| node l IHl]; intros nodes; simpl.
    + by rewrite app_nil_r.
    + rewrite IHl. destruct (nodeRuns defaultRunners runner node); simpl.
      * by rewrite <- app_assoc.
      * done.
Qed.

(** C10. The runners filter lists, for each requested runner in turn, the
    nodes that support it; so a node that supports two requested runners
    is returned twice, and the result follows the order of the runners,
    not of the nodes.  With nodes [n1; n2], where [n1] runs "runc" and
    [n2] runs "crun" and "runc", a request for "crun" and "runc" yields
    [n2; n1; n2], and this list goes unchanged through the labels and
    resources filters. *)
Theorem getNodeByRunners_repeats_nodes (defaultRunners : list string) :
  (∀ allNodes runners,
     getNodeByRunners defaultRunners allNodes runners
     = flat_map (λ runner,
                   List.filter (nodeRuns defaultRunners runner) allNodes)
                (if decide (length runners = 0)
                 then defaultRunners else runners))
  ∧ ∃ n1 n2 runners,
      NoDup [n1; n2]
      ∧ getNodeByRunners defaultRunners [n1; n2] runners = [n2; n1; n2]
      ∧ getNodesByStaticResources defaultRunners [n1; n2] runners [] []
        = ([n2; n1; n2], None).
Proof.
  split.
  - intros allNodes runners. unfold getNodeByRunners.
    by rewrite getNodeByRunners_loop.
  - exists {| nodeID := "n1"; nodeRunners := inr ["runc"];
              availableResources := []; availableLabels := [];
              availableDevices := []; priority := 0%N |},
           {| nodeID := "n2"; nodeRunners := inr ["crun"; "runc"];
              availableResources := []; availableLabels := [];
              availableDevices := []; priority := 0%N |},
           ["crun"; "runc"].
    split; [| split].
    + apply NoDup_cons. split; [| apply NoDup_singleton].
      intros Hin. apply list_elem_of_singleton in Hin. discriminate.
    + reflexivity.
    + reflexivity.
Qed.

End launcher_filters.

(** * Properties of the network manager *)

Section policy_examples.
Import networkmanager.
Local Existing Instance ipv4.lib.

Example Split_empty : gostrings.Split "" "/" = [""].
Proof. reflexivity. Qed.

Example Split_trailing : gostrings.Split "80/" "/" = ["80"; ""].
Proof. reflexivity. Qed.

Example parseAllowConnection_default :
  parseAllowConnection "svcB/80" = Ok ("svcB", "80", "tcp").
Proof. reflexivity. Qed.

Example parseAllowConnection_protocol :
  parseAllowConnection "svcB/53/udp" = Ok ("svcB", "53", "udp").
Proof. reflexivity. Qed.

Example parseAllowConnection_short :
  parseAllowConnection "svcB"
  = Err (errUnsupportedAllowedConnections ["svcB"]).
Proof. reflexivity. Qed.

Example parseExposedPorts_two :
  parseExposedPorts ["80"; "53/udp"]
  = Ok [{| Protocol := "tcp"; Port := "80" |};
        {| Protocol := "udp"; Port := "53" |}].
Proof. reflexivity. Qed.

Example parseExposedPorts_long :
  parseExposedPorts ["80"; "80/tcp/udp"]
  = Err (errUnsupportedExposedPorts "80/tcp/udp").
Proof. reflexivity. Qed.

Example instanceHosts_first :
  instanceHosts scenario.svcA "netX" ["host"]
  = ["host"; "0.sub.svcA"; "0.sub.svcA.netX"; "sub.svcA"; "sub.svcA.netX"].
Proof. reflexivity. Qed.

Example checkIPInSubnet_ipv4 :
  checkIPInSubnet "172.17.0.0/16" "172.17.3.4" = Ok true
  ∧ checkIPInSubnet "172.17.0.0/16" "172.18.0.1" = Ok false
  ∧ checkIPInSubnet "172.17.0.0/16" "172.18.0" = Err (errInvalidIP "172.18.0").
Proof. repeat split; vm_compute; reflexivity. Qed.

End policy_examples.

Section firewall_properties.
Import networkmanager manager_spec firewall_spec.
Context `{!net.Lib, !Storage, !NodeManager, !Ipam, !VlanSource, !DnsServer,
          !RangeOrder}.

Lemma getInstanceRule_loop_Ok instances serviceID subnet port protocol ip rule :
  getInstanceRule_loop instances serviceID subnet port protocol ip = Ok rule →
  ∃ before target after,
    instances = before ++ target :: after
    ∧ is_target subnet serviceID port protocol target
    ∧ rule = rule_to target port protocol ip
    ∧ Forall (λ x, ¬ is_target subnet serviceID port protocol x) before.
Proof.
  induction instances as [| x rest IH]; simpl; [discriminate |].
  intros Hrule.
  assert (∀ (Hskip : ¬ is_target subnet serviceID port protocol x),
            getInstanceRule_loop rest serviceID subnet port protocol ip
            = Ok rule →
            ∃ before target after,
              x :: rest = before ++ target :: after
              ∧ is_target subnet serviceID port protocol target
              ∧ rule = rule_to target port protocol ip
              ∧ Forall (λ x, ¬ is_target subnet serviceID port protocol x)
                       before) as Hnext.
  { intros Hskip Hrest.
    destruct (IH Hrest) as (before & target & after & -> & Ht & Hr & Hb).
    exists (x :: before), target, after.
    split; [done |]. split; [done |]. split; [done |]. by constructor. }
  destruct (decide (aostypes.ServiceID (info_InstanceIdent x) ≠ serviceID))
    as [Hne | Heq].
  { apply Hnext; [| done]. intros (Hs & _). done. }
  destruct (checkIPInSubnet subnet (aostypes.IP (info_NetworkParameters x)))
    as [[|] | e] eqn:Hcheck; [| | discriminate].
  { apply Hnext; [| done]. intros (_ & Hc & _). congruence. }
  destruct (ruleExists x port protocol) eqn:Hexists.
  - exists [], x, rest. simplify_eq. repeat split; auto.
    by destruct (decide (aostypes.ServiceID (info_InstanceIdent x) = serviceID));
      [| tauto].
  - apply Hnext; [| done]. intros (_ & _ & Hr). congruence.
Qed.

Lemma getInstanceRule_loop_no_service instances serviceID subnet port protocol ip :
  (∀ x, x ∈ instances →
        aostypes.ServiceID (info_InstanceIdent x) ≠ serviceID) →
  getInstanceRule_loop instances serviceID subnet port protocol ip
  = Err errRuleNotFound.
Proof.
  induction instances as [| x rest IH]; intros Hno; simpl; [done |].
  rewrite decide_True by (apply Hno; left).
  apply IH. intros y Hy. apply Hno. by right.
Qed.

Lemma parseAllowConnection_not_sentinel connection :
  parseAllowConnection connection ≠ Err errRuleNotFound.
Proof. unfold parseAllowConnection. by destruct (decide _). Qed.

Lemma prepareFirewallRules_loop_not_sentinel m subnet ip rules allowConnection :
  prepareFirewallRules_loop m subnet ip rules allowConnection
  ≠ Err errRuleNotFound.
Proof.
  revert rules. induction allowConnection as [| c rest IH]; intros rules; simpl.
  - discriminate.
  - pose proof (parseAllowConnection_not_sentinel c) as Hparse.
    destruct (parseAllowConnection c) as [[[serviceID port] protocol] | e];
      [| congruence].
    destruct (getInstanceRule m serviceID subnet port protocol ip) as [r | e].
    + apply IH.
    + destruct (decide (e = errRuleNotFound)); [apply IH | congruence].
Qed.

Lemma prepareFirewallRules_loop_entries m subnet ip rules allowConnection out :
  prepareFirewallRules_loop m subnet ip rules allowConnection = Ok out →
  out = rules ++ flat_map (entry_rules m subnet ip) allowConnection.
Proof.
  revert rules. induction allowConnection as [| c rest IH]; intros rules; simpl.
  - intros [= ->]. by rewrite app_nil_r.
  - unfold entry_rules at 1.
    destruct (parseAllowConnection c) as [[[serviceID port] protocol] | e];
      [| discriminate].
    destruct (getInstanceRule m serviceID subnet port protocol ip) as [r | e].
    + intros Hout. apply IH in Hout. by rewrite <- app_assoc in Hout.
    + destruct (decide (e = errRuleNotFound)); [| discriminate].
      intros Hout. by apply IH in Hout.
Qed.

Lemma prepareFirewallRules_loop_skip m subnet ip rules before c after
    serviceID port protocol :
  parseAllowConnection c = Ok (serviceID, port, protocol) →
  (∀ x, x ∈ rangeInstances m →
        aostypes.ServiceID (info_InstanceIdent x) ≠ serviceID) →
  prepareFirewallRules_loop m subnet ip rules (before ++ c :: after)
  = prepareFirewallRules_loop m subnet ip rules (before ++ after).
Proof.
  intros Hparse Hno. revert rules.
  induction before as [| b before IH]; intros rules; simpl.
  - rewrite Hparse. unfold getInstanceRule.
    rewrite getInstanceRule_loop_no_service by done.
    by rewrite decide_True.
  - destruct (parseAllowConnection b) as [[[s p] q] | e]; [| done].
    destruct (getInstanceRule m s subnet p q ip) as [r | e]; [apply IH |].
    destruct (decide (e = errRuleNotFound)); [apply IH | done].
Qed.

Lemma entry_rules_target m subnet ip connection rule :
  rule ∈ entry_rules m subnet ip connection →
  ∃ serviceID port protocol before target after,
    parseAllowConnection connection = Ok (serviceID, port, protocol)
    ∧ entry_rules m subnet ip connection = [rule]
    ∧ rangeInstances m = before ++ target :: after
    ∧ is_target subnet serviceID port protocol target
    ∧ rule = rule_to target port protocol ip
    ∧ Forall (λ x, ¬ is_target subnet serviceID port protocol x) before.
Proof.
  unfold entry_rules.
  destruct (parseAllowConnection connection) as [[[serviceID port] protocol] | e];
    [| by intros ?%elem_of_nil].
  destruct (getInstanceRule m serviceID subnet port protocol ip) as [r | e] eqn:Hr;
    [| by intros ?%elem_of_nil].
  intros ->%list_elem_of_singleton.
  apply getInstanceRule_loop_Ok in Hr
    as (before & target & after & ? & ? & ? & ?).
  by exists serviceID, port, protocol, before, target, after.
Qed.

(** C6. Every rule [prepareFirewallRules] returns has a destination IP
    for which the subnet check of the source answers "not inside"; so no
    rule is emitted toward an instance whose IP lies in the source's own
    subnet. *)
Theorem firewall_rules_leave_subnet
    (m : NetworkManager) (subnet ip : string) (allowConnection : list string)
    (rules : list aostypes.FirewallRule) (rule : aostypes.FirewallRule)
    (Hrules : prepareFirewallRules m subnet ip allowConnection = Ok rules)
    (Hrule : rule ∈ rules) :
  checkIPInSubnet subnet (aostypes.DstIP rule) = Ok false
  ∧ ∀ target, target ∈ rangeInstances m →
      checkIPInSubnet subnet (aostypes.IP (info_NetworkParameters target))
      = Ok true →
      aostypes.DstIP rule ≠ aostypes.IP (info_NetworkParameters target).
Proof.
  apply prepareFirewallRules_loop_entries in Hrules. simpl in Hrules. subst rules.
  apply list_elem_of_In, in_flat_map in Hrule as (c & _ & Hin).
  apply list_elem_of_In, entry_rules_target in Hin
    as (serviceID & port & protocol & before & target & after
        & _ & _ & _ & (_ & Hout & _) & -> & _).
  simpl. split; [done |]. intros other _ Hinside Heq. congruence.
Qed.

Lemma checkIPInSubnet_not_sentinel subnet ip :
  checkIPInSubnet subnet ip ≠ Err errRuleNotFound.
Proof.
  unfold checkIPInSubnet.
  destruct (net.ParseCIDR subnet); [| done]. by destruct (net.ParseIP ip).
Qed.

Lemma passed_over_next instances x serviceID subnet port protocol ip :
  passed_over subnet serviceID port protocol x →
  getInstanceRule_loop (x :: instances) serviceID subnet port protocol ip
  = getInstanceRule_loop instances serviceID subnet port protocol ip.
Proof.
  intros Hpass. simpl.
  destruct (decide (aostypes.ServiceID (info_InstanceIdent x) ≠ serviceID))
    as [| Hsame]; [done |].
  destruct Hpass as [? | [-> | [-> ->]]]; done.
Qed.

(** The scan stops at the first instance it does not go past. *)
Lemma getInstanceRule_loop_first instances serviceID subnet port protocol ip
    before target after :
  instances = before ++ target :: after →
  Forall (passed_over subnet serviceID port protocol) before →
  is_target subnet serviceID port protocol target →
  getInstanceRule_loop instances serviceID subnet port protocol ip
  = Ok (rule_to target port protocol ip).
Proof.
  intros -> Hbefore (Hservice & Hcheck & Hexists).
  induction Hbefore as [| x before Hx _ IH].
  - simpl. rewrite decide_False by (intros Hne; by apply Hne).
    by rewrite Hcheck, Hexists.
  - change ((x :: before) ++ target :: after)
      with (x :: (before ++ target :: after)).
    by rewrite passed_over_next.
Qed.

Lemma getInstanceRule_loop_Ok_first instances serviceID subnet port protocol
    ip rule :
  getInstanceRule_loop instances serviceID subnet port protocol ip = Ok rule →
  ∃ before target after,
    instances = before ++ target :: after
    ∧ Forall (passed_over subnet serviceID port protocol) before
    ∧ is_target subnet serviceID port protocol target
    ∧ rule = rule_to target port protocol ip.
Proof.
  induction instances as [| x rest IH]; simpl; [discriminate |].
  intros Hrule.
  assert (passed_over subnet serviceID port protocol x →
          getInstanceRule_loop rest serviceID subnet port protocol ip
          = Ok rule →
          ∃ before target after,
            x :: rest = before ++ target :: after
            ∧ Forall (passed_over subnet serviceID port protocol) before
            ∧ is_target subnet serviceID port protocol target
            ∧ rule = rule_to target port protocol ip) as Hnext.
  { intros Hpass Hrest.
    destruct (IH Hrest) as (before & target & after & -> & Hb & Ht & Hr).
    exists (x :: before), target, after.
    split; [done |]. split; [by constructor | done]. }
  destruct (decide (aostypes.ServiceID (info_InstanceIdent x) ≠ serviceID))
    as [Hne | Heq].
  { apply Hnext; [by left | done]. }
  destruct (checkIPInSubnet subnet (aostypes.IP (info_NetworkParameters x)))
    as [[|] | e] eqn:Hcheck; [| | discriminate].
  { apply Hnext; [right; by left | done]. }
  destruct (ruleExists x port protocol) eqn:Hexists.
  - exists [], x, rest. simplify_eq.
    split; [done |]. split; [constructor |]. split; [| done].
    split; [| done].
    by destruct (decide (aostypes.ServiceID (info_InstanceIdent x) = serviceID));
      [| tauto].
  - apply Hnext; [right; right; done | done].
Qed.

(** The sentinel is what the scan returns when it goes past every
    instance, and only then. *)
Lemma getInstanceRule_loop_sentinel instances serviceID subnet port protocol
    ip :
  getInstanceRule_loop instances serviceID subnet port protocol ip
  = Err errRuleNotFound
  ↔ Forall (passed_over subnet serviceID port protocol) instances.
Proof.
  split.
  - induction instances as [| x rest IH]; [by constructor |]. simpl.
    destruct (decide (aostypes.ServiceID (info_InstanceIdent x) ≠ serviceID))
      as [Hne | Heq].
    { intros Hrest. constructor; [by left | by apply IH]. }
    pose proof (checkIPInSubnet_not_sentinel subnet
                  (aostypes.IP (info_NetworkParameters x))) as Hcheck.
    destruct (checkIPInSubnet subnet (aostypes.IP (info_NetworkParameters x)))
      as [[|] | e] eqn:Hc; [| | congruence].
    { intros Hrest. constructor; [right; by left | by apply IH]. }
    destruct (ruleExists x port protocol) eqn:Hexists; [discriminate |].
    intros Hrest. constructor; [right; right; done | by apply IH].
  - induction 1 as [| x rest Hx _ IH]; [done |].
    by rewrite passed_over_next.
Qed.

Lemma prepareFirewallRules_loop_pass m subnet ip rules before c after
    serviceID port protocol :
  parseAllowConnection c = Ok (serviceID, port, protocol) →
  getInstanceRule m serviceID subnet port protocol ip = Err errRuleNotFound →
  prepareFirewallRules_loop m subnet ip rules (before ++ c :: after)
  = prepareFirewallRules_loop m subnet ip rules (before ++ after).
Proof.
  intros Hparse Hnone. revert rules.
  induction before as [| b before IH]; intros rules; simpl.
  - rewrite Hparse, Hnone. by rewrite decide_True.
  - destruct (parseAllowConnection b) as [[[s p] q] | e]; [| done].
    destruct (getInstanceRule m s subnet p q ip) as [r | e]; [apply IH |].
    destruct (decide (e = errRuleNotFound)); [apply IH | done].
Qed.

(** C8. [prepareFirewallRules] never returns the rule-not-found sentinel;
    its rules are, entry by entry and in order, at most one rule each.
    [getInstanceRule] returns a rule exactly when the scan meets a
    matching target, an instance that runs the service outside the
    subnet and exposes the port, after instances it goes past only, and
    the rule is the one toward that first target: the entry then adds
    exactly this rule.  It returns the sentinel exactly when the scan
    goes past every instance (each runs another service, lies in the
    subnet or does not expose the port), and such an entry adds no rule
    and no error: the call goes on as if the entry were not there. *)
Theorem firewall_rules_first_target
    (m : NetworkManager) (subnet ip : string) :
  (∀ allowConnection,
     prepareFirewallRules m subnet ip allowConnection ≠ Err errRuleNotFound)
  ∧ (∀ allowConnection rules,
       prepareFirewallRules m subnet ip allowConnection = Ok rules →
       rules = flat_map (entry_rules m subnet ip) allowConnection
       ∧ (length rules ≤ length allowConnection)%nat)
  ∧ (∀ connection, (length (entry_rules m subnet ip connection) ≤ 1)%nat)
  ∧ (∀ connection rule,
       rule ∈ entry_rules m subnet ip connection →
       ∃ serviceID port protocol before target after,
         parseAllowConnection connection = Ok (serviceID, port, protocol)
         ∧ entry_rules m subnet ip connection = [rule]
         ∧ rangeInstances m = before ++ target :: after
         ∧ is_target subnet serviceID port protocol target
         ∧ rule = rule_to target port protocol ip
         ∧ Forall (λ x, ¬ is_target subnet serviceID port protocol x) before)
  ∧ (∀ serviceID port protocol rule,
       getInstanceRule m serviceID subnet port protocol ip = Ok rule
       ↔ ∃ before target after,
           rangeInstances m = before ++ target :: after
           ∧ Forall (passed_over subnet serviceID port protocol) before
           ∧ is_target subnet serviceID port protocol target
           ∧ rule = rule_to target port protocol ip)
  ∧ (∀ serviceID port protocol,
       getInstanceRule m serviceID subnet port protocol ip
       = Err errRuleNotFound
       ↔ Forall (passed_over subnet serviceID port protocol)
                (rangeInstances m))
  ∧ (∀ connection serviceID port protocol before target after,
       parseAllowConnection connection = Ok (serviceID, port, protocol) →
       rangeInstances m = before ++ target :: after →
       Forall (passed_over subnet serviceID port protocol) before →
       is_target subnet serviceID port protocol target →
       entry_rules m subnet ip connection = [rule_to target port protocol ip]
       ∧ prepareFirewallRules m subnet ip [connection]
         = Ok [rule_to target port protocol ip])
  ∧ (∀ before connection after serviceID port protocol,
       parseAllowConnection connection = Ok (serviceID, port, protocol) →
       Forall (passed_over subnet serviceID port protocol)
              (rangeInstances m) →
       entry_rules m subnet ip connection = []
       ∧ prepareFirewallRules m subnet ip (before ++ connection :: after)
         = prepareFirewallRules m subnet ip (before ++ after)).
Proof.
  assert (∀ connection,
            (length (entry_rules m subnet ip connection) ≤ 1)%nat) as Hone.
  { intros c. unfold entry_rules.
    destruct (parseAllowConnection c) as [[[s p] q] | e]; [| simpl; lia].
    destruct (getInstanceRule m s subnet p q ip); simpl; lia. }
  split; [| split; [| split; [| split; [| split; [| split; [| split]]]]]].
  - intros allowConnection. apply prepareFirewallRules_loop_not_sentinel.
  - intros allowConnection rules Hrules.
    apply prepareFirewallRules_loop_entries in Hrules. simpl in Hrules.
    split; [done |]. subst rules. clear -Hone.
    induction allowConnection as [| c rest IH]; simpl; [lia |].
    rewrite length_app. specialize (Hone c). lia.
  - exact Hone.
  - intros connection rule. apply entry_rules_target.
  - intros serviceID port protocol rule. unfold getInstanceRule. split.
    + apply getInstanceRule_loop_Ok_first.
    + intros (before & target & after & Hscan & Hbefore & Htarget & ->).
      by apply (getInstanceRule_loop_first _ _ _ _ _ _ before target after).
  - intros serviceID port protocol. apply getInstanceRule_loop_sentinel.
  - intros connection serviceID port protocol before target after Hparse
      Hscan Hbefore Htarget.
    assert (getInstanceRule m serviceID subnet port protocol ip
            = Ok (rule_to target port protocol ip)) as Hrule
      by by apply (getInstanceRule_loop_first _ _ _ _ _ _ before target after).
    unfold entry_rules, prepareFirewallRules. simpl.
    by rewrite Hparse, Hrule.
  - intros before connection after serviceID port protocol Hparse Hpast.
    apply getInstanceRule_loop_sentinel
      with (ip := ip) in Hpast. fold (getInstanceRule m serviceID subnet port
                                        protocol ip) in Hpast.
    split.
    + unfold entry_rules. by rewrite Hparse, Hpast.
    + by apply (prepareFirewallRules_loop_pass _ _ _ _ _ _ _ serviceID port
                  protocol).
Qed.

End firewall_properties.

Section instance_properties.
Import networkmanager manager_spec.
Context `{!net.Lib, !Storage, !NodeManager, !Ipam, !VlanSource, !DnsServer,
          !RangeOrder}.

Lemma elem_of_range `{Countable K} {V} (m : gmap K V) k v :
  (k, v) ∈ range m ↔ m !! k = Some v.
Proof. by rewrite range_perm, elem_of_map_to_list. Qed.

Lemma getNetworkParametersToCache_loop_found instanceIdent networkID info networks :
  (∃ instanceData, (networkID, instanceData) ∈ networks
                   ∧ instanceData !! instanceIdent = Some info) →
  (∀ k instanceData x, (k, instanceData) ∈ networks →
     instanceData !! instanceIdent = Some x → k = networkID ∧ x = info) →
  getNetworkParametersToCache_loop instanceIdent networks
  = (info_NetworkParameters info, networkID, true).
Proof.
  induction networks as [| [k instanceData] rest IH];
    intros (bound & Hin & Hbound) Honly.
  - by apply elem_of_nil in Hin.
  - simpl. destruct (instanceData !! instanceIdent) as [x |] eqn:Hx.
    + destruct (Honly k instanceData x) as [-> ->]; [left | done | done].
    + apply IH.
      * exists bound. split; [| done].
        apply elem_of_cons in Hin as [Heq | Hin]; [| done]. simplify_eq.
      * intros k' d x Hd. apply Honly. by right.
Qed.

Lemma getNetworkParametersToCache_bound instanceIdent networkID m instances info :
  instancesData m !! networkID = Some instances →
  instances !! instanceIdent = Some info →
  (∀ other bound, other ≠ networkID →
     instancesData m !! other = Some bound → bound !! instanceIdent = None) →
  getNetworkParametersToCache instanceIdent m
  = (info_NetworkParameters info, networkID, true).
Proof.
  intros Hnet Hbound Hunique. unfold getNetworkParametersToCache.
  apply getNetworkParametersToCache_loop_found.
  - exists instances. split; [by apply elem_of_range | done].
  - intros k d x Hd%elem_of_range Hx.
    destruct (decide (k = networkID)) as [-> | Hne].
    + split; [done |]. congruence.
    + rewrite (Hunique k d Hne Hd) in Hx. discriminate.
Qed.

Lemma getInstanceRule_loop_error instances serviceID subnet port protocol ip e :
  getInstanceRule_loop instances serviceID subnet port protocol ip = Err e →
  e = errRuleNotFound ∨ e = errParseCIDR subnet ∨ ∃ bad, e = errInvalidIP bad.
Proof.
  induction instances as [| x rest IH]; simpl.
  - intros [= <-]. by left.
  - destruct (decide _); [done |].
    unfold checkIPInSubnet at 1.
    destruct (net.ParseCIDR subnet); [| intros [= <-]; right; by left].
    destruct (net.ParseIP _); [| intros [= <-]; right; right; eauto].
    destruct (net.Contains _ _); [done |].
    by destruct (ruleExists x port protocol).
Qed.

Lemma prepareFirewallRules_loop_error m subnet ip rules allowConnection e :
  prepareFirewallRules_loop m subnet ip rules allowConnection = Err e →
  ∀ exposePort, e ≠ errUnsupportedExposedPorts exposePort.
Proof.
  revert rules. induction allowConnection as [| c rest IH]; intros rules; simpl.
  - discriminate.
  - unfold parseAllowConnection at 1. destruct (decide _).
    { by intros [= <-]. }
    destruct (getInstanceRule _ _ _ _ _ _) as [r | e'] eqn:Hr; [apply IH |].
    destruct (decide (e' = errRuleNotFound)); [apply IH |].
    intros [= <-] exposePort.
    apply getInstanceRule_loop_error in Hr as [-> | [-> | [bad ->]]]; done.
Qed.

Lemma bound_elsewhere_check (instanceIdent : aostypes.InstanceIdent)
    (networkID : string) (m : NetworkManager) :
  forallb (λ entry,
             bool_decide (entry.1 = networkID)
             || match entry.2 !! instanceIdent with
                | Some _ => false
                | None => true
                end)
          (map_to_list (instancesData m)) = true →
  ∀ other, other ≠ networkID → bound_in m other instanceIdent = None.
Proof.
  intros Hcheck other Hother. unfold bound_in.
  destruct (instancesData m !! other) as [bound |] eqn:Hbound; [| done].
  rewrite forallb_forall in Hcheck.
  apply elem_of_map_to_list, list_elem_of_In, Hcheck in Hbound. simpl in Hbound.
  rewrite bool_decide_false in Hbound by done. simpl in Hbound.
  by destruct (bound !! instanceIdent).
Qed.

(** When the identity is bound under [networkID] and under no other
    network, [PrepareInstanceNetworkParameters] for that network leaves
    the stored instance records, the subnet allocator and the storage as
    they were, so no IP is allocated and nothing is written; and its
    outcome is the same whatever the [ExposePorts] of the request, which
    are not parsed: no malformed entry can make the call fail. *)
Theorem prepare_bound_instance_frame
    (instanceIdent : aostypes.InstanceIdent) (networkID : string)
    (params : NetworkParameters) (m : NetworkManager)
    (info : InstanceNetworkInfo)
    (Hbound : bound_in m networkID instanceIdent = Some info)
    (Hunique : ∀ other, other ≠ networkID →
       bound_in m other instanceIdent = None) :
  let out := PrepareInstanceNetworkParameters instanceIdent networkID params m in
  instancesData out.2 = instancesData m
  ∧ ipamSubnet out.2 = ipamSubnet m
  ∧ storage out.2 = storage m
  ∧ (∀ exposePorts,
       PrepareInstanceNetworkParameters instanceIdent networkID
         (with_ExposePorts params exposePorts) m = out)
  ∧ (∀ exposePort, out.1.2 ≠ Some (errUnsupportedExposedPorts exposePort)).
Proof.
  assert (getNetworkParametersToCache instanceIdent m
          = (info_NetworkParameters info, networkID, true)) as Hfound.
  { unfold bound_in in Hbound.
    destruct (instancesData m !! networkID) as [instances |] eqn:Hnet;
      [| done].
    apply (getNetworkParametersToCache_bound _ _ _ instances); [done | done |].
    intros other bound Hother Hlookup.
    specialize (Hunique other Hother). unfold bound_in in Hunique.
    by rewrite Hlookup in Hunique. }
  intros out. subst out. unfold PrepareInstanceNetworkParameters.
  rewrite Hfound. simpl.
  rewrite bool_decide_false by (intros Hne; by apply Hne). simpl.
  destruct (addHosts _ _ (dns m)) as [[e |] d] eqn:Hdns; simpl.
  { repeat split; try done; by intros exposePorts; rewrite ?Hdns. }
  destruct (decide (0 < length (AllowConnections params))).
  - destruct (prepareFirewallRules _ _ _ _) as [rules | e] eqn:Hrules; simpl.
    + repeat split; try done; by intros exposePorts; rewrite ?Hdns, ?Hrules.
    + repeat split; try done;
        try (by intros exposePorts; rewrite ?Hdns, ?Hrules).
      intros exposePort [= ->].
      by eapply prepareFirewallRules_loop_error in Hrules.
  - repeat split; try done; by intros exposePorts; rewrite ?Hdns.
Qed.

(** The defect behind C1, for every manager: when the identity is found
    under [current] and prepared for another network, the records filed
    under [current] stay as they are. *)
Lemma prepare_other_network_keeps_old instanceIdent networkID params m p current :
  getNetworkParametersToCache instanceIdent m = (p, current, true) →
  current ≠ networkID →
  instancesData
    (PrepareInstanceNetworkParameters instanceIdent networkID params m).2
    !! current
  = instancesData m !! current.
Proof.
  intros Hfound Hne. unfold PrepareInstanceNetworkParameters.
  rewrite Hfound. simpl.
  rewrite bool_decide_true by done. simpl.
  unfold removeInstanceNetworkParameters.
  destruct (RemoveNetworkInstanceInfo _ _) as [err st]. simpl.
  unfold createNetwork. simpl.
  destruct (GetIPSubnet _ _) as [[e | [subnet ip]] ipam]; simpl.
  { by rewrite !lookup_alter_ne. }
  destruct (if decide (0 < length (ExposePorts params)) then _ else _)
    as [rules | e]; simpl.
  2: { by rewrite !lookup_alter_ne. }
  destruct (AddNetworkInstanceInfo _ _) as [[e |] st']; simpl.
  { by rewrite !lookup_alter_ne. }
  destruct (addHosts _ _ _) as [[e |] d]; simpl.
  { by rewrite lookup_insert_ne, lookup_alter_ne. }
  destruct (decide _); [destruct (prepareFirewallRules _ _ _ _) |]; simpl;
    by rewrite lookup_insert_ne, lookup_alter_ne.
Qed.

(** What the same defect does to a repeat call, for every manager: when
    the identity is bound under [networkID] too but the lookup meets
    another network first, the call deletes the record under
    [networkID] and goes through [createNetwork]; with a malformed
    [ExposePorts] it fails, and the identity is left without a record
    under [networkID]. *)
Lemma prepare_found_elsewhere_reparses instanceIdent networkID params
    (m : NetworkManager) p current e :
  getNetworkParametersToCache instanceIdent m = (p, current, true) →
  current ≠ networkID →
  ExposePorts params ≠ [] →
  parseExposedPorts (ExposePorts params) = Err e →
  let out :=
    PrepareInstanceNetworkParameters instanceIdent networkID params m in
  (out.1.2 = Some e ∨ ∃ x, out.1.2 = Some (errExternal x))
  ∧ bound_in out.2 networkID instanceIdent = None.
Proof.
  intros Hfound Hne Hports Hparse. cbv zeta.
  assert (∀ data : gmap string
                     (gmap aostypes.InstanceIdent InstanceNetworkInfo),
            match alter (delete instanceIdent) networkID
                    (alter (delete instanceIdent) networkID data)
                  !! networkID with
            | Some instances => instances !! instanceIdent
            | None => None
            end = None) as Hgone.
  { intros data. rewrite !lookup_alter_eq.
    destruct (data !! networkID) as [instances |]; simpl; [| done].
    apply lookup_delete_eq. }
  unfold PrepareInstanceNetworkParameters.
  rewrite Hfound. simpl.
  rewrite bool_decide_true by done. simpl.
  unfold removeInstanceNetworkParameters.
  destruct (RemoveNetworkInstanceInfo _ _) as [err st]. simpl.
  unfold createNetwork. simpl.
  destruct (GetIPSubnet _ _) as [[x | [subnet ip]] ipam]; simpl.
  { split; [right; by exists x | apply Hgone]. }
  rewrite decide_True by (destruct (ExposePorts params); [done | simpl; lia]).
  rewrite Hparse. simpl. split; [by left | apply Hgone].
Qed.

(** [createNetwork] gives back the IP it obtained whenever it fails, for
    every allocator and storage. *)
Lemma createNetwork_releases_on_failure instanceIdent networkID params
    (m : NetworkManager) subnet ip ipam :
  GetIPSubnet networkID (ipamSubnet m) = (inr (subnet, ip), ipam) →
  let out := createNetwork instanceIdent networkID params m in
  out.1.2 ≠ None →
  ipamSubnet out.2 = releaseIPToSubnet networkID ip ipam
  ∧ instancesData out.2
    = alter (delete instanceIdent) networkID (instancesData m).
Proof.
  intros Hip. unfold createNetwork. rewrite Hip. simpl.
  destruct (if decide (0 < length (ExposePorts params)) then _ else _)
    as [rules | e]; simpl; [| done].
  by destruct (AddNetworkInstanceInfo _ _) as [[e |] st].
Qed.

End instance_properties.

Section provider_properties.
Import networkmanager manager_spec.
Context `{!net.Lib, !Storage, !NodeManager, !Ipam, !VlanSource, !DnsServer,
          !RangeOrder}.

Lemma set_storage_same (m : NetworkManager) : set_storage m (storage m) = m.
Proof. by destruct m. Qed.

Lemma set_providerNetworks_same (m : NetworkManager) :
  set_providerNetworks m (providerNetworks m) = m.
Proof. by destruct m. Qed.

Lemma keepOthers_all nodeID bindings :
  Forall (λ b, NodeID b ≠ nodeID) bindings → keepOthers nodeID bindings = bindings.
Proof.
  induction 1 as [| b l Hb _ IH]; simpl; [done |].
  by rewrite bool_decide_true, IH.
Qed.

Lemma elem_of_keepOthers nodeID bindings b :
  b ∈ keepOthers nodeID bindings ↔ b ∈ bindings ∧ NodeID b ≠ nodeID.
Proof.
  unfold keepOthers.
  by rewrite !list_elem_of_In, filter_In, bool_decide_eq_true.
Qed.

Lemma dropNodeNetworks_kept networkID nodeID networksInfo st :
  (dropNodeNetworks networkID nodeID networksInfo st).1
  = keepOthers nodeID networksInfo.
Proof.
  revert st. induction networksInfo as [| info rest IH]; intros st; simpl.
  - done.
  - destruct (decide (NodeID info = nodeID)) as [Heq | Hne].
    + rewrite IH. by rewrite bool_decide_false by (intros Hn; by apply Hn).
    + specialize (IH st).
      destruct (dropNodeNetworks networkID nodeID rest st) as [kept st'].
      simpl in *. by rewrite bool_decide_true, IH.
Qed.

Lemma dropNodeNetworks_untouched networkID nodeID networksInfo st :
  Forall (λ b, NodeID b ≠ nodeID) networksInfo →
  dropNodeNetworks networkID nodeID networksInfo st = (networksInfo, st).
Proof.
  induction 1 as [| b l Hb _ IH]; simpl; [done |].
  rewrite decide_False by done. by rewrite IH.
Qed.

Lemma removeInstances_providerNetworks networkID
    (instances : list (aostypes.InstanceIdent * InstanceNetworkInfo))
    (m : NetworkManager) :
  providerNetworks
    (foldl (λ m inst,
              (removeInstanceNetworkParameters networkID inst.1
                 (net.IP_of_string
                    (aostypes.IP (info_NetworkParameters inst.2))) m).2)
           m instances)
  = providerNetworks m.
Proof.
  revert m. induction instances as [| inst rest IH]; intros m; simpl; [done |].
  rewrite IH. unfold removeInstanceNetworkParameters.
  by destruct (RemoveNetworkInstanceInfo _ _).
Qed.

Lemma removeProviderNetworks_body_lookup providers nodeID m networkID
    networksInfo k :
  providerNetworks
    (removeProviderNetworks_body providers nodeID m (networkID, networksInfo))
    !! k
  = if decide (k = networkID)
    then keptNetworks providers nodeID networkID networksInfo
    else providerNetworks m !! k.
Proof.
  unfold removeProviderNetworks_body, keptNetworks.
  pose proof (dropNodeNetworks_kept networkID "" networksInfo (storage m))
    as Hvalid.
  destruct (dropNodeNetworks networkID "" networksInfo (storage m))
    as [validNetworks st]. simpl in Hvalid. subst validNetworks.
  destruct (bool_decide (networkID ∈ providers)
            && bool_decide (0 < length (keepOthers "" networksInfo))).
  { simpl. rewrite lookup_insert. destruct (decide (networkID = k));
      destruct (decide (k = networkID)); congruence. }
  pose proof (dropNodeNetworks_kept networkID nodeID
                (keepOthers "" networksInfo) (storage (set_storage m st)))
    as Hfiltered.
  destruct (dropNodeNetworks networkID nodeID (keepOthers "" networksInfo)
              (storage (set_storage m st))) as [filteredNetworks st'].
  simpl in Hfiltered. subst filteredNetworks.
  destruct (bool_decide (0 < length (keepOthers nodeID
                                       (keepOthers "" networksInfo)))).
  { simpl. rewrite lookup_insert. destruct (decide (networkID = k));
      destruct (decide (k = networkID)); congruence. }
  simpl. rewrite removeInstances_providerNetworks. simpl.
  rewrite lookup_delete, lookup_insert.
  destruct (decide (networkID = k)); destruct (decide (k = networkID));
    congruence.
Qed.

Local Arguments removeProviderNetworks_body : simpl never.

Lemma removeProviderNetworks_fold_lookup providers nodeID
    (entries : list (string * list NetworkParametersStorage))
    (m : NetworkManager) k :
  NoDup entries.*1 →
  providerNetworks
    (foldl (removeProviderNetworks_body providers nodeID) m entries) !! k
  = match (list_to_map entries : gmap string _) !! k with
    | Some networksInfo => keptNetworks providers nodeID k networksInfo
    | None => providerNetworks m !! k
    end.
Proof.
  revert m. induction entries as [| [k0 l0] rest IH]; intros m Hnodup; simpl.
  - by rewrite lookup_empty.
  - apply NoDup_cons in Hnodup as [Hfresh Hnodup].
    rewrite IH by done. rewrite removeProviderNetworks_body_lookup.
    rewrite lookup_insert.
    destruct (decide (k = k0)) as [-> | Hne].
    + rewrite decide_True by done.
      by rewrite (not_elem_of_list_to_map_1 rest k0).
    + by rewrite decide_False by congruence.
Qed.

(** [removeProviderNetworks] treats each provider network on its own,
    whatever the order of the [range]. *)
Lemma removeProviderNetworks_lookup providers nodeID (m : NetworkManager) k :
  providerNetworks (removeProviderNetworks providers nodeID m) !! k
  = providerNetworks m !! k ≫= keptNetworks providers nodeID k.
Proof.
  unfold removeProviderNetworks.
  assert (NoDup (range (providerNetworks m)).*1) as Hnodup.
  { rewrite range_perm. apply NoDup_fst_map_to_list. }
  rewrite removeProviderNetworks_fold_lookup by done.
  rewrite (list_to_map_proper _ (map_to_list (providerNetworks m)))
    by (done || apply range_perm).
  rewrite list_to_map_to_list. by destruct (providerNetworks m !! k).
Qed.

Lemma elem_of_keptNetworks providers nodeID networkID networksInfo kept b :
  keptNetworks providers nodeID networkID networksInfo = Some kept →
  b ∈ kept → b ∈ networksInfo.
Proof.
  unfold keptNetworks. intros Hkept Hb.
  destruct (bool_decide (networkID ∈ providers) && _); simplify_eq.
  - by apply elem_of_keepOthers in Hb as [? _].
  - destruct (bool_decide (0 < length _)); simplify_eq.
    apply elem_of_keepOthers in Hb as [Hb _].
    by apply elem_of_keepOthers in Hb as [? _].
Qed.

Lemma removeProviderNetworks_vlan_stable providers nodeID (m : NetworkManager) :
  vlan_stable (providerNetworks m) →
  vlan_stable (providerNetworks (removeProviderNetworks providers nodeID m)).
Proof.
  intros Hstable k kept Hk b Hb.
  rewrite removeProviderNetworks_lookup in Hk.
  destruct (providerNetworks m !! k) as [bindings |] eqn:Hm; [| done].
  simpl in Hk.
  destruct (Hstable k bindings Hm b) as [Hid Hvlan].
  { by eapply elem_of_keptNetworks. }
  split; [done |]. intros b' Hb'. apply Hvlan. by eapply elem_of_keptNetworks.
Qed.

Lemma setupNetworkParameters_spec providerID networkParameter
    (m : NetworkManager) :
  let out := setupNetworkParameters providerID networkParameter m in
  (out.1.2 ≠ None ∧ providerNetworks out.2 = providerNetworks m)
  ∨ (out.1.2 = None
     ∧ NodeID out.1.1 = NodeID networkParameter
     ∧ aostypes.NetworkID (nps_NetworkParameters out.1.1)
       = aostypes.NetworkID (nps_NetworkParameters networkParameter)
     ∧ aostypes.VlanID (nps_NetworkParameters out.1.1)
       = aostypes.VlanID (nps_NetworkParameters networkParameter)
     ∧ providerNetworks out.2
       = <[providerID :=
             default [] (providerNetworks m !! providerID) ++ [out.1.1]]>
           (providerNetworks m)).
Proof.
  unfold setupNetworkParameters.
  destruct (GetIPSubnet _ _) as [[e | [subnet ip]] ipam]; simpl.
  { by left. }
  destruct (AddNetworkInfo _ _) as [[e |] st]; simpl.
  { by left. }
  right. by repeat split.
Qed.

(** One turn of the loop of [addProviderNetworks]: it fails and leaves
    the provider networks as they are, or it goes on, either with the
    binding the node already has or after a binding has been added. *)
Lemma addProviderNetworks_loop_turn nodeID networkParameters providerID rest
    (m : NetworkManager) :
  let out :=
    addProviderNetworks_loop nodeID networkParameters (providerID :: rest) m in
  (out.1.2 ≠ None ∧ providerNetworks out.2 = providerNetworks m)
  ∨ ∃ networkParameters' m',
      out = addProviderNetworks_loop nodeID networkParameters' rest m'
      ∧ ((m' = m
          ∧ ∃ bindings b, providerNetworks m !! providerID = Some bindings
                          ∧ b ∈ bindings ∧ NodeID b = nodeID)
         ∨ ∃ b, joins (providerNetworks m) nodeID providerID b
                ∧ providerNetworks m'
                  = <[providerID :=
                        default [] (providerNetworks m !! providerID) ++ [b]]>
                      (providerNetworks m)).
Proof.
  simpl.
  destruct (providerNetworks m !! providerID) as [networks |] eqn:Hnet.
  - destruct (List.find _ networks) as [bound |] eqn:Hfind.
    + right. eexists _, m. split; [done |]. left. split; [done |].
      apply find_some in Hfind as [Hin Hnode].
      exists networks, bound. apply list_elem_of_In in Hin.
      by apply bool_decide_eq_true in Hnode.
    + assert (Forall (λ x, NodeID x ≠ nodeID) networks) as Hnone.
      { apply Forall_forall. intros x Hx%list_elem_of_In.
        eapply find_none in Hfind; [| done].
        by apply bool_decide_eq_false in Hfind. }
      clear Hfind. destruct networks as [| first others]; [by left |].
      unfold updateProviderNetworkForNode.
      pose proof (setupNetworkParameters_spec providerID
                    {| nps_NetworkParameters := nps_NetworkParameters first;
                       NodeID := nodeID |} m) as Hsetup.
      destruct (setupNetworkParameters _ _ m) as [[np [e |]] m']; simpl in *.
      { left. destruct Hsetup as [[_ ?] | [? _]]; done. }
      destruct Hsetup as [[? _] | (_ & Hnode & Hid & Hvlan & Hpn)]; [done |].
      right. eexists _, m'. split; [done |]. right. exists np.
      split; [| by rewrite Hpn, Hnet].
      split; [done |]. rewrite Hnet. split; [done |].
      by exists first, others.
  - unfold createProviderNetwork.
    destruct (GetVlanID _ _) as [[e | vlanID] src]; simpl.
    { by left. }
    pose proof (setupNetworkParameters_spec providerID
                  {| nps_NetworkParameters :=
                       {| aostypes.NetworkID := providerID;
                          aostypes.Subnet := ""; aostypes.IP := "";
                          aostypes.VlanID := vlanID;
                          aostypes.DNSServers := [];
                          aostypes.FirewallRules := [] |};
                     NodeID := nodeID |} (set_vlanSource m src)) as Hsetup.
    destruct (setupNetworkParameters _ _ (set_vlanSource m src))
      as [[np [e |]] m']; simpl in *.
    { left. destruct Hsetup as [[_ ?] | [? _]]; done. }
    destruct Hsetup as [[? _] | (_ & Hnode & Hid & Hvlan & Hpn)]; [done |].
    right. eexists _, m'. split; [done |]. right. exists np.
    split; [| by rewrite Hpn, Hnet].
    split; [done |]. by rewrite Hnet.
Qed.

Local Arguments addProviderNetworks_loop : simpl never.

Lemma addProviderNetworks_loop_inv
    (I : gmap string (list NetworkParametersStorage) → Prop)
    (providers : list string) (nodeID : string) :
  (∀ networks k b, I networks → k ∈ providers → joins networks nodeID k b →
     I (<[k := default [] (networks !! k) ++ [b]]> networks)) →
  ∀ todo networkParameters (m : NetworkManager),
    todo ⊆ providers → I (providerNetworks m) →
    I (providerNetworks
         (addProviderNetworks_loop nodeID networkParameters todo m).2).
Proof.
  intros Hstep todo.
  induction todo as [| p rest IH]; intros acc m Hsub Hm; [done |].
  destruct (addProviderNetworks_loop_turn nodeID acc p rest m)
    as [[_ ->] | (acc' & m' & -> & Hturn)]; [done |].
  apply IH.
  - intros x Hx. apply Hsub. by right.
  - destruct Hturn as [[-> _] | (b & Hjoin & ->)]; [done |].
    apply Hstep; [done | apply Hsub; left | done].
Qed.

Lemma addProviderNetworks_loop_grows nodeID todo networkParameters
    (m : NetworkManager) k bindings :
  providerNetworks m !! k = Some bindings →
  ∃ more,
    providerNetworks
      (addProviderNetworks_loop nodeID networkParameters todo m).2 !! k
    = Some (bindings ++ more).
Proof.
  intros Hk.
  apply (addProviderNetworks_loop_inv
           (λ networks, ∃ more, networks !! k = Some (bindings ++ more))
           todo nodeID); [| done |].
  - intros networks k' b [more Hmore] _ _.
    destruct (decide (k' = k)) as [-> | Hne].
    + exists (more ++ [b]). rewrite lookup_insert_eq, Hmore. simpl.
      by rewrite app_assoc.
    + exists more. by rewrite lookup_insert_ne.
  - exists []. by rewrite app_nil_r.
Qed.

Lemma addProviderNetworks_loop_binds nodeID todo networkParameters
    (m : NetworkManager) :
  (addProviderNetworks_loop nodeID networkParameters todo m).1.2 = None →
  ∀ p, p ∈ todo →
    ∃ bindings b,
      providerNetworks
        (addProviderNetworks_loop nodeID networkParameters todo m).2 !! p
      = Some bindings
      ∧ b ∈ bindings ∧ NodeID b = nodeID.
Proof.
  revert networkParameters m.
  induction todo as [| q rest IH]; intros acc m Hok p Hp.
  { by apply elem_of_nil in Hp. }
  destruct (addProviderNetworks_loop_turn nodeID acc q rest m)
    as [[Herr _] | (acc' & m' & Hout & Hturn)]; [done |].
  rewrite Hout in Hok |- *.
  apply elem_of_cons in Hp as [-> | Hp]; [| by apply IH].
  assert (∃ bindings b, providerNetworks m' !! q = Some bindings
                        ∧ b ∈ bindings ∧ NodeID b = nodeID)
    as (bindings & b & Hq & Hb & Hnode).
  { destruct Hturn as [[-> Hbound] | (b & [Hnode _] & Hpn)]; [done |].
    exists (default [] (providerNetworks m !! q) ++ [b]), b.
    rewrite Hpn, lookup_insert_eq. split; [done |]. split; [| done].
    apply elem_of_app. right. by apply list_elem_of_singleton. }
  destruct (addProviderNetworks_loop_grows nodeID rest acc' m' q bindings Hq)
    as [more Hmore].
  exists (bindings ++ more), b. split; [done |]. split; [| done].
  apply elem_of_app. by left.
Qed.

Lemma addProviderNetworks_loop_vlan_stable nodeID todo networkParameters
    (m : NetworkManager) :
  vlan_stable (providerNetworks m) →
  vlan_stable
    (providerNetworks
       (addProviderNetworks_loop nodeID networkParameters todo m).2).
Proof.
  apply (addProviderNetworks_loop_inv vlan_stable todo nodeID); [| done].
  intros networks k b Hstable _ [Hnode Hjoin] k' bindings Hk' x Hx.
  destruct (decide (k' = k)) as [-> | Hne].
  2: { rewrite lookup_insert_ne in Hk' by done. by apply (Hstable k'). }
  rewrite lookup_insert_eq in Hk'. simplify_eq.
  destruct (networks !! k) as [old |] eqn:Hold; simpl in *.
  - destruct Hjoin as (_ & first & others & -> & Hid & Hvlan).
    assert (∀ y, y ∈ (first :: others) ++ [b] →
              aostypes.NetworkID (nps_NetworkParameters y) = k
              ∧ aostypes.VlanID (nps_NetworkParameters y)
                = aostypes.VlanID (nps_NetworkParameters first)) as Hall.
    { intros y Hy.
      destruct (Hstable k _ Hold first) as [Hfid Hfvlan]; [left |].
      apply elem_of_app in Hy as [Hy | ->%list_elem_of_singleton].
      - destruct (Hstable k _ Hold y Hy) as [Hyid _].
        split; [done |]. symmetry. by apply Hfvlan.
      - split; congruence. }
    destruct (Hall x Hx) as [Hxid Hxvlan]. split; [done |].
    intros y Hy. destruct (Hall y Hy) as [_ Hyvlan]. congruence.
  - apply list_elem_of_singleton in Hx as ->. split; [done |].
    by intros y ->%list_elem_of_singleton.
Qed.

(** The defect behind C7, for every allocator and storage: when the
    storage refuses the binding, [setupNetworkParameters] leaves the
    allocator as [GetIPSubnet] left it, with the IP handed out. *)
Lemma setupNetworkParameters_keeps_allocation providerID networkParameter
    (m : NetworkManager) subnet ip ipam :
  GetIPSubnet providerID (ipamSubnet m) = (inr (subnet, ip), ipam) →
  (AddNetworkInfo
     {| nps_NetworkParameters :=
          with_Subnet_IP (nps_NetworkParameters networkParameter)
            (net.IPNet_String subnet) (net.IP_String ip);
        NodeID := NodeID networkParameter |} (storage m)).1 ≠ None →
  let out := setupNetworkParameters providerID networkParameter m in
  out.1.2 ≠ None
  ∧ ipamSubnet out.2 = ipam
  ∧ providerNetworks out.2 = providerNetworks m
  ∧ instancesData out.2 = instancesData m.
Proof.
  intros Hip Hfail. unfold setupNetworkParameters. rewrite Hip. simpl.
  destruct (AddNetworkInfo _ _) as [[e |] st]; simpl in *; [done |].
  by destruct Hfail.
Qed.

Lemma setupNetworkParameters_frame providerID networkParameter
    (m : NetworkManager) :
  let out := setupNetworkParameters providerID networkParameter m in
  vlanSource out.2 = vlanSource m
  ∧ ∀ e, out.1.2 = Some e → ∃ x, e = errExternal x.
Proof.
  unfold setupNetworkParameters.
  destruct (GetIPSubnet _ _) as [[e | [subnet ip]] ipam]; simpl.
  { split; [done |]. intros ? [= <-]. eauto. }
  destruct (AddNetworkInfo _ _) as [[e |] st]; simpl.
  { split; [done |]. intros ? [= <-]. eauto. }
  by split.
Qed.

Lemma removeInstances_vlanSource networkID
    (instances : list (aostypes.InstanceIdent * InstanceNetworkInfo))
    (m : NetworkManager) :
  vlanSource
    (foldl (λ m inst,
              (removeInstanceNetworkParameters networkID inst.1
                 (net.IP_of_string
                    (aostypes.IP (info_NetworkParameters inst.2))) m).2)
           m instances)
  = vlanSource m.
Proof.
  revert m. induction instances as [| inst rest IH]; intros m; simpl; [done |].
  rewrite IH. unfold removeInstanceNetworkParameters.
  by destruct (RemoveNetworkInstanceInfo _ _).
Qed.

Lemma removeProviderNetworks_vlanSource providers nodeID (m : NetworkManager) :
  vlanSource (removeProviderNetworks providers nodeID m) = vlanSource m.
Proof.
  unfold removeProviderNetworks.
  generalize (range (providerNetworks m)). intros entries. revert m.
  induction entries as [| [k l] rest IH]; intros m; simpl; [done |].
  rewrite IH. unfold removeProviderNetworks_body.
  destruct (dropNodeNetworks k "" l (storage m)) as [valid st].
  destruct (bool_decide (k ∈ providers) && bool_decide (0 < length valid));
    [done |].
  destruct (dropNodeNetworks k nodeID valid _) as [filtered st'].
  destruct (bool_decide (0 < length filtered)); [done |].
  simpl. by rewrite removeInstances_vlanSource.
Qed.

(** The VLAN hook is consulted only for a network that has no binding. *)
Lemma addProviderNetworks_loop_vlanSource nodeID todo networkParameters
    (m : NetworkManager) :
  (∀ p, p ∈ todo → is_Some (providerNetworks m !! p)) →
  vlanSource (addProviderNetworks_loop nodeID networkParameters todo m).2
  = vlanSource m.
Proof.
  revert networkParameters m.
  induction todo as [| p rest IH]; intros acc m Hknown; [done |].
  unfold addProviderNetworks_loop; fold addProviderNetworks_loop.
  destruct (Hknown p) as [networks Hnet]; [left |]. rewrite Hnet.
  assert (∀ q, q ∈ rest → is_Some (providerNetworks m !! q)) as Hrest.
  { intros q Hq. apply Hknown. by right. }
  destruct (List.find _ networks); [by apply IH |].
  destruct networks as [| first others]; [done |].
  unfold updateProviderNetworkForNode.
  pose proof (setupNetworkParameters_spec p
                {| nps_NetworkParameters := nps_NetworkParameters first;
                   NodeID := nodeID |} m) as Hspec.
  pose proof (setupNetworkParameters_frame p
                {| nps_NetworkParameters := nps_NetworkParameters first;
                   NodeID := nodeID |} m) as [Hsrc _].
  destruct (setupNetworkParameters _ _ m) as [[np [e |]] m']; simpl in *;
    [done |].
  rewrite IH; [done |]. intros q Hq.
  destruct Hspec as [[? _] | (_ & _ & _ & _ & ->)]; [done |].
  destruct (decide (q = p)) as [-> | Hne].
  - rewrite lookup_insert_eq. eauto.
  - rewrite lookup_insert_ne by done. by apply Hrest.
Qed.

(** [networks[0]] is never taken of an empty slice: the loop of
    [addProviderNetworks] does not panic when no network is empty, which
    is how [removeProviderNetworks] leaves them. *)
Lemma addProviderNetworks_loop_no_panic nodeID todo networkParameters
    (m : NetworkManager) :
  (∀ k bindings, providerNetworks m !! k = Some bindings → bindings ≠ []) →
  (addProviderNetworks_loop nodeID networkParameters todo m).1.2
  ≠ Some panicIndexOutOfRange.
Proof.
  revert networkParameters m.
  induction todo as [| p rest IH]; intros acc m Hfull; [done |].
  assert (∀ np (m' : NetworkManager),
            providerNetworks m'
            = <[p := default [] (providerNetworks m !! p) ++ [np]]>
                (providerNetworks m) →
            ∀ k bindings, providerNetworks m' !! k = Some bindings →
                          bindings ≠ []) as Hnext.
  { intros np m' -> k bindings.
    destruct (decide (k = p)) as [-> | Hne].
    - rewrite lookup_insert_eq. intros [= <-].
      by destruct (default [] (providerNetworks m !! p)).
    - rewrite lookup_insert_ne by done. apply Hfull. }
  unfold addProviderNetworks_loop; fold addProviderNetworks_loop.
  destruct (providerNetworks m !! p) as [networks |] eqn:Hnet.
  - destruct (List.find _ networks); [by apply IH |].
    destruct networks as [| first others]; [by destruct (Hfull p [] Hnet) |].
    unfold updateProviderNetworkForNode.
    pose proof (setupNetworkParameters_spec p
                  {| nps_NetworkParameters := nps_NetworkParameters first;
                     NodeID := nodeID |} m) as Hspec.
    pose proof (setupNetworkParameters_frame p
                  {| nps_NetworkParameters := nps_NetworkParameters first;
                     NodeID := nodeID |} m) as [_ Herr].
    destruct (setupNetworkParameters _ _ m) as [[np [e |]] m']; simpl in *.
    { destruct (Herr e eq_refl) as [x ->]. done. }
    destruct Hspec as [[? _] | (_ & _ & _ & _ & Hpn)]; [done |].
    apply IH. rewrite Hnet in Hpn. by apply (Hnext np).
  - unfold createProviderNetwork.
    destruct (GetVlanID _ _) as [[e | vlanID] src]; simpl; [done |].
    match goal with
    | |- context [setupNetworkParameters p ?b ?s] =>
        pose proof (setupNetworkParameters_spec p b s) as Hspec;
        pose proof (setupNetworkParameters_frame p b s) as [_ Herr];
        destruct (setupNetworkParameters p b s) as [[np [e |]] m']
    end; simpl in *.
    { destruct (Herr e eq_refl) as [x ->]. done. }
    destruct Hspec as [[? _] | (_ & _ & _ & _ & Hpn)]; [done |].
    apply IH. rewrite Hnet in Hpn. by apply (Hnext np).
Qed.

Lemma UpdateProviderNetwork_providerNetworks providers nodeID
    (m : NetworkManager) :
  providerNetworks (UpdateProviderNetwork providers nodeID m).2
  = providerNetworks
      (addProviderNetworks providers nodeID
         (removeProviderNetworks providers nodeID m)).2.
Proof.
  unfold UpdateProviderNetwork.
  destruct (addProviderNetworks _ _ _) as [[params [e |]] m']; [done |].
  by destruct (UpdateNetwork _ _ _).
Qed.

Lemma UpdateProviderNetwork_vlan_stable providers nodeID (m : NetworkManager) :
  vlan_stable (providerNetworks m) →
  vlan_stable (providerNetworks (UpdateProviderNetwork providers nodeID m).2).
Proof.
  intros Hstable. rewrite UpdateProviderNetwork_providerNetworks.
  by apply addProviderNetworks_loop_vlan_stable,
           removeProviderNetworks_vlan_stable.
Qed.

Lemma reachable_vlan_stable (m : NetworkManager) :
  reachable m → vlan_stable (providerNetworks m).
Proof.
  induction 1 as [m _ Hempty | m providers nodeID _ IH].
  - rewrite Hempty. intros k bindings Hk. by rewrite lookup_empty in Hk.
  - by apply UpdateProviderNetwork_vlan_stable.
Qed.

Lemma UpdateProviderNetwork_vlanSource providers nodeID (m : NetworkManager) :
  vlanSource (UpdateProviderNetwork providers nodeID m).2
  = vlanSource
      (addProviderNetworks providers nodeID
         (removeProviderNetworks providers nodeID m)).2.
Proof.
  unfold UpdateProviderNetwork.
  destruct (addProviderNetworks _ _ _) as [[params [e |]] m']; [done |].
  by destruct (UpdateNetwork _ _ _).
Qed.

(** C3. In every manager reached by [UpdateProviderNetwork] calls from an
    empty one, two bindings with the same [NetworkID] have the same
    [VlanID]; a call leaves the VLAN of a network that keeps bindings as
    it was, the bindings it adds for another node carrying the VLAN of
    those that were there; and a call whose networks all have bindings
    draws no VLAN: the VLAN drawn for the first binding is the only
    one. *)
Theorem provider_vlan_stable (m : NetworkManager) (Hreach : reachable m) :
  (∀ k1 bindings1 b1 k2 bindings2 b2,
     providerNetworks m !! k1 = Some bindings1 → b1 ∈ bindings1 →
     providerNetworks m !! k2 = Some bindings2 → b2 ∈ bindings2 →
     aostypes.NetworkID (nps_NetworkParameters b1)
     = aostypes.NetworkID (nps_NetworkParameters b2) →
     aostypes.VlanID (nps_NetworkParameters b1)
     = aostypes.VlanID (nps_NetworkParameters b2))
  ∧ (∀ providers nodeID k kept after b1 b2,
       providerNetworks (removeProviderNetworks providers nodeID m) !! k
       = Some kept →
       providerNetworks (UpdateProviderNetwork providers nodeID m).2 !! k
       = Some after →
       b1 ∈ kept → b2 ∈ after →
       aostypes.VlanID (nps_NetworkParameters b1)
       = aostypes.VlanID (nps_NetworkParameters b2))
  ∧ (∀ providers nodeID,
       (∀ p, p ∈ providers →
          is_Some (providerNetworks
                     (removeProviderNetworks providers nodeID m) !! p)) →
       vlanSource (UpdateProviderNetwork providers nodeID m).2
       = vlanSource m).
Proof.
  pose proof (reachable_vlan_stable m Hreach) as Hstable.
  split; [| split].
  - intros k1 l1 b1 k2 l2 b2 Hk1 Hb1 Hk2 Hb2 Hid.
    destruct (Hstable k1 l1 Hk1 b1 Hb1) as [Hid1 Hvlan].
    destruct (Hstable k2 l2 Hk2 b2 Hb2) as [Hid2 _].
    assert (k1 = k2) as -> by congruence. simplify_eq. by apply Hvlan.
  - intros providers nodeID k kept after b1 b2 Hkept Hafter Hb1 Hb2.
    pose proof (UpdateProviderNetwork_vlan_stable providers nodeID m Hstable)
      as Hstable'.
    rewrite UpdateProviderNetwork_providerNetworks in Hafter, Hstable'.
    destruct (addProviderNetworks_loop_grows nodeID providers [] _ k kept Hkept)
      as [more Hmore].
    unfold addProviderNetworks in Hafter, Hstable'.
    rewrite Hmore in Hafter. simplify_eq.
    destruct (Hstable' k _ Hmore b1) as [_ Hvlan].
    { apply elem_of_app. by left. }
    by apply Hvlan.
  - intros providers nodeID Hknown.
    rewrite UpdateProviderNetwork_vlanSource. unfold addProviderNetworks.
    rewrite addProviderNetworks_loop_vlanSource by done.
    apply removeProviderNetworks_vlanSource.
Qed.

Lemma removeProviderNetworks_body_settled providers nodeID (m : NetworkManager)
    k bindings :
  settled providers nodeID (providerNetworks m) →
  providerNetworks m !! k = Some bindings →
  removeProviderNetworks_body providers nodeID m (k, bindings) = m.
Proof.
  intros [Hall _] Hk.
  destruct (Hall k bindings Hk) as (Hne & Hassigned & Hin & Hout).
  unfold removeProviderNetworks_body.
  rewrite (dropNodeNetworks_untouched k "" bindings) by done.
  rewrite set_storage_same.
  assert (bool_decide (0 < length bindings) = true) as Hlen.
  { apply bool_decide_eq_true. destruct bindings; [done | simpl; lia]. }
  rewrite Hlen.
  destruct (bool_decide (k ∈ providers)) eqn:Hfound; simpl.
  - by rewrite insert_id, set_providerNetworks_same.
  - apply bool_decide_eq_false in Hfound.
    rewrite (dropNodeNetworks_untouched k nodeID bindings) by auto.
    rewrite set_storage_same. simpl. rewrite Hlen.
    by rewrite insert_id, set_providerNetworks_same.
Qed.

Lemma removeProviderNetworks_settled providers nodeID (m : NetworkManager) :
  settled providers nodeID (providerNetworks m) →
  removeProviderNetworks providers nodeID m = m.
Proof.
  intros Hsettled. unfold removeProviderNetworks.
  assert (∀ entry, entry ∈ range (providerNetworks m) →
            providerNetworks m !! entry.1 = Some entry.2) as Hentries.
  { intros [k l] Hin. by apply elem_of_range in Hin. }
  induction (range (providerNetworks m)) as [| [k l] rest IH]; [done |].
  simpl. rewrite removeProviderNetworks_body_settled; [| done |].
  - apply IH. intros entry Hin. apply Hentries. by right.
  - apply (Hentries (k, l)). left.
Qed.

Lemma addProviderNetworks_loop_settled providers nodeID todo networkParameters
    (m : NetworkManager) :
  settled providers nodeID (providerNetworks m) →
  todo ⊆ providers →
  ∃ out, addProviderNetworks_loop nodeID networkParameters todo m
         = ((out, None), m).
Proof.
  intros [Hall Hdom]. revert networkParameters.
  induction todo as [| p rest IH]; intros acc Hsub.
  { by exists acc. }
  assert (p ∈ providers) as Hp by (apply Hsub; left).
  destruct (Hdom p Hp) as [bindings Hbindings].
  destruct (Hall p bindings Hbindings) as (_ & _ & Hin & _).
  destruct (Hin Hp) as (b & Hb & Hnode).
  unfold addProviderNetworks_loop; fold addProviderNetworks_loop.
  rewrite Hbindings.
  destruct (List.find _ bindings) as [bound |] eqn:Hfind.
  - apply IH. intros x Hx. apply Hsub. by right.
  - eapply find_none in Hfind; [| by apply list_elem_of_In].
    by apply bool_decide_eq_false in Hfind.
Qed.

Lemma removeProviderNetworks_clears providers nodeID (m : NetworkManager)
    k bindings :
  providerNetworks (removeProviderNetworks providers nodeID m) !! k
  = Some bindings →
  bindings ≠ [] ∧ Forall (λ b, NodeID b ≠ "") bindings
  ∧ (k ∉ providers → Forall (λ b, NodeID b ≠ nodeID) bindings).
Proof.
  rewrite removeProviderNetworks_lookup.
  destruct (providerNetworks m !! k) as [old |]; [| done]. simpl.
  unfold keptNetworks.
  destruct (bool_decide (k ∈ providers)) eqn:Hfound; simpl.
  - destruct (bool_decide (0 < length (keepOthers "" old))) eqn:Hlen.
    + intros [= <-]. apply bool_decide_eq_true in Hlen.
      apply bool_decide_eq_true in Hfound. split; [| split].
      * intros Hnil. rewrite Hnil in Hlen. simpl in Hlen. lia.
      * apply Forall_forall. by intros b [_ ?]%elem_of_keepOthers.
      * done.
    + destruct (bool_decide
                  (0 < length (keepOthers nodeID (keepOthers "" old))))
        eqn:Hlen'; [| done].
      apply bool_decide_eq_false in Hlen. apply bool_decide_eq_true in Hlen'.
      exfalso. destruct (keepOthers "" old); simpl in *; lia.
  - destruct (bool_decide
                (0 < length (keepOthers nodeID (keepOthers "" old))))
      eqn:Hlen; [| done].
    intros [= <-]. apply bool_decide_eq_true in Hlen. split; [| split].
    + intros Hnil. rewrite Hnil in Hlen. simpl in Hlen. lia.
    + apply Forall_forall. intros b [Hb _]%elem_of_keepOthers.
      by apply elem_of_keepOthers in Hb as [_ ?].
    + intros _. apply Forall_forall. by intros b [_ ?]%elem_of_keepOthers.
Qed.

Lemma UpdateProviderNetwork_no_panic providers nodeID (m : NetworkManager) :
  (UpdateProviderNetwork providers nodeID m).1 ≠ Some panicIndexOutOfRange.
Proof.
  unfold UpdateProviderNetwork.
  pose proof (addProviderNetworks_loop_no_panic nodeID providers []
                (removeProviderNetworks providers nodeID m)) as Hadd.
  unfold addProviderNetworks.
  destruct (addProviderNetworks_loop _ _ _ _) as [[params [e |]] m'];
    simpl in *.
  - apply Hadd. intros k bindings Hk.
    by apply removeProviderNetworks_clears in Hk as [? _].
  - destruct (UpdateNetwork _ _ _) as [[x |] nm]; done.
Qed.

Lemma addProviderNetworks_settles providers nodeID (m : NetworkManager) :
  nodeID ≠ "" →
  (∀ k bindings, providerNetworks m !! k = Some bindings →
     bindings ≠ [] ∧ Forall (λ b, NodeID b ≠ "") bindings
     ∧ (k ∉ providers → Forall (λ b, NodeID b ≠ nodeID) bindings)) →
  (addProviderNetworks providers nodeID m).1.2 = None →
  settled providers nodeID
    (providerNetworks (addProviderNetworks providers nodeID m).2).
Proof.
  intros Hnode Hclear Hok. unfold addProviderNetworks in *.
  pose proof (addProviderNetworks_loop_binds nodeID providers [] m Hok)
    as Hbinds.
  assert (∀ k bindings,
            providerNetworks
              (addProviderNetworks_loop nodeID [] providers m).2 !! k
            = Some bindings →
            bindings ≠ [] ∧ Forall (λ b, NodeID b ≠ "") bindings
            ∧ (k ∉ providers → Forall (λ b, NodeID b ≠ nodeID) bindings))
    as Hclear'.
  { apply (addProviderNetworks_loop_inv
             (λ networks, ∀ k bindings, networks !! k = Some bindings →
                bindings ≠ [] ∧ Forall (λ b, NodeID b ≠ "") bindings
                ∧ (k ∉ providers → Forall (λ b, NodeID b ≠ nodeID) bindings))
             providers nodeID); [| done | done].
    intros networks k b Hnetworks Hk [Hb _] k' bindings Hk'.
    destruct (decide (k' = k)) as [-> | Hne].
    2: { rewrite lookup_insert_ne in Hk' by done. by apply Hnetworks. }
    rewrite lookup_insert_eq in Hk'. simplify_eq. split; [| split].
    - by destruct (default [] (networks !! k)).
    - apply Forall_app. split.
      + destruct (networks !! k) as [old |] eqn:Hold; [| by constructor].
        by destruct (Hnetworks k old Hold) as (_ & ? & _).
      + constructor; [congruence | constructor].
    - done. }
  split.
  - intros k bindings Hk.
    destruct (Hclear' k bindings Hk) as (Hne & Hassigned & Hout).
    repeat split; try done.
    intros Hin. destruct (Hbinds k Hin) as (bindings' & b & Hk' & Hb & Hn).
    exists b. by simplify_eq.
  - intros p Hp. destruct (Hbinds p Hp) as (bindings & _ & -> & _). eauto.
Qed.

(** C5, as amended. When [nodeID] is not empty and a call of
    [UpdateProviderNetwork providers nodeID] succeeds, a second call with
    the same arguments leaves the instance records, the provider
    networks, the subnet allocator, the DNS server, the storage and the
    VLAN source exactly as the first call left them. *)
Theorem reconcile_twice_same_state
    (providers : list string) (nodeID : string) (m : NetworkManager)
    (Hnode : nodeID ≠ "")
    (Hfirst : (UpdateProviderNetwork providers nodeID m).1 = None) :
  let m1 := (UpdateProviderNetwork providers nodeID m).2 in
  let m2 := (UpdateProviderNetwork providers nodeID m1).2 in
  instancesData m2 = instancesData m1
  ∧ providerNetworks m2 = providerNetworks m1
  ∧ ipamSubnet m2 = ipamSubnet m1
  ∧ dns m2 = dns m1
  ∧ storage m2 = storage m1
  ∧ vlanSource m2 = vlanSource m1.
Proof.
  intros m1 m2.
  assert (settled providers nodeID (providerNetworks m1)) as Hsettled.
  { subst m1. rewrite UpdateProviderNetwork_providerNetworks.
    apply addProviderNetworks_settles; [done | |].
    - intros k bindings. apply removeProviderNetworks_clears.
    - unfold UpdateProviderNetwork in Hfirst.
      destruct (addProviderNetworks _ _ _) as [[params [e |]] m']; done. }
  assert (∃ err nm, UpdateProviderNetwork providers nodeID m1
                    = (err, set_nodeManager m1 nm)) as (err & nm & Hsecond).
  { unfold UpdateProviderNetwork.
    rewrite removeProviderNetworks_settled by done.
    destruct (addProviderNetworks_loop_settled providers nodeID providers []
                m1 Hsettled) as [out Hout]; [done |].
    unfold addProviderNetworks. rewrite Hout.
    destruct (UpdateNetwork _ _ _). eauto. }
  subst m2. by rewrite Hsecond.
Qed.

End provider_properties.

(** * The scenarios *)

Section scenarios.
Import networkmanager manager_spec sim scenario.

(** C1, the code at the failing input. [svcA] is bound on "netX" and then
    prepared for "netY": the call succeeds with [NetworkID] "netY", but
    the record filed under "netX" is still there, so the identity is
    bound in two networks, and its old IP 172.17.0.1 is still allocated
    in the pool of "netX". *)
Theorem instance_move_keeps_old_binding :
  let out := PrepareInstanceNetworkParameters svcA "netY" web on_netX in
  (getNetworkParametersToCache svcA on_netX).1.2 = "netX"
  ∧ (getNetworkParametersToCache svcA on_netX).2 = true
  ∧ out.1.2 = None
  ∧ aostypes.NetworkID out.1.1 = "netY"
  ∧ bound_in out.2 "netX" svcA = bound_in on_netX "netX" svcA
  ∧ bound_in out.2 "netX" svcA ≠ None
  ∧ bound_in out.2 "netY" svcA ≠ None
  ∧ (snd <$> pools (ipamSubnet out.2) !! "netX") = Some [2886795265%Z]
  ∧ ipv4.IP_String (ipv4.to_bytes 2886795265) = "172.17.0.1".
Proof.
  repeat split; vm_compute; (reflexivity || discriminate).
Qed.

(** C9, the code at the failing input.  [svcA] is bound on "netX" and has
    then been prepared for "netY", which by the defect of C1 leaves it
    bound under both; the lookup meets "netY" first.  A repeat call for
    "netX", under which the identity is bound, with a malformed
    [ExposePorts] parses it and returns the error, and the record under
    "netX" is gone.  With a well-formed request for another port the
    call succeeds with a newly allocated IP, 172.17.0.2, which stays
    allocated besides the old 172.17.0.1, and the stored record is
    replaced, with the rules of the new request. *)
Theorem prepare_bound_instance_rebinds :
  let m := rebinding_scenario.both_networks in
  let failed :=
    PrepareInstanceNetworkParameters svcA "netX"
      rebinding_scenario.malformed m in
  let redone :=
    PrepareInstanceNetworkParameters svcA "netX"
      rebinding_scenario.other_port m in
  (aostypes.IP <$> (info_NetworkParameters <$> bound_in m "netX" svcA))
  = Some "172.17.0.1"
  ∧ (Rules <$> bound_in m "netX" svcA)
    = Some [{| Port := "80"; Protocol := "tcp" |}]
  ∧ (snd <$> pools (ipamSubnet m) !! "netX") = Some [2886795265%Z]
  ∧ (getNetworkParametersToCache svcA m).1.2 = "netY"
  ∧ failed.1.2 = Some (errUnsupportedExposedPorts "80/tcp/udp")
  ∧ bound_in failed.2 "netX" svcA = None
  ∧ redone.1.2 = None
  ∧ aostypes.IP redone.1.1 = "172.17.0.2"
  ∧ (aostypes.IP
     <$> (info_NetworkParameters <$> bound_in redone.2 "netX" svcA))
    = Some "172.17.0.2"
  ∧ (Rules <$> bound_in redone.2 "netX" svcA)
    = Some [{| Port := "443"; Protocol := "tcp" |}]
  ∧ (snd <$> pools (ipamSubnet redone.2) !! "netX")
    = Some [2886795265%Z; 2886795266%Z].
Proof.
  cbv zeta. repeat split; vm_compute; reflexivity.
Qed.

(** C7, the code at the failing input. "netX" is bound to "nodeA" and the
    storage is down.  [setupNetworkParameters] for "nodeB" (and so
    [UpdateProviderNetwork]) returns the storage error and adds no
    binding, but the IP 172.17.0.2 it took from the allocator stays
    allocated.  [createNetwork] in the same state returns the error and
    does release the IP: the allocator and the instance records are as
    before. *)
Theorem provider_setup_keeps_ip_on_failure :
  let m := storage_down one_node in
  let out := setupNetworkParameters "netX" (binding "nodeB" "") m in
  let update := UpdateProviderNetwork ["netX"] "nodeB" m in
  let create := createNetwork svcA "netX" web m in
  out.1.2 = Some (errExternal "storage is down")
  ∧ providerNetworks out.2 = providerNetworks m
  ∧ (snd <$> pools (ipamSubnet m) !! "netX") = Some [2886795265%Z]
  ∧ (snd <$> pools (ipamSubnet out.2) !! "netX")
    = Some [2886795265%Z; 2886795266%Z]
  ∧ update.1 = Some (errExternal "storage is down")
  ∧ providerNetworks update.2 = providerNetworks m
  ∧ ipamSubnet update.2 = ipamSubnet out.2
  ∧ ipamSubnet update.2 ≠ ipamSubnet m
  ∧ create.1.2 = Some (errExternal "storage is down")
  ∧ ipamSubnet create.2 = ipamSubnet m
  ∧ instancesData create.2 = instancesData m.
Proof.
  cbv zeta. repeat split; try (vm_compute; reflexivity).
  intros Heq. apply (f_equal (λ a, snd <$> pools a !! "netX")) in Heq.
  vm_compute in Heq. discriminate.
Qed.

(** C5 as the spec states it fails.  With the empty node ID both calls
    succeed, but the second one tears the network down and binds it anew
    with a freshly drawn VLAN (6, then 8).  And when the storage is down,
    both calls fail and each takes one more IP from the allocator. *)
Lemma reconcile_twice_differs :
  (let first := UpdateProviderNetwork ["netX"] "" (fresh [5%N; 7%N] false) in
   let second := UpdateProviderNetwork ["netX"] "" first.2 in
   first.1 = None ∧ second.1 = None
   ∧ providerNetworks second.2 ≠ providerNetworks first.2)
  ∧ (let first := UpdateProviderNetwork ["netX"] "nodeB"
                    (storage_down one_node) in
     let second := UpdateProviderNetwork ["netX"] "nodeB" first.2 in
     ipamSubnet second.2 ≠ ipamSubnet first.2).
Proof.
  split; cbv zeta; [split; [| split] |].
  - vm_compute; reflexivity.
  - vm_compute; reflexivity.
  - intros Heq. apply (f_equal (λ networks, networks !! "netX")) in Heq.
    vm_compute in Heq. discriminate.
  - intros Heq. apply (f_equal (λ a, snd <$> pools a !! "netX")) in Heq.
    vm_compute in Heq. discriminate.
Qed.

Lemma reconcile_twice_same_state_witness :
  let m1 := (UpdateProviderNetwork ["netX"] "nodeA"
               (fresh [5%N; 7%N] false)).2 in
  let m2 := (UpdateProviderNetwork ["netX"] "nodeA" m1).2 in
  instancesData m2 = instancesData m1
  ∧ providerNetworks m2 = providerNetworks m1
  ∧ ipamSubnet m2 = ipamSubnet m1
  ∧ dns m2 = dns m1
  ∧ storage m2 = storage m1
  ∧ vlanSource m2 = vlanSource m1.
Proof.
  apply (reconcile_twice_same_state ["netX"] "nodeA" (fresh [5%N; 7%N] false)).
  - discriminate.
  - vm_compute; reflexivity.
Defined.

Lemma provider_vlan_stable_witness :
  providerNetworks two_nodes !! "netX"
  = Some [binding "nodeA" "172.17.0.1"; binding "nodeB" "172.17.0.2"]
  ∧ aostypes.VlanID (nps_NetworkParameters (binding "nodeA" "172.17.0.1"))
    = aostypes.VlanID (nps_NetworkParameters (binding "nodeB" "172.17.0.2")).
Proof.
  assert (reachable two_nodes) as Hreach.
  { apply reachable_update, reachable_update, reachable_empty; reflexivity. }
  assert (providerNetworks two_nodes !! "netX"
          = Some [binding "nodeA" "172.17.0.1"; binding "nodeB" "172.17.0.2"])
    as Hlookup by (vm_compute; reflexivity).
  split; [exact Hlookup |].
  apply (proj1 (provider_vlan_stable two_nodes Hreach)
           "netX" _ _ "netX" _ _ Hlookup (list_elem_of_here _ _)
           Hlookup (list_elem_of_further _ _ _ (list_elem_of_here _ _))).
  reflexivity.
Defined.

Lemma firewall_rules_leave_subnet_witness :
  prepareFirewallRules three_instances "172.17.0.0/16" "172.17.0.2"
    (AllowConnections client) = Ok [svcA_to_svcB]
  ∧ checkIPInSubnet "172.17.0.0/16" "172.18.0.1" = Ok false.
Proof.
  assert (prepareFirewallRules three_instances "172.17.0.0/16" "172.17.0.2"
            (AllowConnections client) = Ok [svcA_to_svcB]) as Hrules
    by (vm_compute; reflexivity).
  split; [exact Hrules |].
  apply (firewall_rules_leave_subnet three_instances "172.17.0.0/16"
           "172.17.0.2" (AllowConnections client) [svcA_to_svcB] svcA_to_svcB
           Hrules (list_elem_of_here _ _)).
Defined.

Lemma firewall_rules_first_target_witness :
  rangeInstances three_instances
  = [firewall_scenario.svcB1_info; svcA_info; firewall_scenario.svcB0_info]
  ∧ prepareFirewallRules three_instances "172.18.0.0/16" "172.18.0.1"
      ["svcB/80"] = Ok [firewall_scenario.netY_to_svcB]
  ∧ prepareFirewallRules three_instances "172.18.0.0/16" "172.18.0.1"
      ["svcB/443"; "svcB/80"]
    = prepareFirewallRules three_instances "172.18.0.0/16" "172.18.0.1"
        ["svcB/80"].
Proof.
  assert (rangeInstances three_instances
          = [firewall_scenario.svcB1_info; svcA_info;
             firewall_scenario.svcB0_info]) as Hscan
    by (vm_compute; reflexivity).
  destruct (firewall_rules_first_target three_instances "172.18.0.0/16"
              "172.18.0.1") as (_ & _ & _ & _ & _ & _ & Hfirst & Hskip).
  split; [exact Hscan |]. split.
  - apply (Hfirst "svcB/80" "svcB" "80" "tcp"
             [firewall_scenario.svcB1_info; svcA_info]
             firewall_scenario.svcB0_info []).
    + reflexivity.
    + exact Hscan.
    + constructor; [right; left; vm_compute; reflexivity |].
      constructor; [left; discriminate | constructor].
    + split; [reflexivity |]. split; vm_compute; reflexivity.
  - apply (Hskip [] "svcB/443" ["svcB/80"] "svcB" "443" "tcp").
    + reflexivity.
    + rewrite Hscan.
      constructor; [right; left; vm_compute; reflexivity |].
      constructor; [left; discriminate |].
      constructor; [| constructor].
      right; right. split; vm_compute; reflexivity.
Defined.

Lemma prepare_bound_instance_frame_witness :
  let malformed :=
    {| Hosts := []; AllowConnections := ["svcB/80"];
       ExposePorts := ["80/tcp/udp"] |} in
  let out :=
    PrepareInstanceNetworkParameters svcA "netX" malformed three_instances in
  instancesData out.2 = instancesData three_instances
  ∧ ipamSubnet out.2 = ipamSubnet three_instances
  ∧ storage out.2 = storage three_instances
  ∧ (∀ exposePorts,
       PrepareInstanceNetworkParameters svcA "netX"
         (with_ExposePorts malformed exposePorts) three_instances = out)
  ∧ (∀ exposePort, out.1.2 ≠ Some (errUnsupportedExposedPorts exposePort)).
Proof.
  intros malformed.
  apply (prepare_bound_instance_frame svcA "netX" malformed three_instances
           svcA_info).
  - vm_compute; reflexivity.
  - apply bound_elsewhere_check. vm_compute; reflexivity.
Defined.

End scenarios.

(** * Further properties of the node handler *)

Section placement_properties.
Import launcher launcher_spec placement_spec.

Lemma priorityAt_lookup nodes i node :
  nodes !! i = Some node → priorityAt nodes i = priority node.
Proof. unfold priorityAt. by intros ->. Qed.

Lemma maxNodePriorityIndex_loop nodes len start best :
  best < start →
  (∀ j, j < start → (priorityAt nodes j ≤ priorityAt nodes best)%N) →
  (∀ j, j < best → (priorityAt nodes j < priorityAt nodes best)%N) →
  let found :=
    foldl (λ maxNodePriorityIndex i,
             if decide (priorityAt nodes maxNodePriorityIndex
                        < priorityAt nodes i)%N
             then i else maxNodePriorityIndex)
          best (seq start len) in
  found < start + len
  ∧ (∀ j, j < start + len →
          (priorityAt nodes j ≤ priorityAt nodes found)%N)
  ∧ (∀ j, j < found → (priorityAt nodes j < priorityAt nodes found)%N).
Proof.
  revert start best. induction len as [| len IH]; intros start best Hlt Hmax Hfirst.
  - simpl. rewrite Nat.add_0_r. auto.
  - simpl. destruct (decide (priorityAt nodes best < priorityAt nodes start)%N)
      as [Hbetter | Hnot].
    + replace (start + S len) with (S start + len) by lia.
      apply IH; [lia | |].
      * intros j Hj. destruct (decide (j = start)) as [-> | Hne]; [lia |].
        specialize (Hmax j ltac:(lia)). lia.
      * intros j Hj. specialize (Hmax j Hj). lia.
    + replace (start + S len) with (S start + len) by lia.
      apply IH; [lia | | done].
      intros j Hj. destruct (decide (j = start)) as [-> | Hne]; [lia |].
      apply Hmax. lia.
Qed.

(** X1. [getMostPriorityNode] answers for every list but the empty one,
    on which it panics; the node it returns is in the list, no node of
    the list has a higher priority, and every node before it has a
    strictly lower one. *)
Theorem getMostPriorityNode_first_highest (nodes : list nodeHandler) :
  (getMostPriorityNode nodes = None ↔ nodes = [])
  ∧ ∀ node, getMostPriorityNode nodes = Some node →
      ∃ i, nodes !! i = Some node
           ∧ (∀ other, other ∈ nodes → (priority other ≤ priority node)%N)
           ∧ (∀ j earlier, j < i → nodes !! j = Some earlier →
                (priority earlier < priority node)%N).
Proof.
  assert (∀ node, nodes !! maxNodePriorityIndex nodes = Some node →
            (∀ other, other ∈ nodes → (priority other ≤ priority node)%N)
            ∧ (∀ j earlier, j < maxNodePriorityIndex nodes →
                 nodes !! j = Some earlier →
                 (priority earlier < priority node)%N)) as Hloop.
  { intros node Hnode.
    assert (0 < length nodes) as Hlen.
    { apply lookup_lt_Some in Hnode. lia. }
    destruct (maxNodePriorityIndex_loop nodes (length nodes - 1) 1 0)
      as (_ & Hmax & Hfirst); [lia | | lia |].
    { intros j Hj. by replace j with 0 by lia. }
    fold (maxNodePriorityIndex nodes) in Hmax, Hfirst.
    rewrite <- (priorityAt_lookup _ _ _ Hnode). split.
    - intros other [j Hother]%list_elem_of_lookup.
      rewrite <- (priorityAt_lookup _ _ _ Hother). apply Hmax.
      apply lookup_lt_Some in Hother. lia.
    - intros j earlier Hj Hearlier.
      rewrite <- (priorityAt_lookup _ _ _ Hearlier). by apply Hfirst. }
  assert (maxNodePriorityIndex nodes < length nodes ∨ nodes = []) as Hin.
  { destruct nodes as [| n l]; [by right | left].
    destruct (maxNodePriorityIndex_loop (n :: l) (length (n :: l) - 1) 1 0)
      as (Hlt & _); [lia | | lia |].
    { intros j Hj. by replace j with 0 by lia. }
    fold (maxNodePriorityIndex (n :: l)) in Hlt. simpl in *. lia. }
  unfold getMostPriorityNode. split.
  - destruct (decide (length nodes = 1)) as [Hone |].
    + destruct nodes as [| n [| ? ?]]; done.
    + split; [| by intros ->].
      intros Hnone%lookup_ge_None. destruct Hin; [lia | done].
  - intros node. destruct (decide (length nodes = 1)) as [Hone |].
    + destruct nodes as [| n [| ? ?]]; try done. intros [= <-].
      exists 0. split; [done |]. split; [| intros; lia].
      by intros other ->%list_elem_of_singleton.
    + intros Hnode. exists (maxNodePriorityIndex nodes).
      split; [done |]. by apply Hloop.
Qed.

Lemma allocateDevice_found devices n devices' :
  allocateDevice devices n = Some devices' →
  ∃ d, d ∈ devices ∧ name d = n ∧ sharedCount d ≠ 0%Z
       ∧ allocatedCount d ≠ sharedCount d.
Proof.
  revert devices'. induction devices as [| d rest IH]; intros devices' H;
    [done |].
  simpl in H.
  assert (∀ rest', allocateDevice rest n = Some rest' →
            ∃ x, x ∈ d :: rest ∧ name x = n ∧ sharedCount x ≠ 0%Z
                 ∧ allocatedCount x ≠ sharedCount x) as Hrest.
  { intros rest' Hr. destruct (IH rest' Hr) as (x & Hx & ?).
    exists x. split; [by right | done]. }
  destruct (decide (name d ≠ n)).
  - destruct (allocateDevice rest n) eqn:E; [by eapply Hrest | done].
  - destruct (decide (sharedCount d ≠ 0%Z)).
    + destruct (decide (allocatedCount d = sharedCount d)); [done |].
      exists d. split; [left |].
      by destruct (decide (name d = n)); [| tauto].
    + destruct (allocateDevice rest n) eqn:E; [by eapply Hrest | done].
Qed.

Lemma device_keeps_step devices0 devices devices' :
  Forall2 device_keeps devices0 devices →
  Forall2 device_step devices devices' →
  Forall2 device_keeps devices0 devices'.
Proof.
  intros Hkeeps. revert devices'.
  induction Hkeeps as [| d0 d l0 l (Hn & Hs & Hfull) _ IH]; intros devices' Hstep.
  - by apply Forall2_nil_inv_l in Hstep as ->.
  - apply Forall2_cons_inv_l in Hstep as (d' & l' & (Hn' & Hs' & Hcnt) & Hl & ->).
    constructor; [| by apply IH].
    split; [congruence |]. split; [congruence |].
    intros Hd0. specialize (Hfull Hd0).
    destruct Hcnt as [-> | (_ & Hne & _)]; congruence.
Qed.

Lemma allocateDevices_filter_from devices0 request devices devices' :
  Forall2 device_keeps devices0 devices →
  allocateDevices request devices = (None, devices') →
  ∀ desired, desired ∈ request →
    ∃ d0, d0 ∈ devices0 ∧ name d0 = aostypes.Name desired
          ∧ (sharedCount d0 = 0%Z ∨ allocatedCount d0 ≠ sharedCount d0).
Proof.
  revert devices. induction request as [| sd rest IH];
    intros devices Hkeeps Hok desired Hin.
  { by apply elem_of_nil in Hin. }
  simpl in Hok.
  destruct (allocateDevice devices (aostypes.Name sd)) as [next |] eqn:E;
    [| done].
  apply elem_of_cons in Hin as [-> | Hin].
  - destruct (allocateDevice_found _ _ _ E) as (d & Hd & Hn & Hs & Ha).
    apply list_elem_of_lookup in Hd as [i Hd].
    destruct (Forall2_lookup_r _ _ _ _ _ Hkeeps Hd)
      as (d0 & Hd0 & Hn0 & Hs0 & Hfull).
    exists d0. split; [by eapply list_elem_of_lookup_2 |].
    split; [congruence |]. right. intros Hd0full. apply Ha. by apply Hfull.
  - apply (IH next); [| done | done].
    eapply device_keeps_step; [done |]. by eapply allocateDevice_step.
Qed.

(** X2. An allocation that succeeds was admitted by the devices filter:
    [allocateDevices] never succeeds on a node that
    [nodeHasDesiredDevices] rejects for the same request. *)
Theorem allocateDevices_admitted (node : nodeHandler)
    (request : list aostypes.ServiceDevice)
    (Hallocated : (allocateDevices request (availableDevices node)).1 = None) :
  nodeHasDesiredDevices node request = true.
Proof.
  apply nodeHasDesiredDevices_iff. intros desired Hin.
  destruct (allocateDevices request (availableDevices node))
    as [err devices'] eqn:E. simpl in Hallocated. subst err.
  assert (Forall2 device_keeps (availableDevices node) (availableDevices node))
    as Hsame.
  { apply Forall2_same_length_lookup. split; [done |].
    intros i x y Hx Hy. simplify_eq. by repeat split. }
  destruct (allocateDevices_filter_from (availableDevices node) request
              (availableDevices node) devices' Hsame E desired Hin)
    as (d0 & ? & ? & ?).
  eauto.
Qed.

(** X3. [allocateDevices] works through the request from left to right
    and does not undo anything: a request in two parts is the first part
    followed, if it succeeds, by the second; when the first part fails the
    devices are left as the first part left them. *)
Theorem allocateDevices_app (first second : list aostypes.ServiceDevice)
    (devices : list nodeDevice) :
  allocateDevices (first ++ second) devices
  = match allocateDevices first devices with
    | (None, devices') => allocateDevices second devices'
    | (Some e, devices') => (Some e, devices')
    end.
Proof.
  revert devices. induction first as [| sd rest IH]; intros devices; simpl.
  - done.
  - by destruct (allocateDevice devices (aostypes.Name sd)).
Qed.



End placement_properties.

Section placement_filters.
Import launcher launcher_spec placement_spec.
Variable defaultRunners : list string.

Lemma Contains_true l x : gostrings.Contains l x = true ↔ x ∈ l.
Proof. unfold gostrings.Contains. apply bool_decide_eq_true. Qed.

Lemma all_of_true (available desired : list string) :
  negb (bool_decide (length available = 0))
  && forallb (gostrings.Contains available) desired = true
  ↔ available ≠ [] ∧ ∀ x, x ∈ desired → x ∈ available.
Proof.
  rewrite andb_true_iff, negb_true_iff, bool_decide_eq_false, forallb_forall.
  split; intros [Hne Hall]; split.
  - intros ->. by apply Hne.
  - intros x Hx%list_elem_of_In. by apply Contains_true, Hall.
  - intros Hlen%nil_length_inv. done.
  - intros x Hx%list_elem_of_In. by apply Contains_true, Hall.
Qed.

Lemma elem_of_getNodesByLabels nodes desiredLabels node :
  node ∈ getNodesByLabels nodes desiredLabels ↔
  node ∈ nodes
  ∧ (desiredLabels = []
     ∨ (availableLabels node ≠ []
        ∧ ∀ label, label ∈ desiredLabels → label ∈ availableLabels node)).
Proof.
  unfold getNodesByLabels.
  destruct (decide (length desiredLabels = 0)) as [Hnil%nil_length_inv | Hne].
  - subst. split; [intros Hin; split; [done | by left] | by intros [? _]].
  - rewrite list_elem_of_In, filter_In, <- list_elem_of_In, all_of_true.
    split; [intros [Hin Hall]; split; [done | by right] |].
    intros [Hin [-> | Hall]]; done.
Qed.

Lemma elem_of_getNodesByResources nodes desiredResources node :
  node ∈ getNodesByResources nodes desiredResources ↔
  node ∈ nodes
  ∧ (desiredResources = []
     ∨ (availableResources node ≠ []
        ∧ ∀ resource, resource ∈ desiredResources →
                      resource ∈ availableResources node)).
Proof.
  unfold getNodesByResources.
  destruct (decide (length desiredResources = 0))
    as [Hnil%nil_length_inv | Hne].
  - subst. split; [intros Hin; split; [done | by left] | by intros [? _]].
  - rewrite list_elem_of_In, filter_In, <- list_elem_of_In, all_of_true.
    split; [intros [Hin Hall]; split; [done | by right] |].
    intros [Hin [-> | Hall]]; done.
Qed.

Lemma getNodeByRunners_flat_map allNodes runners :
  getNodeByRunners defaultRunners allNodes runners
  = flat_map (λ runner,
                List.filter (nodeRuns defaultRunners runner) allNodes)
             (if decide (length runners = 0) then defaultRunners else runners).
Proof. unfold getNodeByRunners. by rewrite getNodeByRunners_loop. Qed.

Lemma elem_of_getNodeByRunners allNodes runners node :
  node ∈ getNodeByRunners defaultRunners allNodes runners ↔
  node ∈ allNodes
  ∧ ∃ runner,
      runner ∈ (if decide (length runners = 0)
                then defaultRunners else runners)
      ∧ nodeRuns defaultRunners runner node = true.
Proof.
  rewrite getNodeByRunners_flat_map, list_elem_of_In, in_flat_map.
  split.
  - intros (runner & Hr & [Hin Hruns]%filter_In).
    split; [by apply list_elem_of_In |]. exists runner.
    split; [by apply list_elem_of_In | done].
  - intros (Hin & runner & Hr & Hruns). exists runner.
    split; [by apply list_elem_of_In |].
    apply filter_In. split; [by apply list_elem_of_In | done].
Qed.

Lemma getNodesByStaticResources_error allNodes runners resources labels :
  (getNodesByStaticResources defaultRunners allNodes runners resources labels).2
  = None
  ↔ (getNodesByStaticResources defaultRunners allNodes runners resources
       labels).1 ≠ [].
Proof.
  unfold getNodesByStaticResources.
  destruct (decide _) as [H0%nil_length_inv | _]; simpl.
  { rewrite H0. split; [done | intros Hne; by destruct Hne]. }
  destruct (decide _) as [H0%nil_length_inv | _]; simpl.
  { rewrite H0. split; [done | intros Hne; by destruct Hne]. }
  destruct (decide _) as [H0%nil_length_inv | Hlen]; simpl.
  { rewrite H0. split; [done | intros Hne; by destruct Hne]. }
  split; [| done]. intros _ Hnil. by rewrite Hnil in Hlen.
Qed.

(** X5. [getNodesByStaticResources] returns an error exactly when the
    list it returns is empty; every node it returns is a node of the
    cluster that runs one of the requested runners (the default ones for
    an empty request), has every requested label and every requested
    resource. *)
Theorem getNodesByStaticResources_sound
    (allNodes : list nodeHandler) (runners resources labels : list string) :
  let out :=
    getNodesByStaticResources defaultRunners allNodes runners resources
      labels in
  (out.2 = None ↔ out.1 ≠ [])
  ∧ ∀ node, node ∈ out.1 →
      node ∈ allNodes
      ∧ (∃ runner,
           runner ∈ (if decide (length runners = 0)
                     then defaultRunners else runners)
           ∧ nodeRuns defaultRunners runner node = true)
      ∧ (labels = []
         ∨ (availableLabels node ≠ []
            ∧ ∀ label, label ∈ labels → label ∈ availableLabels node))
      ∧ (resources = []
         ∨ (availableResources node ≠ []
            ∧ ∀ resource, resource ∈ resources →
                          resource ∈ availableResources node)).
Proof.
  intros out. split; [apply getNodesByStaticResources_error |].
  subst out. unfold getNodesByStaticResources. intros node.
  destruct (decide _) as [Hr | _]; simpl.
  { apply nil_length_inv in Hr. rewrite Hr. by intros ?%elem_of_nil. }
  destruct (decide _) as [Hl | _]; simpl.
  { apply nil_length_inv in Hl. rewrite Hl. by intros ?%elem_of_nil. }
  assert (node ∈ getNodesByResources
                   (getNodesByLabels
                      (getNodeByRunners defaultRunners allNodes runners)
                      labels) resources →
          node ∈ allNodes
          ∧ (∃ runner,
               runner ∈ (if decide (length runners = 0)
                         then defaultRunners else runners)
               ∧ nodeRuns defaultRunners runner node = true)
          ∧ (labels = []
             ∨ (availableLabels node ≠ []
                ∧ ∀ label, label ∈ labels → label ∈ availableLabels node))
          ∧ (resources = []
             ∨ (availableResources node ≠ []
                ∧ ∀ resource, resource ∈ resources →
                              resource ∈ availableResources node))) as Hall.
  { intros [[[Hin Hruns]%elem_of_getNodeByRunners Hlab]%elem_of_getNodesByLabels
              Hres]%elem_of_getNodesByResources. done. }
  by destruct (decide (length (getNodesByResources _ _) = 0)).
Qed.

Lemma shrinks_nil_l nodes : shrinks [] nodes.
Proof. induction nodes; by constructor. Qed.

Lemma shrinks_nil_r nodes' : shrinks nodes' [] → nodes' = [].
Proof. by inversion 1. Qed.

Lemma shrinks_app a' a b' b :
  shrinks a' a → shrinks b' b → shrinks (a' ++ b') (a ++ b).
Proof. induction 1; intros Hb; simpl; [done | | ]; constructor; auto. Qed.

Lemma shrinks_filter (f : nodeHandler → bool) nodes' nodes :
  (∀ node' node, fewer_capabilities node' node →
     f node' = true → f node = true) →
  shrinks nodes' nodes → shrinks (List.filter f nodes') (List.filter f nodes).
Proof.
  intros Hmono. induction 1 as [| n' n l' l Hfewer _ IH | n l' l _ IH]; simpl.
  - constructor.
  - destruct (f n') eqn:Hn'.
    + rewrite (Hmono _ _ Hfewer Hn'). by constructor.
    + destruct (f n); [by constructor | done].
  - destruct (f n); [by constructor | done].
Qed.

Lemma shrinks_getNodeByRunners nodes' nodes runners :
  shrinks nodes' nodes →
  shrinks (getNodeByRunners defaultRunners nodes' runners)
          (getNodeByRunners defaultRunners nodes runners).
Proof.
  intros Hshrinks. rewrite !getNodeByRunners_flat_map.
  induction (if decide (length runners = 0) then defaultRunners else runners)
    as [| runner rest IH]; simpl; [constructor |].
  apply shrinks_app; [| done]. apply shrinks_filter; [| done].
  intros node' node (_ & Hrunners & _). unfold nodeRuns. by rewrite Hrunners.
Qed.

Lemma shrinks_getNodesByLabels nodes' nodes desiredLabels :
  shrinks nodes' nodes →
  shrinks (getNodesByLabels nodes' desiredLabels)
          (getNodesByLabels nodes desiredLabels).
Proof.
  intros Hshrinks. unfold getNodesByLabels. destruct (decide _); [done |].
  apply shrinks_filter; [| done].
  intros node' node (_ & _ & Hlabels & _) [Hne Hall]%all_of_true.
  apply all_of_true. split; [| by auto].
  destruct (availableLabels node') as [| x l] eqn:E; [done |].
  intros Hnil. specialize (Hlabels x ltac:(left)). rewrite Hnil in Hlabels.
  by apply elem_of_nil in Hlabels.
Qed.

Lemma shrinks_getNodesByResources nodes' nodes desiredResources :
  shrinks nodes' nodes →
  shrinks (getNodesByResources nodes' desiredResources)
          (getNodesByResources nodes desiredResources).
Proof.
  intros Hshrinks. unfold getNodesByResources. destruct (decide _); [done |].
  apply shrinks_filter; [| done].
  intros node' node (_ & _ & _ & Hresources) [Hne Hall]%all_of_true.
  apply all_of_true. split; [| by auto].
  destruct (availableResources node') as [| x l] eqn:E; [done |].
  intros Hnil. specialize (Hresources x ltac:(left)).
  rewrite Hnil in Hresources. by apply elem_of_nil in Hresources.
Qed.

(** X6. The static filters are monotone: when nodes are taken out of the
    cluster or lose labels and resources, the list
    [getNodesByStaticResources] returns only loses nodes, and a request
    that failed on the larger cluster fails on the smaller one. *)
Theorem getNodesByStaticResources_monotone
    (nodes' nodes : list nodeHandler) (runners resources labels : list string)
    (Hshrinks : shrinks nodes' nodes) :
  shrinks
    (getNodesByStaticResources defaultRunners nodes' runners resources
       labels).1
    (getNodesByStaticResources defaultRunners nodes runners resources
       labels).1
  ∧ ((getNodesByStaticResources defaultRunners nodes runners resources
        labels).2 ≠ None →
     (getNodesByStaticResources defaultRunners nodes' runners resources
        labels).2 ≠ None).
Proof.
  assert (shrinks
            (getNodesByStaticResources defaultRunners nodes' runners resources
               labels).1
            (getNodesByStaticResources defaultRunners nodes runners resources
               labels).1) as Hout.
  { pose proof (shrinks_getNodeByRunners _ _ runners Hshrinks) as Hr.
    pose proof (shrinks_getNodesByLabels _ _ labels Hr) as Hl.
    pose proof (shrinks_getNodesByResources _ _ resources Hl) as Hs.
    unfold getNodesByStaticResources.
    destruct (decide (length (getNodeByRunners defaultRunners nodes' runners)
                      = 0)) as [Hr0%nil_length_inv | Hr1]; simpl.
    { rewrite Hr0. apply shrinks_nil_l. }
    destruct (decide (length (getNodesByLabels
                                (getNodeByRunners defaultRunners nodes'
                                   runners) labels) = 0))
      as [Hl0%nil_length_inv | Hl1]; simpl.
    { rewrite Hl0. apply shrinks_nil_l. }
    assert ((if decide (length (getNodesByResources
                                  (getNodesByLabels
                                     (getNodeByRunners defaultRunners nodes'
                                        runners) labels) resources) = 0)
             then (getNodesByResources
                     (getNodesByLabels
                        (getNodeByRunners defaultRunners nodes' runners)
                        labels) resources,
                   Some (errNoNodeWithResources resources))
             else (getNodesByResources
                     (getNodesByLabels
                        (getNodeByRunners defaultRunners nodes' runners)
                        labels) resources, None)).1
            = getNodesByResources
                (getNodesByLabels
                   (getNodeByRunners defaultRunners nodes' runners) labels)
                resources) as -> by (by destruct (decide _)).
    destruct (decide (length (getNodeByRunners defaultRunners nodes runners)
                      = 0)) as [Hr0%nil_length_inv | _]; simpl.
    { rewrite Hr0 in Hr. apply shrinks_nil_r in Hr. by rewrite Hr in Hr1. }
    destruct (decide (length (getNodesByLabels
                                (getNodeByRunners defaultRunners nodes
                                   runners) labels) = 0))
      as [Hl0%nil_length_inv | _]; simpl.
    { rewrite Hl0 in Hl. apply shrinks_nil_r in Hl. by rewrite Hl in Hl1. }
    by destruct (decide _). }
  split; [done |].
  intros Herr Hok. apply Herr.
  apply getNodesByStaticResources_error.
  apply getNodesByStaticResources_error in Hok.
  intros Hnil. rewrite Hnil in Hout. by apply shrinks_nil_r in Hout.
Qed.

(** X7. [getNodesByDevices] returns exactly the nodes that pass the
    devices check, all of them and in their order (every node passes an
    empty request).  It fails exactly when devices are requested and no
    node passes; an empty request fails on no cluster, not even on the
    empty one. *)
Theorem getNodesByDevices_error
    (availableNodes : list nodeHandler)
    (desiredDevices : list aostypes.ServiceDevice) :
  let out := getNodesByDevices availableNodes desiredDevices in
  out.1 = List.filter (λ node, nodeHasDesiredDevices node desiredDevices)
                      availableNodes
  ∧ (∀ node, node ∈ out.1 ↔
       node ∈ availableNodes
       ∧ nodeHasDesiredDevices node desiredDevices = true)
  ∧ out.1 `sublist_of` availableNodes
  ∧ (out.2 ≠ None ↔
     desiredDevices ≠ []
     ∧ ∀ node, node ∈ availableNodes →
               nodeHasDesiredDevices node desiredDevices = false)
  ∧ (out.2 ≠ None → out.1 = []).
Proof.
  intros out.
  assert (out.1 = List.filter
                    (λ node, nodeHasDesiredDevices node desiredDevices)
                    availableNodes) as Hfilter
    by apply getNodesByDevices_filter.
  split; [exact Hfilter |]. split; [| split; [| split]].
  - intros node. rewrite Hfilter.
    by rewrite list_elem_of_In, filter_In, <- list_elem_of_In.
  - rewrite Hfilter. clear. induction availableNodes as [| n l IH]; simpl.
    + constructor.
    + destruct (nodeHasDesiredDevices n desiredDevices); by constructor.
  - subst out. unfold getNodesByDevices in *.
    destruct (decide (length desiredDevices = 0)) as [Hnil%nil_length_inv | Hne].
    { simpl. split; [done | by intros [Hreq _]]. }
    assert (desiredDevices ≠ []) as Hreq by (by intros ->).
    destruct (decide (length _ = 0)) as [Hnone%nil_length_inv | Hsome]; simpl.
    + split; [| done]. intros _. split; [done |]. intros node Hin.
      destruct (nodeHasDesiredDevices node desiredDevices) eqn:E; [| done].
      assert (node ∈ List.filter
                (λ node, nodeHasDesiredDevices node desiredDevices)
                availableNodes) as Hpass.
      { apply list_elem_of_In, filter_In. by rewrite <- list_elem_of_In. }
      rewrite Hnone in Hpass. by apply elem_of_nil in Hpass.
    + split; [done |]. intros [_ Hall]. exfalso. apply Hsome.
      destruct (List.filter _ availableNodes) as [| n l] eqn:E; [done |].
      assert (In n (List.filter
                      (λ node, nodeHasDesiredDevices node desiredDevices)
                      availableNodes)) as Hin by (rewrite E; by left).
      apply filter_In in Hin as [Hin Hpass].
      apply list_elem_of_In, Hall in Hin. congruence.
  - subst out. unfold getNodesByDevices.
    destruct (decide (length desiredDevices = 0)); [done |].
    destruct (decide (length _ = 0)) as [Hnone%nil_length_inv |]; done.
Qed.

End placement_filters.

Section run_request_properties.
Import launcher placement_spec.
Context {InstanceInfo ServiceFields LayerFields : Type}.
Context `{!EqDecision ServiceFields, !EqDecision LayerFields}.

Lemma existsb_same {A} `{EqDecision A} (x : A) (l : list A) :
  existsb (λ old, bool_decide (old = x)) l = true ↔ x ∈ l.
Proof.
  rewrite existsb_exists. split.
  - intros (y & Hy & ->%bool_decide_eq_true). by apply list_elem_of_In.
  - intros Hx. exists x. split; [by apply list_elem_of_In |].
    by apply bool_decide_eq_true.
Qed.

Lemma existsb_same_r {A} `{EqDecision A} (x : A) (l : list A) :
  existsb (λ old, bool_decide (x = old)) l = true ↔ x ∈ l.
Proof.
  rewrite existsb_exists. split.
  - intros (y & Hy & <-%bool_decide_eq_true). by apply list_elem_of_In.
  - intros Hx. exists x. split; [by apply list_elem_of_In |].
    by apply bool_decide_eq_true.
Qed.

Lemma elem_of_prefix_of {A} (l1 l2 : list A) x :
  l1 `prefix_of` l2 → x ∈ l1 → x ∈ l2.
Proof. intros [k ->] Hx. apply elem_of_app. by left. Qed.

(** The loop of [addRunRequest] over the layers. *)
Lemma addRunRequest_layers (isLocalNode : bool)
    (layers : list (imageLayer LayerFields))
    (scheduled : list (LayerInfo LayerFields)) :
  let out :=
    foldl (λ Layers layer,
             let newLayer := scheduledLayer isLocalNode layer in
             if existsb (λ oldLayer, bool_decide (newLayer = oldLayer)) Layers
             then Layers else Layers ++ [newLayer])
          scheduled layers in
  scheduled `prefix_of` out
  ∧ (NoDup scheduled → NoDup out)
  ∧ (∀ layer, layer ∈ layers → scheduledLayer isLocalNode layer ∈ out)
  ∧ ((∀ layer, layer ∈ layers →
        scheduledLayer isLocalNode layer ∈ scheduled) → out = scheduled).
Proof.
  revert scheduled. induction layers as [| layer rest IH]; intros scheduled.
  { simpl. split; [done |]. split; [done |]. split; [| done].
    by intros layer ?%elem_of_nil. }
  simpl.
  destruct (existsb _ scheduled) eqn:Hold.
  - apply existsb_same_r in Hold.
    destruct (IH scheduled) as (Hpre & Hnodup & Hin & Hsame).
    split; [done |]. split; [done |]. split.
    + intros x [-> | Hx]%elem_of_cons; [| by apply Hin].
      by apply (elem_of_prefix_of _ _ _ Hpre).
    + intros Hall. apply Hsame. intros x Hx. apply Hall. by right.
  - assert (scheduledLayer isLocalNode layer ∉ scheduled) as Hnew.
    { intros Hin%existsb_same_r. congruence. }
    destruct (IH (scheduled ++ [scheduledLayer isLocalNode layer]))
      as (Hpre & Hnodup & Hin & Hsame).
    split; [| split; [| split]].
    + etrans; [| exact Hpre]. by apply prefix_app_r.
    + intros Hs. apply Hnodup. apply NoDup_app. split; [done |].
      split; [| apply NoDup_singleton].
      by intros x Hx ->%list_elem_of_singleton.
    + intros x [-> | Hx]%elem_of_cons; [| by apply Hin].
      apply (elem_of_prefix_of _ _ _ Hpre).
      apply elem_of_app. right. by apply list_elem_of_singleton.
    + intros Hall. destruct Hnew. apply Hall. left.
Qed.

Lemma addRunRequest_again (isLocalNode : bool) (instance : InstanceInfo)
    (service : imageService ServiceFields)
    (layers : list (imageLayer LayerFields))
    (currentRunRequest : runRequestInfo InstanceInfo ServiceFields LayerFields) :
  scheduledService isLocalNode service ∈ Services currentRunRequest →
  (∀ layer, layer ∈ layers →
     scheduledLayer isLocalNode layer ∈ Layers currentRunRequest) →
  Services (addRunRequest isLocalNode instance service layers
              currentRunRequest) = Services currentRunRequest
  ∧ Layers (addRunRequest isLocalNode instance service layers
              currentRunRequest) = Layers currentRunRequest.
Proof.
  intros Hservice%existsb_same Hlayers. unfold addRunRequest. simpl.
  rewrite Hservice. simpl. split; [done |].
  by apply (addRunRequest_layers isLocalNode layers
              (Layers currentRunRequest)).
Qed.

(** X8. [addRunRequest] appends the instance and schedules the service
    and the layers without repeating any: the services and layers already
    scheduled stay in front in their order, lists without duplicates stay
    so, the service and every layer of the call are scheduled afterwards
    (with their remote URL on a node that is not local), and scheduling
    the same service and layers for a further instance adds no service and
    no layer. *)
Theorem addRunRequest_schedules_once
    (isLocalNode : bool) (instance : InstanceInfo)
    (service : imageService ServiceFields)
    (layers : list (imageLayer LayerFields))
    (currentRunRequest : runRequestInfo InstanceInfo ServiceFields LayerFields)
    (Hservices : NoDup (Services currentRunRequest))
    (Hlayers : NoDup (Layers currentRunRequest)) :
  let out :=
    addRunRequest isLocalNode instance service layers currentRunRequest in
  Instances out = Instances currentRunRequest ++ [instance]
  ∧ NoDup (Services out) ∧ NoDup (Layers out)
  ∧ Services currentRunRequest `prefix_of` Services out
  ∧ Layers currentRunRequest `prefix_of` Layers out
  ∧ scheduledService isLocalNode service ∈ Services out
  ∧ (∀ layer, layer ∈ layers → scheduledLayer isLocalNode layer ∈ Layers out)
  ∧ ∀ instance',
      Services (addRunRequest isLocalNode instance' service layers out)
      = Services out
      ∧ Layers (addRunRequest isLocalNode instance' service layers out)
        = Layers out.
Proof.
  intros out.
  destruct (addRunRequest_layers isLocalNode layers (Layers currentRunRequest))
    as (Hpre & Hnodup & Hin & _).
  assert (scheduledService isLocalNode service ∈ Services out) as Hservice.
  { subst out. unfold addRunRequest. simpl.
    destruct (existsb _ (Services currentRunRequest)) eqn:Hold; simpl.
    - by apply existsb_same in Hold.
    - apply elem_of_app. right. by apply list_elem_of_singleton. }
  split; [done |]. split; [| split; [| split; [| split; [| split; [| split]]]]].
  - subst out. unfold addRunRequest. simpl.
    destruct (existsb _ (Services currentRunRequest)) eqn:Hold; simpl; [done |].
    apply NoDup_app. split; [done |]. split; [| apply NoDup_singleton].
    intros x Hx ->%list_elem_of_singleton.
    apply existsb_same in Hx. congruence.
  - by apply Hnodup.
  - subst out. unfold addRunRequest. simpl.
    destruct (existsb _ (Services currentRunRequest)); simpl; [done |].
    by apply prefix_app_r.
  - done.
  - done.
  - done.
  - intros instance'. by apply addRunRequest_again.
Qed.

End run_request_properties.

Section placement_witnesses.
Import launcher launcher_spec placement_spec.

Lemma getMostPriorityNode_first_highest_witness :
  getMostPriorityNode cluster
  = Some (plain_node "n2" [] ["a"] ["disk"; "gpu"] [] 10)
  ∧ ∃ i, cluster !! i = Some (plain_node "n2" [] ["a"] ["disk"; "gpu"] [] 10)
         ∧ (∀ other, other ∈ cluster → (priority other ≤ 10)%N)
         ∧ (∀ j earlier, j < i → cluster !! j = Some earlier →
              (priority earlier < 10)%N).
Proof.
  assert (getMostPriorityNode cluster
          = Some (plain_node "n2" [] ["a"] ["disk"; "gpu"] [] 10)) as Hnode
    by reflexivity.
  split; [exact Hnode |].
  exact (proj2 (getMostPriorityNode_first_highest cluster) _ Hnode).
Defined.

Lemma allocateDevices_admitted_witness :
  nodeHasDesiredDevices (plain_node "n1" [] [] [] two_devices 5)
    (request ["gpu"; "gpu"]) = true.
Proof.
  apply (allocateDevices_admitted (plain_node "n1" [] [] [] two_devices 5)
           (request ["gpu"; "gpu"])).
  reflexivity.
Defined.


Lemma getNodesByStaticResources_monotone_witness :
  shrinks
    (getNodesByStaticResources ["crun"; "runc"] smaller_cluster ["runc"] []
       ["b"]).1
    (getNodesByStaticResources ["crun"; "runc"] cluster ["runc"] [] ["b"]).1
  ∧ ((getNodesByStaticResources ["crun"; "runc"] cluster ["runc"] []
        ["b"]).2 ≠ None →
     (getNodesByStaticResources ["crun"; "runc"] smaller_cluster ["runc"] []
        ["b"]).2 ≠ None).
Proof.
  apply (getNodesByStaticResources_monotone ["crun"; "runc"] smaller_cluster
           cluster ["runc"] [] ["b"]).
  assert (∀ node, fewer_capabilities node node) as Hrefl.
  { intros node. by repeat split. }
  apply shrinks_keep; [| by repeat apply shrinks_keep; try apply shrinks_nil].
  repeat split; simpl; try done.
  intros label ->%list_elem_of_singleton. left.
Defined.

Lemma addRunRequest_schedules_once_witness :
  let out :=
    addRunRequest false 1 service_v1 [layer_v1; layer_v1] empty_request in
  Instances out = [1]
  ∧ NoDup (Services out) ∧ NoDup (Layers out)
  ∧ Services empty_request `prefix_of` Services out
  ∧ Layers empty_request `prefix_of` Layers out
  ∧ scheduledService false service_v1 ∈ Services out
  ∧ (∀ layer, layer ∈ [layer_v1; layer_v1] →
              scheduledLayer false layer ∈ Layers out)
  ∧ ∀ instance',
      Services (addRunRequest false instance' service_v1 [layer_v1; layer_v1]
                  out) = Services out
      ∧ Layers (addRunRequest false instance' service_v1 [layer_v1; layer_v1]
                  out) = Layers out.
Proof.
  apply (addRunRequest_schedules_once false 1 service_v1 [layer_v1; layer_v1]
           empty_request); apply NoDup_nil_2.
Defined.

End placement_witnesses.

(** * Further properties of the network manager *)

Section policy_properties.
Import networkmanager policy_spec.

Lemma Split_length s sep :
  length (gostrings.Split s sep) = S (count_sep sep s).
Proof.
  induction s as [| c s IH]; simpl; [done |].
  destruct (decide (c = sep)); simpl; [by rewrite IH |].
  destruct (gostrings.Split s sep); simpl in *; done.
Qed.

Lemma Join_Split s sep : Join (gostrings.Split s sep) sep = s.
Proof.
  induction s as [| c s IH]; simpl; [done |].
  pose proof (Split_length s sep) as Hlen.
  destruct (decide (c = sep)) as [-> |].
  - destruct (gostrings.Split s sep) as [| piece rest]; [done |].
    simpl in *. by rewrite IH.
  - destruct (gostrings.Split s sep) as [| piece rest]; [done |].
    destruct rest; simpl in *; by rewrite <- IH.
Qed.

Lemma Split_pieces s sep :
  Forall (λ piece, count_sep sep piece = 0) (gostrings.Split s sep).
Proof.
  induction s as [| c s IH]; simpl; [by repeat constructor |].
  destruct (decide (c = sep)); [by constructor |].
  destruct (gostrings.Split s sep) as [| piece rest]; [| inversion IH; subst].
  - repeat constructor. simpl. by rewrite decide_False.
  - constructor; [| done]. simpl. by rewrite decide_False.
Qed.

Lemma Split_app a b sep :
  count_sep sep a = 0 →
  gostrings.Split (a +:+ String sep b) sep = a :: gostrings.Split b sep.
Proof.
  induction a as [| c a IH]; simpl.
  - intros _. by rewrite decide_True.
  - destruct (decide (c = sep)); [done |]. simpl. intros Ha.
    by rewrite IH.
Qed.

Lemma Split_whole s sep : count_sep sep s = 0 → gostrings.Split s sep = [s].
Proof.
  induction s as [| c s IH]; simpl; [done |].
  destruct (decide (c = sep)); [done |]. simpl. intros Hs. by rewrite IH.
Qed.

Lemma count_sep_app a b sep :
  count_sep sep (a +:+ b) = count_sep sep a + count_sep sep b.
Proof. induction a as [| c a IH]; simpl; [done |]. rewrite IH. lia. Qed.

Lemma parseAllowConnection_accepts connection :
  (∃ parsed, parseAllowConnection connection = Ok parsed)
  ↔ 0 < count_sep "/" connection ∧ count_sep "/" connection < 3.
Proof.
  unfold parseAllowConnection.
  rewrite Split_length. unfold allowedConnectionsExpectedLen.
  destruct (decide _) as [Hbad | Hgood].
  - split; [by intros [? ?] | lia].
  - split; [lia | eauto].
Qed.

Lemma parseAllowConnection_spells connection serviceID port protocol :
  parseAllowConnection connection = Ok (serviceID, port, protocol) →
  count_sep "/" serviceID = 0 ∧ count_sep "/" port = 0
  ∧ ((protocol = "tcp" ∧ connection = serviceID +:+ "/" +:+ port)
     ∨ (count_sep "/" protocol = 0
        ∧ connection = serviceID +:+ "/" +:+ port +:+ "/" +:+ protocol)).
Proof.
  unfold parseAllowConnection.
  pose proof (Split_length connection "/") as Hlen.
  pose proof (Split_pieces connection "/") as Hpieces.
  pose proof (Join_Split connection "/") as Hjoin.
  unfold allowedConnectionsExpectedLen.
  destruct (decide _) as [Hbad | Hgood]; [done |].
  destruct (gostrings.Split connection "/") as [| a [| b [| c [| d rest]]]];
    simpl in *; try lia.
  - intros [= <- <- <-].
    apply Forall_cons in Hpieces as [Ha Hpieces].
    apply Forall_cons in Hpieces as [Hb _].
    split; [done |]. split; [done |]. left. by rewrite <- Hjoin.
  - intros [= <- <- <-].
    apply Forall_cons in Hpieces as [Ha Hpieces].
    apply Forall_cons in Hpieces as [Hb Hpieces].
    apply Forall_cons in Hpieces as [Hc _].
    split; [done |]. split; [done |]. right. by rewrite <- Hjoin.
Qed.

Lemma parseAllowConnection_reads serviceID port protocol :
  count_sep "/" serviceID = 0 → count_sep "/" port = 0 →
  count_sep "/" protocol = 0 →
  parseAllowConnection (serviceID +:+ "/" +:+ port +:+ "/" +:+ protocol)
  = Ok (serviceID, port, protocol)
  ∧ parseAllowConnection (serviceID +:+ "/" +:+ port)
    = Ok (serviceID, port, "tcp").
Proof.
  intros Hs Hp Hq. unfold parseAllowConnection.
  change (serviceID +:+ "/" +:+ port +:+ "/" +:+ protocol)
    with (serviceID +:+ String "/" (port +:+ String "/" protocol)).
  change (serviceID +:+ "/" +:+ port) with (serviceID +:+ String "/" port).
  rewrite !Split_app by done. rewrite !(Split_whole _ "/") by done.
  done.
Qed.

(** X9. [parseAllowConnection] accepts exactly the entries with one or
    two "/".  What it returns spells the entry back: the service, the
    port and, for two "/", the protocol, none of them with a "/", and
    "tcp" for the protocol when there is one "/" only.  Conversely a
    service, a port and a protocol without "/" are read back from
    "service/port/protocol", and with "tcp" from "service/port". *)
Theorem parseAllowConnection_round_trip :
  (∀ connection,
     (∃ parsed, parseAllowConnection connection = Ok parsed)
     ↔ 0 < count_sep "/" connection ∧ count_sep "/" connection < 3)
  ∧ (∀ connection serviceID port protocol,
       parseAllowConnection connection = Ok (serviceID, port, protocol) →
       count_sep "/" serviceID = 0 ∧ count_sep "/" port = 0
       ∧ ((protocol = "tcp" ∧ connection = serviceID +:+ "/" +:+ port)
          ∨ (count_sep "/" protocol = 0
             ∧ connection
               = serviceID +:+ "/" +:+ port +:+ "/" +:+ protocol)))
  ∧ (∀ serviceID port protocol,
       count_sep "/" serviceID = 0 → count_sep "/" port = 0 →
       count_sep "/" protocol = 0 →
       parseAllowConnection (serviceID +:+ "/" +:+ port +:+ "/" +:+ protocol)
       = Ok (serviceID, port, protocol)
       ∧ parseAllowConnection (serviceID +:+ "/" +:+ port)
         = Ok (serviceID, port, "tcp")).
Proof.
  split; [| split].
  - apply parseAllowConnection_accepts.
  - apply parseAllowConnection_spells.
  - apply parseAllowConnection_reads.
Qed.

Lemma parseExposedPorts_one exposePort :
  count_sep "/" exposePort < 2 →
  ∃ rule, exposes exposePort rule
          ∧ ∀ rest, parseExposedPorts (exposePort :: rest)
                    = match parseExposedPorts rest with
                      | Ok rules => Ok (rule :: rules)
                      | Err e => Err e
                      end.
Proof.
  intros Hcount.
  pose proof (Split_length exposePort "/") as Hlen.
  pose proof (Split_pieces exposePort "/") as Hpieces.
  pose proof (Join_Split exposePort "/") as Hjoin.
  unfold parseExposedPorts; fold parseExposedPorts.
  unfold exposePortConfigExpectedLen.
  destruct (gostrings.Split exposePort "/") as [| a [| b [| c rest]]];
    simpl in *; try lia.
  - eexists. split; [| done].
    apply Forall_cons in Hpieces as [Ha _]. split; [done |]. by left.
  - eexists. split; [| done].
    apply Forall_cons in Hpieces as [Ha Hpieces].
    apply Forall_cons in Hpieces as [Hb _].
    split; [done |]. right. split; [done |]. by rewrite <- Hjoin.
Qed.

Lemma parseExposedPorts_bad exposePort rest :
  1 < count_sep "/" exposePort →
  parseExposedPorts (exposePort :: rest)
  = Err (errUnsupportedExposedPorts exposePort).
Proof.
  intros Hcount. pose proof (Split_length exposePort "/") as Hlen.
  unfold parseExposedPorts; fold parseExposedPorts.
  unfold exposePortConfigExpectedLen.
  rewrite decide_True; [done |]. left. lia.
Qed.

Lemma parseExposedPorts_cases (exposePorts : list string) :
  ((∃ rules, parseExposedPorts exposePorts = Ok rules)
   ↔ Forall (λ exposePort, count_sep "/" exposePort < 2) exposePorts)
  ∧ (∀ rules, parseExposedPorts exposePorts = Ok rules →
       Forall2 exposes exposePorts rules)
  ∧ (∀ e, parseExposedPorts exposePorts = Err e →
       ∃ before bad after,
         exposePorts = before ++ bad :: after
         ∧ e = errUnsupportedExposedPorts bad
         ∧ 1 < count_sep "/" bad
         ∧ Forall (λ exposePort, count_sep "/" exposePort < 2) before).
Proof.
  induction exposePorts as [| exposePort rest (IHok & IHrules & IHerr)].
  { split; [| split]; simpl.
    - split; [by constructor | eauto].
    - intros rules [= <-]. constructor.
    - done. }
  destruct (decide (count_sep "/" exposePort < 2)) as [Hgood | Hbad].
  - destruct (parseExposedPorts_one exposePort Hgood) as (rule & Hrule & Heq).
    rewrite Heq. split; [| split].
    + rewrite Forall_cons. split.
      * intros [rules Hrules]. split; [done |]. apply IHok.
        destruct (parseExposedPorts rest); [eauto | done].
      * intros [_ Hrest]. apply IHok in Hrest as [rules ->]. eauto.
    + intros rules Hrules.
      destruct (parseExposedPorts rest) as [tail |]; [| done].
      simplify_eq. constructor; [done | by apply IHrules].
    + intros e He.
      destruct (parseExposedPorts rest) as [tail | e']; [done |].
      simplify_eq.
      destruct (IHerr e eq_refl) as (before & bad & after & -> & ? & ? & ?).
      exists (exposePort :: before), bad, after.
      split; [done |]. split; [done |]. split; [done |]. by constructor.
  - rewrite parseExposedPorts_bad by lia. split; [| split].
    + split; [by intros [? ?] |]. intros [? _]%Forall_cons. lia.
    + done.
    + intros e [= <-]. exists [], exposePort, rest.
      split; [done |]. split; [done |]. split; [lia | constructor].
Qed.

(** X10. [parseExposedPorts] accepts a list exactly when no entry has
    more than one "/".  It then returns one rule for each entry, in
    order: the entry is the port of its rule, with protocol "tcp", or
    "port/protocol".  Otherwise the error names the first entry with two
    or more "/". *)
Theorem parseExposedPorts_rules (exposePorts : list string) :
  ((∃ rules, parseExposedPorts exposePorts = Ok rules)
   ↔ Forall (λ exposePort, count_sep "/" exposePort < 2) exposePorts)
  ∧ (∀ rules, parseExposedPorts exposePorts = Ok rules →
       Forall2 exposes exposePorts rules)
  ∧ (∀ e, parseExposedPorts exposePorts = Err e →
       ∃ before bad after,
         exposePorts = before ++ bad :: after
         ∧ e = errUnsupportedExposedPorts bad
         ∧ 1 < count_sep "/" bad
         ∧ Forall (λ exposePort, count_sep "/" exposePort < 2) before).
Proof. apply parseExposedPorts_cases. Qed.

(** X11. The two grammars agree: when the [ExposePorts] of an instance
    parse to its [Rules], an [AllowConnections] entry made of a service
    name without "/", a "/" and one of those [ExposePorts] entries as it
    is written parses to a port and protocol for which [ruleExists]
    answers true. *)
Theorem exposed_port_is_allowed
    (exposePorts : list string) (info : InstanceNetworkInfo)
    (serviceID exposePort : string)
    (Hparse : parseExposedPorts exposePorts = Ok (Rules info))
    (Hin : exposePort ∈ exposePorts)
    (Hservice : count_sep "/" serviceID = 0) :
  ∃ port protocol,
    parseAllowConnection (serviceID +:+ "/" +:+ exposePort)
    = Ok (serviceID, port, protocol)
    ∧ ruleExists info port protocol = true.
Proof.
  destruct (parseExposedPorts_cases exposePorts) as (_ & Hrules & _).
  specialize (Hrules _ Hparse).
  apply list_elem_of_lookup in Hin as [i Hi].
  destruct (Forall2_lookup_l _ _ _ _ _ Hrules Hi)
    as (rule & Hrule & Hport & Hform).
  exists (Port rule), (Protocol rule). split.
  - destruct Hform as [[-> Htcp] | [Hproto ->]].
    + rewrite Htcp. by apply (parseAllowConnection_reads serviceID _ "tcp").
    + by apply (parseAllowConnection_reads serviceID).
  - unfold ruleExists. apply existsb_exists. exists rule.
    split; [by eapply list_elem_of_In, list_elem_of_lookup_2 |].
    by rewrite !bool_decide_true.
Qed.

End policy_properties.

Section instance_operations.
Import networkmanager manager_spec policy_spec.
Context `{!net.Lib, !Storage, !NodeManager, !Ipam, !VlanSource, !DnsServer,
          !RangeOrder}.

Lemma getNetworkParametersToCache_loop_cases instanceIdent networks :
  (∃ k instanceData info,
     (k, instanceData) ∈ networks ∧ instanceData !! instanceIdent = Some info
     ∧ getNetworkParametersToCache_loop instanceIdent networks
       = (info_NetworkParameters info, k, true))
  ∨ ((∀ k instanceData, (k, instanceData) ∈ networks →
        instanceData !! instanceIdent = None)
     ∧ getNetworkParametersToCache_loop instanceIdent networks
       = (aostypes.NetworkParameters_zero, "", false)).
Proof.
  induction networks as [| [k instanceData] rest IH]; simpl.
  - right. split; [| done]. by intros k d ?%elem_of_nil.
  - destruct (instanceData !! instanceIdent) as [info |] eqn:Hinfo.
    + left. exists k, instanceData, info. split; [left | done].
    + destruct IH as [(k' & d & info & Hin & Hd & ->) | [Hnone ->]].
      * left. exists k', d, info. split; [by right | done].
      * right. split; [| done].
        intros k' d [[= -> ->] | Hin]%elem_of_cons; [done | by eapply Hnone].
Qed.

Lemma getNetworkParametersToCache_cases instanceIdent (m : NetworkManager) :
  (∃ k info,
     bound_in m k instanceIdent = Some info
     ∧ getNetworkParametersToCache instanceIdent m
       = (info_NetworkParameters info, k, true))
  ∨ ((∀ k, bound_in m k instanceIdent = None)
     ∧ getNetworkParametersToCache instanceIdent m
       = (aostypes.NetworkParameters_zero, "", false)).
Proof.
  unfold getNetworkParametersToCache, bound_in.
  destruct (getNetworkParametersToCache_loop_cases instanceIdent
              (range (instancesData m)))
    as [(k & d & info & Hin%elem_of_range & Hd & ->) | [Hnone ->]].
  - left. exists k, info. by rewrite Hin.
  - right. split; [| done]. intros k.
    destruct (instancesData m !! k) as [d |] eqn:Hk; [| done].
    apply (Hnone k). by apply elem_of_range.
Qed.






Lemma removeInstanceNetworkParameters_instancesData networkID instanceIdent ip
    (m : NetworkManager) :
  instancesData
    (removeInstanceNetworkParameters networkID instanceIdent ip m).2
  = alter (delete instanceIdent) networkID (instancesData m)
  ∧ providerNetworks
      (removeInstanceNetworkParameters networkID instanceIdent ip m).2
    = providerNetworks m.
Proof.
  unfold removeInstanceNetworkParameters.
  by destruct (RemoveNetworkInstanceInfo _ _).
Qed.

(** X13. [RemoveInstanceNetworkParameters] returns a manager that does
    not know the identity as it is.  Otherwise it deletes one record of
    the identity, under a network the identity was bound in, and leaves
    every other record and the provider networks as they were. *)
Theorem remove_unbinds_instance
    (instanceIdent : aostypes.InstanceIdent) (m : NetworkManager) :
  let m' := RemoveInstanceNetworkParameters instanceIdent m in
  ((∀ networkID, bound_in m networkID instanceIdent = None) ∧ m' = m)
  ∨ ∃ networkID info,
      bound_in m networkID instanceIdent = Some info
      ∧ bound_in m' networkID instanceIdent = None
      ∧ (∀ otherNetwork other,
           (otherNetwork, other) ≠ (networkID, instanceIdent) →
           bound_in m' otherNetwork other = bound_in m otherNetwork other)
      ∧ providerNetworks m' = providerNetworks m.
Proof.
  unfold RemoveInstanceNetworkParameters.
  destruct (getNetworkParametersToCache_cases instanceIdent m)
    as [(k & info & Hbound & ->) | [Hnone ->]]; simpl; [right | by left].
  exists k, info.
  destruct (removeInstanceNetworkParameters_instancesData k instanceIdent
              (net.IP_of_string (aostypes.IP (info_NetworkParameters info)))
              m) as [Hdata Hproviders].
  split; [done |]. unfold bound_in in *. rewrite Hdata.
  split; [| split; [| done]].
  - rewrite lookup_alter_eq.
    destruct (instancesData m !! k) as [instances |]; simpl; [| done].
    apply lookup_delete_eq.
  - intros k' other Hne.
    destruct (decide (k' = k)) as [-> | Hk].
    + rewrite lookup_alter_eq.
      destruct (instancesData m !! k) as [instances |]; simpl; [| done].
      apply lookup_delete_ne. congruence.
    + by rewrite lookup_alter_ne.
Qed.

(** X14. [GetInstances] lists exactly the identities that have a record
    under some network, whatever the order the maps are ranged over. *)
Theorem GetInstances_lists_bound
    (instanceIdent : aostypes.InstanceIdent) (m : NetworkManager) :
  instanceIdent ∈ GetInstances m
  ↔ ∃ networkID info, bound_in m networkID instanceIdent = Some info.
Proof.
  unfold GetInstances, bound_in. rewrite list_elem_of_In, in_flat_map. split.
  - intros ([k instances] & Hin%list_elem_of_In%elem_of_range
            & Hident%list_elem_of_In%list_elem_of_fmap).
    destruct Hident as ([ident info] & -> & Hinfo%elem_of_range).
    exists k, info. simpl in *. by rewrite Hin.
  - intros (k & info & Hbound).
    destruct (instancesData m !! k) as [instances |] eqn:Hk; [| done].
    exists (k, instances). split.
    + by apply list_elem_of_In, elem_of_range.
    + apply list_elem_of_In, list_elem_of_fmap.
      exists (instanceIdent, info). split; [done |]. by apply elem_of_range.
Qed.

(** X15. When [createNetwork] fails, whatever step failed, the deferred
    clean-up has run: the IP obtained from the allocator (none when the
    allocator failed) is released, no provider network has changed, and
    an identity that had no record under the network still has none, the
    instance records being as before. *)
Theorem createNetwork_failure_rolls_back
    (instanceIdent : aostypes.InstanceIdent) (networkID : string)
    (params : NetworkParameters) (m : NetworkManager)
    (Hfail : (createNetwork instanceIdent networkID params m).1.2 ≠ None) :
  let out := createNetwork instanceIdent networkID params m in
  let got := GetIPSubnet networkID (ipamSubnet m) in
  providerNetworks out.2 = providerNetworks m
  ∧ (bound_in m networkID instanceIdent = None →
     instancesData out.2 = instancesData m)
  ∧ ipamSubnet out.2
    = releaseIPToSubnet networkID
        (match got.1 with inr (_, ip) => ip | inl _ => [] end) got.2.
Proof.
  assert (bound_in m networkID instanceIdent = None →
          alter (delete instanceIdent) networkID (instancesData m)
          = instancesData m) as Hsame.
  { unfold bound_in. intros Hnone. apply alter_id. intros instances Hk.
    rewrite Hk in Hnone. by apply delete_id. }
  revert Hfail. cbv zeta. unfold createNetwork.
  destruct (GetIPSubnet _ _) as [[e | [subnet ip]] ipam]; simpl; [done |].
  destruct (if decide (0 < length (ExposePorts params)) then _ else _)
    as [rules | e]; simpl; [| done].
  destruct (AddNetworkInstanceInfo _ _) as [[e |] st]; simpl; done.
Qed.

End instance_operations.

Section instance_witnesses.
Import networkmanager manager_spec policy_spec sim scenario.


Lemma createNetwork_failure_rolls_back_witness :
  let m := storage_down one_node in
  let out := createNetwork svcA "netX" web m in
  let got := GetIPSubnet "netX" (ipamSubnet m) in
  providerNetworks out.2 = providerNetworks m
  ∧ (bound_in m "netX" svcA = None → instancesData out.2 = instancesData m)
  ∧ ipamSubnet out.2
    = releaseIPToSubnet "netX"
        (match got.1 with inr (_, ip) => ip | inl _ => [] end) got.2.
Proof.
  apply (createNetwork_failure_rolls_back svcA "netX" web
           (storage_down one_node)).
  vm_compute; discriminate.
Defined.

End instance_witnesses.

(** * Further properties of the provider networks *)

Section provider_operations.
Import networkmanager manager_spec policy_spec.
Context `{!net.Lib, !Storage, !NodeManager, !Ipam, !VlanSource, !DnsServer,
          !RangeOrder}.

(** One turn of the loop of [addProviderNetworks], with what it appends
    to the slice it returns: the parameters of a binding of the node. *)
Lemma addProviderNetworks_loop_turn_params nodeID networkParameters providerID
    rest (m : NetworkManager) :
  let out :=
    addProviderNetworks_loop nodeID networkParameters (providerID :: rest) m in
  out.1.2 ≠ None
  ∨ ∃ b m',
      out = addProviderNetworks_loop nodeID
              (networkParameters ++ [nps_NetworkParameters b]) rest m'
      ∧ NodeID b = nodeID
      ∧ ∃ bindings, providerNetworks m' !! providerID = Some bindings
                    ∧ b ∈ bindings.
Proof.
  simpl.
  destruct (providerNetworks m !! providerID) as [networks |] eqn:Hnet.
  - destruct (List.find _ networks) as [bound |] eqn:Hfind.
    + right. exists bound, m. split; [done |].
      apply find_some in Hfind as [Hin Hnode].
      apply list_elem_of_In in Hin. apply bool_decide_eq_true in Hnode.
      split; [done |]. by exists networks.
    + destruct networks as [| first others]; [by left |].
      unfold updateProviderNetworkForNode.
      pose proof (setupNetworkParameters_spec providerID
                    {| nps_NetworkParameters := nps_NetworkParameters first;
                       NodeID := nodeID |} m) as Hsetup.
      destruct (setupNetworkParameters _ _ m) as [[np [e |]] m']; simpl in *.
      { by left. }
      destruct Hsetup as [[? _] | (_ & Hnode & _ & _ & Hpn)]; [done |].
      right. exists np, m'. split; [done |]. split; [done |].
      eexists. rewrite Hpn, lookup_insert_eq. split; [done |].
      apply elem_of_app. right. by apply list_elem_of_singleton.
  - unfold createProviderNetwork.
    destruct (GetVlanID _ _) as [[e | vlanID] src]; simpl.
    { by left. }
    match goal with
    | |- context [setupNetworkParameters providerID ?b ?s] =>
        pose proof (setupNetworkParameters_spec providerID b s) as Hsetup;
        destruct (setupNetworkParameters providerID b s) as [[np [e |]] m']
    end; simpl in *.
    { by left. }
    destruct Hsetup as [[? _] | (_ & Hnode & _ & _ & Hpn)]; [done |].
    right. exists np, m'. split; [done |]. split; [done |].
    eexists. rewrite Hpn, lookup_insert_eq. split; [done |].
    apply elem_of_app. right. by apply list_elem_of_singleton.
Qed.

Local Arguments addProviderNetworks_loop : simpl never.
Local Arguments removeProviderNetworks_body : simpl never.

Lemma addProviderNetworks_loop_params nodeID todo networkParameters
    (m : NetworkManager) :
  (addProviderNetworks_loop nodeID networkParameters todo m).1.2 = None →
  ∃ added,
    (addProviderNetworks_loop nodeID networkParameters todo m).1.1
    = networkParameters ++ added
    ∧ Forall2
        (λ providerID np,
           ∃ bindings b,
             providerNetworks
               (addProviderNetworks_loop nodeID networkParameters todo m).2
               !! providerID = Some bindings
             ∧ b ∈ bindings ∧ NodeID b = nodeID
             ∧ nps_NetworkParameters b = np)
        todo added.
Proof.
  revert networkParameters m.
  induction todo as [| p rest IH]; intros acc m Hok.
  { exists []. split; [by rewrite app_nil_r | constructor]. }
  destruct (addProviderNetworks_loop_turn_params nodeID acc p rest m)
    as [Herr | (b & m' & Hout & Hnode & bindings & Hp & Hb)]; [done |].
  rewrite Hout in Hok |- *.
  destruct (IH _ m' Hok) as (added & Hadded & Hall).
  exists (nps_NetworkParameters b :: added). split.
  - by rewrite Hadded, <- app_assoc.
  - constructor; [| done].
    destruct (addProviderNetworks_loop_grows nodeID rest
                (acc ++ [nps_NetworkParameters b]) m' p bindings Hp)
      as [more Hmore].
    exists (bindings ++ more), b. split; [done |].
    split; [apply elem_of_app; by left | done].
Qed.

(** X16. When [nodeID] is not empty and [UpdateProviderNetwork] succeeds,
    the provider networks are settled: no network is left empty or with
    an unassigned binding, every requested network exists and has a
    binding of the node, and no other network has one. *)
Theorem reconcile_settles
    (providers : list string) (nodeID : string) (m : NetworkManager)
    (Hnode : nodeID ≠ "")
    (Hok : (UpdateProviderNetwork providers nodeID m).1 = None) :
  settled providers nodeID
    (providerNetworks (UpdateProviderNetwork providers nodeID m).2).
Proof.
  rewrite UpdateProviderNetwork_providerNetworks.
  apply addProviderNetworks_settles; [done | |].
  - intros k bindings. apply removeProviderNetworks_clears.
  - unfold UpdateProviderNetwork in Hok.
    destruct (addProviderNetworks _ _ _) as [[params [e |]] m']; done.
Qed.

(** X17. When [addProviderNetworks] succeeds on provider networks that
    are VLAN stable, it returns one set of parameters per requested
    network, in the order of the request: each is the parameters of a
    binding of the node that is then filed under that network, and
    carries its [NetworkID]. *)
Theorem addProviderNetworks_returns_bindings
    (providers : list string) (nodeID : string) (m : NetworkManager)
    (Hstable : vlan_stable (providerNetworks m))
    (Hok : (addProviderNetworks providers nodeID m).1.2 = None) :
  let out := addProviderNetworks providers nodeID m in
  Forall2
    (λ providerID np,
       aostypes.NetworkID np = providerID
       ∧ ∃ bindings b,
           providerNetworks out.2 !! providerID = Some bindings
           ∧ b ∈ bindings ∧ NodeID b = nodeID
           ∧ nps_NetworkParameters b = np)
    providers out.1.1.
Proof.
  cbv zeta. unfold addProviderNetworks in *.
  destruct (addProviderNetworks_loop_params nodeID providers [] m Hok)
    as (added & -> & Hall). simpl.
  pose proof (addProviderNetworks_loop_vlan_stable nodeID providers [] m
                Hstable) as Hstable'.
  eapply Forall2_impl; [exact Hall |].
  intros p np (bindings & b & Hp & Hb & Hnode & Hnp). split.
  - destruct (Hstable' p bindings Hp b Hb) as [Hid _]. by rewrite <- Hnp.
  - by exists bindings, b.
Qed.

Lemma keepOthers_sublist nodeID bindings :
  keepOthers nodeID bindings `sublist_of` bindings.
Proof.
  induction bindings as [| b rest IH]; simpl; [done |].
  destruct (bool_decide _); by constructor.
Qed.

Lemma keptNetworks_sublist providers nodeID networkID networksInfo kept :
  keptNetworks providers nodeID networkID networksInfo = Some kept →
  kept `sublist_of` networksInfo.
Proof.
  unfold keptNetworks.
  destruct (_ && _); [intros [= <-]; apply keepOthers_sublist |].
  destruct (bool_decide _); [| done]. intros [= <-].
  etrans; apply keepOthers_sublist.
Qed.

Lemma keptNetworks_keeps providers nodeID networkID networksInfo b :
  b ∈ networksInfo → NodeID b ≠ "" →
  NodeID b ≠ nodeID ∨ networkID ∈ providers →
  ∃ kept, keptNetworks providers nodeID networkID networksInfo = Some kept
          ∧ b ∈ kept.
Proof.
  intros Hb Hassigned Hkeep. unfold keptNetworks.
  assert (b ∈ keepOthers "" networksInfo) as Hvalid
    by by apply elem_of_keepOthers.
  assert (bool_decide (0 < length (keepOthers "" networksInfo)) = true)
    as Hlen.
  { apply bool_decide_eq_true.
    destruct (keepOthers "" networksInfo); [by apply elem_of_nil in Hvalid |].
    simpl. lia. }
  rewrite Hlen.
  destruct (bool_decide (networkID ∈ providers)) eqn:Hfound; simpl.
  { eauto. }
  apply bool_decide_eq_false in Hfound.
  destruct Hkeep as [Hother | ?]; [| done].
  assert (b ∈ keepOthers nodeID (keepOthers "" networksInfo)) as Hfiltered
    by by apply elem_of_keepOthers.
  rewrite bool_decide_true; [eauto |].
  destruct (keepOthers nodeID (keepOthers "" networksInfo));
    [by apply elem_of_nil in Hfiltered |].
  simpl. lia.
Qed.

(** X18. [removeProviderNetworks] only drops bindings: what it leaves of
    a network is a sublist of what the network had.  It never drops an
    assigned binding of another node, and never one of a requested
    network: a network with such a binding survives with it. *)
Theorem removeProviderNetworks_keeps_others
    (providers : list string) (nodeID : string) (m : NetworkManager)
    (networkID : string) :
  let m' := removeProviderNetworks providers nodeID m in
  match providerNetworks m' !! networkID with
  | Some kept =>
      ∃ bindings, providerNetworks m !! networkID = Some bindings
                  ∧ kept `sublist_of` bindings
  | None => True
  end
  ∧ ∀ bindings b,
      providerNetworks m !! networkID = Some bindings →
      b ∈ bindings → NodeID b ≠ "" →
      NodeID b ≠ nodeID ∨ networkID ∈ providers →
      ∃ kept, providerNetworks m' !! networkID = Some kept ∧ b ∈ kept.
Proof.
  cbv zeta. rewrite removeProviderNetworks_lookup. split.
  - destruct (providerNetworks m !! networkID) as [bindings |]; simpl;
      [| done].
    destruct (keptNetworks _ _ _ _) as [kept |] eqn:Hkept; [| done].
    exists bindings. split; [done |]. by eapply keptNetworks_sublist.
  - intros bindings b -> Hb Hassigned Hkeep. simpl.
    by apply keptNetworks_keeps.
Qed.

(** X19. [UpdateProviderNetwork] never indexes an empty slice, whatever
    the manager: [removeProviderNetworks] has dropped the networks
    without bindings before [addProviderNetworks] takes [networks[0]].
    On its own [addProviderNetworks] does panic when the first requested
    network is filed with no binding. *)
Theorem reconcile_never_indexes_empty
    (providers : list string) (nodeID : string) (m : NetworkManager) :
  (UpdateProviderNetwork providers nodeID m).1 ≠ Some panicIndexOutOfRange
  ∧ ∀ providerID rest,
      providerNetworks m !! providerID = Some [] →
      (addProviderNetworks (providerID :: rest) nodeID m).1.2
      = Some panicIndexOutOfRange.
Proof.
  split.
  - unfold UpdateProviderNetwork.
    pose proof (addProviderNetworks_loop_no_panic nodeID providers []
                  (removeProviderNetworks providers nodeID m)) as Hadd.
    unfold addProviderNetworks.
    destruct (addProviderNetworks_loop _ _ _ _) as [[params [e |]] m'];
      simpl in *.
    + apply Hadd. intros k bindings Hk.
      by apply removeProviderNetworks_clears in Hk as [? _].
    + destruct (UpdateNetwork _ _ _) as [[x |] nm]; done.
  - intros p rest Hp. unfold addProviderNetworks.
    unfold addProviderNetworks_loop; fold addProviderNetworks_loop.
    by rewrite Hp.
Qed.

End provider_operations.

(** * The tables over the life of a manager *)

Section lifecycle_properties.
Import networkmanager manager_spec policy_spec lifecycle_spec.
Context `{!net.Lib, !Storage, !NodeManager, !Ipam, !VlanSource, !DnsServer,
          !RangeOrder}.

Local Arguments addProviderNetworks_loop : simpl never.
Local Arguments removeProviderNetworks_body : simpl never.

Lemma removeInstances_instancesData networkID
    (instances : list (aostypes.InstanceIdent * InstanceNetworkInfo))
    (m : NetworkManager) k :
  instancesData
    (foldl (λ m inst,
              (removeInstanceNetworkParameters networkID inst.1
                 (net.IP_of_string
                    (aostypes.IP (info_NetworkParameters inst.2))) m).2)
           m instances) !! k
  = if decide (k = networkID)
    then (λ inner, foldl (λ acc inst, delete inst.1 acc) inner instances)
         <$> instancesData m !! k
    else instancesData m !! k.
Proof.
  revert m. induction instances as [| inst rest IH]; intros m; simpl.
  - destruct (decide _); [| done]. by destruct (instancesData m !! k).
  - rewrite IH.
    destruct (removeInstanceNetworkParameters_instancesData networkID inst.1
                (net.IP_of_string
                   (aostypes.IP (info_NetworkParameters inst.2))) m)
      as [-> _].
    destruct (decide (k = networkID)) as [-> | Hne].
    + rewrite lookup_alter_eq. by destruct (instancesData m !! networkID).
    + by rewrite lookup_alter_ne.
Qed.

Lemma delete_all_lookup `{Countable K} {V} (entries : list (K * V))
    (inner : gmap K V) i :
  foldl (λ acc inst, delete inst.1 acc) inner entries !! i
  = if decide (i ∈ entries.*1) then None else inner !! i.
Proof.
  revert inner. induction entries as [| [k v] rest IH]; intros inner.
  - destruct (decide (i ∈ _)) as [Hin |]; [| done].
    by apply elem_of_nil in Hin.
  - cbn [foldl]. rewrite IH, fmap_cons. cbn [fst].
    destruct (decide (i ∈ rest.*1)) as [Hin | Hnot];
      destruct (decide (i ∈ k :: rest.*1)) as [Hin' | Hnot']; try done.
    + destruct Hnot'. by right.
    + apply elem_of_cons in Hin' as [-> | ?]; [| done].
      apply lookup_delete_eq.
    + apply lookup_delete_ne. intros ->. destruct Hnot'. left.
Qed.

Lemma delete_all_range `{Countable K} {V} (inner : gmap K V) :
  foldl (λ acc inst, delete inst.1 acc) inner (range inner) = ∅.
Proof.
  apply map_eq. intros i. rewrite delete_all_lookup, lookup_empty.
  destruct (decide _) as [| Hnot]; [done |].
  destruct (inner !! i) as [v |] eqn:Hi; [| done].
  destruct Hnot. apply list_elem_of_fmap. exists (i, v).
  split; [done |]. by apply elem_of_range.
Qed.

Lemma removeProviderNetworks_body_instancesData providers nodeID
    (m : NetworkManager) networkID networksInfo k :
  instancesData
    (removeProviderNetworks_body providers nodeID m (networkID, networksInfo))
    !! k
  = if decide (k = networkID)
    then match keptNetworks providers nodeID networkID networksInfo with
         | Some _ => instancesData m !! k
         | None => (λ _, ∅) <$> instancesData m !! k
         end
    else instancesData m !! k.
Proof.
  unfold removeProviderNetworks_body, keptNetworks.
  pose proof (dropNodeNetworks_kept networkID "" networksInfo (storage m))
    as Hvalid.
  destruct (dropNodeNetworks networkID "" networksInfo (storage m))
    as [validNetworks st]. simpl in Hvalid. subst validNetworks.
  destruct (bool_decide (networkID ∈ providers)
            && bool_decide (0 < length (keepOthers "" networksInfo))).
  { simpl. by destruct (decide _). }
  pose proof (dropNodeNetworks_kept networkID nodeID
                (keepOthers "" networksInfo) (storage (set_storage m st)))
    as Hfiltered.
  destruct (dropNodeNetworks networkID nodeID (keepOthers "" networksInfo)
              (storage (set_storage m st))) as [filteredNetworks st'].
  simpl in Hfiltered. subst filteredNetworks.
  destruct (bool_decide (0 < length (keepOthers nodeID
                                       (keepOthers "" networksInfo)))).
  { simpl. by destruct (decide _). }
  simpl. rewrite removeInstances_instancesData. simpl.
  destruct (decide (k = networkID)) as [-> | Hne]; [| done].
  destruct (instancesData m !! networkID) as [inner |]; simpl; [| done].
  by rewrite delete_all_range.
Qed.

Lemma removeProviderNetworks_fold_instancesData providers nodeID
    (entries : list (string * list NetworkParametersStorage))
    (m : NetworkManager) k :
  NoDup entries.*1 →
  instancesData
    (foldl (removeProviderNetworks_body providers nodeID) m entries) !! k
  = match (list_to_map entries : gmap string _) !! k with
    | Some networksInfo =>
        match keptNetworks providers nodeID k networksInfo with
        | Some _ => instancesData m !! k
        | None => (λ _, ∅) <$> instancesData m !! k
        end
    | None => instancesData m !! k
    end.
Proof.
  revert m. induction entries as [| [k0 l0] rest IH]; intros m Hnodup; simpl.
  - by rewrite lookup_empty.
  - apply NoDup_cons in Hnodup as [Hfresh Hnodup].
    rewrite IH by done. rewrite removeProviderNetworks_body_instancesData.
    destruct (decide (k = k0)) as [-> | Hne].
    + rewrite lookup_insert_eq.
      by rewrite (not_elem_of_list_to_map_1 rest k0).
    + by rewrite lookup_insert_ne by congruence.
Qed.

(** What [removeProviderNetworks] does to the instance records, network
    by network, whatever the order of the [range]. *)
Lemma removeProviderNetworks_instancesData providers nodeID
    (m : NetworkManager) k :
  instancesData (removeProviderNetworks providers nodeID m) !! k
  = match providerNetworks m !! k with
    | Some networksInfo =>
        match keptNetworks providers nodeID k networksInfo with
        | Some _ => instancesData m !! k
        | None => (λ _, ∅) <$> instancesData m !! k
        end
    | None => instancesData m !! k
    end.
Proof.
  unfold removeProviderNetworks.
  assert (NoDup (range (providerNetworks m)).*1) as Hnodup.
  { rewrite range_perm. apply NoDup_fst_map_to_list. }
  rewrite removeProviderNetworks_fold_instancesData by done.
  rewrite (list_to_map_proper _ (map_to_list (providerNetworks m)))
    by (done || apply range_perm).
  by rewrite list_to_map_to_list.
Qed.

(** X20. When [removeProviderNetworks] tears a network down, it removes
    every instance record filed under it; the records of every other
    network are left as they were. *)
Theorem removeProviderNetworks_tears_down_instances
    (providers : list string) (nodeID : string) (m : NetworkManager)
    (networkID : string) (instanceIdent : aostypes.InstanceIdent) :
  let m' := removeProviderNetworks providers nodeID m in
  (torn_down providers nodeID m networkID →
   providerNetworks m' !! networkID = None
   ∧ bound_in m' networkID instanceIdent = None)
  ∧ (¬ torn_down providers nodeID m networkID →
     bound_in m' networkID instanceIdent = bound_in m networkID instanceIdent).
Proof.
  cbv zeta. unfold torn_down, bound_in.
  rewrite removeProviderNetworks_instancesData, removeProviderNetworks_lookup.
  split.
  - intros (bindings & -> & Hkept). simpl. rewrite Hkept. split; [done |].
    by destruct (instancesData m !! networkID).
  - intros Hnot.
    destruct (providerNetworks m !! networkID) as [bindings |]; [| done].
    destruct (keptNetworks _ _ _ _) eqn:Hkept; [done |].
    destruct Hnot. by exists bindings.
Qed.

(** ** The tables [New] loads *)

Lemma New_providerNetworks_snoc (networksInfo : list NetworkParametersStorage)
    (row : NetworkParametersStorage) :
  New_providerNetworks (networksInfo ++ [row])
  = <[aostypes.NetworkID (nps_NetworkParameters row) :=
        default []
          (New_providerNetworks networksInfo
             !! aostypes.NetworkID (nps_NetworkParameters row)) ++ [row]]>
      (New_providerNetworks networksInfo).
Proof. unfold New_providerNetworks. by rewrite foldl_app. Qed.

Lemma New_providerNetworks_lookup (networksInfo : list NetworkParametersStorage)
    (networkID : string) :
  New_providerNetworks networksInfo !! networkID
  = match rows_of networkID networksInfo with
    | [] => None
    | rows => Some rows
    end.
Proof.
  induction networksInfo as [| row rows IH] using rev_ind.
  { unfold New_providerNetworks. simpl. by rewrite lookup_empty. }
  rewrite New_providerNetworks_snoc. unfold rows_of in *.
  rewrite List.filter_app. simpl.
  destruct (decide (aostypes.NetworkID (nps_NetworkParameters row)
                    = networkID)) as [<- | Hne].
  - rewrite bool_decide_true by done. rewrite lookup_insert_eq, IH.
    by destruct (List.filter _ rows).
  - rewrite bool_decide_false by done.
    by rewrite lookup_insert_ne, app_nil_r.
Qed.

Lemma New_instancesData_snoc (dnsIPAddress : string)
    (infos : list InstanceNetworkInfo) (row : InstanceNetworkInfo) :
  New_instancesData dnsIPAddress (infos ++ [row])
  = <[aostypes.NetworkID (info_NetworkParameters row) :=
        <[info_InstanceIdent row := with_DNSServers row [dnsIPAddress]]>
          (default ∅
             (New_instancesData dnsIPAddress infos
                !! aostypes.NetworkID (info_NetworkParameters row)))]>
      (New_instancesData dnsIPAddress infos).
Proof.
  unfold New_instancesData. rewrite foldl_app. simpl.
  destruct (decide (size _ = 0)) as [Hsize |]; [| done].
  rewrite lookup_insert_eq, insert_insert_eq. simpl.
  apply map_size_empty_inv in Hsize. by rewrite Hsize.
Qed.

Lemma New_instancesData_filed (dnsIPAddress : string)
    (infos : list InstanceNetworkInfo) (networkID : string)
    (instanceIdent : aostypes.InstanceIdent) :
  filed_in (New_instancesData dnsIPAddress infos) networkID instanceIdent
  = (λ row, with_DNSServers row [dnsIPAddress])
    <$> last (rows_of_instance networkID instanceIdent infos).
Proof.
  induction infos as [| row rows IH] using rev_ind.
  { unfold filed_in, New_instancesData. simpl. by rewrite lookup_empty. }
  rewrite New_instancesData_snoc. unfold filed_in, rows_of_instance in *.
  rewrite List.filter_app. simpl.
  destruct (decide (aostypes.NetworkID (info_NetworkParameters row)
                    = networkID)) as [<- | Hne].
  - rewrite lookup_insert_eq.
    destruct (decide (info_InstanceIdent row = instanceIdent)) as [<- | Hi].
    + rewrite bool_decide_true by done.
      by rewrite lookup_insert_eq, last_snoc.
    + rewrite bool_decide_false by (by intros [_ ?]).
      rewrite lookup_insert_ne, app_nil_r by done. rewrite <- IH.
      destruct (New_instancesData dnsIPAddress rows !! _); [done |].
      apply lookup_empty.
  - rewrite bool_decide_false by (by intros [? _]).
    by rewrite lookup_insert_ne, app_nil_r.
Qed.

(** X21. [New] groups the rows of the storage.  A provider network is
    filed exactly when some row names it, with the rows that name it in
    their order.  An identity has a record under a network exactly when
    some row has both, and the record is the last such row, with the
    address of the DNS server as its only DNS server. *)
Theorem New_groups_rows :
  (∀ (networksInfo : list NetworkParametersStorage) (networkID : string),
     New_providerNetworks networksInfo !! networkID
     = match rows_of networkID networksInfo with
       | [] => None
       | rows => Some rows
       end)
  ∧ ∀ (dnsIPAddress : string) (infos : list InstanceNetworkInfo)
      (networkID : string) (instanceIdent : aostypes.InstanceIdent),
      filed_in (New_instancesData dnsIPAddress infos) networkID instanceIdent
      = (λ row, with_DNSServers row [dnsIPAddress])
        <$> last (rows_of_instance networkID instanceIdent infos).
Proof.
  split.
  - apply New_providerNetworks_lookup.
  - apply New_instancesData_filed.
Qed.

(** ** What every exported operation keeps *)

Lemma well_filed_delete data instanceIdent networkID :
  well_filed data →
  well_filed (alter (delete instanceIdent) networkID data).
Proof.
  intros Hdata k instances i info Hk Hi.
  destruct (decide (k = networkID)) as [-> | Hne].
  - rewrite lookup_alter_eq in Hk.
    destruct (data !! networkID) as [old |] eqn:Hold; simplify_eq/=.
    apply lookup_delete_Some in Hi as [_ Hi]. by eapply Hdata.
  - rewrite lookup_alter_ne in Hk by done. by eapply Hdata.
Qed.

Lemma well_filed_insert data (info : InstanceNetworkInfo) :
  well_filed data →
  well_filed
    (<[aostypes.NetworkID (info_NetworkParameters info) :=
         <[info_InstanceIdent info := info]>
           (default ∅
              (data !! aostypes.NetworkID (info_NetworkParameters info)))]>
       data).
Proof.
  intros Hdata k instances i info' Hk Hi.
  destruct (decide (k = aostypes.NetworkID (info_NetworkParameters info)))
    as [-> | Hne].
  - rewrite lookup_insert_eq in Hk. simplify_eq.
    destruct (decide (i = info_InstanceIdent info)) as [-> | Hi'].
    + rewrite lookup_insert_eq in Hi. by simplify_eq.
    + rewrite lookup_insert_ne in Hi by done.
      destruct (data !! _) as [old |] eqn:Hold; simpl in Hi.
      * by eapply Hdata.
      * by rewrite lookup_empty in Hi.
  - rewrite lookup_insert_ne in Hk by done. by eapply Hdata.
Qed.

Lemma well_filed_New dnsIPAddress (infos : list InstanceNetworkInfo) :
  well_filed (New_instancesData dnsIPAddress infos).
Proof.
  induction infos as [| row rows IH] using rev_ind.
  { intros k instances i info Hk. unfold New_instancesData in Hk.
    simpl in Hk. by rewrite lookup_empty in Hk. }
  rewrite New_instancesData_snoc.
  by apply (well_filed_insert _ (with_DNSServers row [dnsIPAddress])).
Qed.

Lemma own_network_New (networksInfo : list NetworkParametersStorage) :
  own_network (New_providerNetworks networksInfo).
Proof.
  intros k bindings b Hk Hb. rewrite New_providerNetworks_lookup in Hk.
  assert (b ∈ rows_of k networksInfo) as Hrow.
  { destruct (rows_of k networksInfo); by simplify_eq. }
  unfold rows_of in Hrow.
  apply list_elem_of_In, filter_In in Hrow as [_ Hrow].
  by apply bool_decide_eq_true in Hrow.
Qed.

Lemma removeInstanceNetworkParameters_kept networkID instanceIdent ip
    (m : NetworkManager) :
  tables_kept m →
  tables_kept (removeInstanceNetworkParameters networkID instanceIdent ip m).2.
Proof.
  intros [Hdata Hnetworks].
  destruct (removeInstanceNetworkParameters_instancesData networkID
              instanceIdent ip m) as [Hd Hp].
  split; [rewrite Hd | by rewrite Hp]. by apply well_filed_delete.
Qed.

Lemma createNetwork_kept instanceIdent networkID params (m : NetworkManager) :
  tables_kept m →
  tables_kept (createNetwork instanceIdent networkID params m).2.
Proof.
  intros [Hdata Hnetworks]. unfold createNetwork.
  destruct (GetIPSubnet _ _) as [[e | [subnet ip]] ipam]; simpl.
  { split; [by apply well_filed_delete | done]. }
  destruct (if decide (0 < length (ExposePorts params)) then _ else _)
    as [rules | e]; simpl.
  2: { split; [by apply well_filed_delete | done]. }
  destruct (AddNetworkInstanceInfo _ _) as [[e |] st]; simpl.
  { split; [by apply well_filed_delete | done]. }
  split; [| done].
  match goal with
  | |- context [addNetworkParametersToCache ?info _] =>
      by apply (well_filed_insert _ info)
  end.
Qed.

Lemma PrepareInstanceNetworkParameters_kept instanceIdent networkID params
    (m : NetworkManager) :
  tables_kept m →
  tables_kept
    (PrepareInstanceNetworkParameters instanceIdent networkID params m).2.
Proof.
  intros Hm. unfold PrepareInstanceNetworkParameters.
  assert (∀ (m0 : NetworkManager) d, tables_kept m0 →
            tables_kept (set_dns m0 d)) as Hdns by done.
  destruct (getNetworkParametersToCache instanceIdent m)
    as [[networkParameters currentNetworkID] found].
  destruct (found && bool_decide (networkID ≠ currentNetworkID)) eqn:Hmove.
  - pose proof (removeInstanceNetworkParameters_kept networkID instanceIdent
                  (net.IP_of_string (aostypes.IP networkParameters)) m Hm)
      as Hremoved.
    pose proof (createNetwork_kept instanceIdent networkID params _ Hremoved)
      as Hcreated. simpl.
    destruct (createNetwork _ _ _ _) as [[np [e |]] m1]; simpl in *; [done |].
    destruct (addHosts _ _ _) as [[e |] d]; simpl; [by apply Hdns |].
    destruct (decide _); [destruct (prepareFirewallRules _ _ _ _) |]; simpl;
      by apply Hdns.
  - destruct found; simpl.
    + destruct (addHosts _ _ _) as [[e |] d]; simpl; [by apply Hdns |].
      destruct (decide _); [destruct (prepareFirewallRules _ _ _ _) |]; simpl;
        by apply Hdns.
    + pose proof (createNetwork_kept instanceIdent networkID params m Hm)
        as Hcreated.
      destruct (createNetwork _ _ _ _) as [[np [e |]] m1]; simpl in *;
        [done |].
      destruct (addHosts _ _ _) as [[e |] d]; simpl; [by apply Hdns |].
      destruct (decide _); [destruct (prepareFirewallRules _ _ _ _) |]; simpl;
        by apply Hdns.
Qed.

Lemma RemoveInstanceNetworkParameters_kept instanceIdent (m : NetworkManager) :
  tables_kept m →
  tables_kept (RemoveInstanceNetworkParameters instanceIdent m).
Proof.
  intros Hm. unfold RemoveInstanceNetworkParameters.
  destruct (getNetworkParametersToCache instanceIdent m)
    as [[networkParameters networkID] [|]]; simpl; [| done].
  by apply removeInstanceNetworkParameters_kept.
Qed.

Lemma setupNetworkParameters_instancesData providerID networkParameter
    (m : NetworkManager) :
  instancesData (setupNetworkParameters providerID networkParameter m).2
  = instancesData m.
Proof.
  unfold setupNetworkParameters.
  destruct (GetIPSubnet _ _) as [[e | [subnet ip]] ipam]; simpl; [done |].
  by destruct (AddNetworkInfo _ _) as [[e |] st].
Qed.

Lemma addProviderNetworks_loop_instancesData nodeID todo networkParameters
    (m : NetworkManager) :
  instancesData (addProviderNetworks_loop nodeID networkParameters todo m).2
  = instancesData m.
Proof.
  revert networkParameters m.
  induction todo as [| p rest IH]; intros acc m; [done |].
  unfold addProviderNetworks_loop; fold addProviderNetworks_loop.
  destruct (providerNetworks m !! p) as [networks |].
  - destruct (List.find _ networks); [by apply IH |].
    destruct networks as [| first others]; [done |].
    unfold updateProviderNetworkForNode.
    match goal with
    | |- context [setupNetworkParameters p ?b ?s] =>
        pose proof (setupNetworkParameters_instancesData p b s) as Hsetup;
        destruct (setupNetworkParameters p b s) as [[np [e |]] m']
    end; simpl in *; [done |].
    by rewrite IH.
  - unfold createProviderNetwork.
    destruct (GetVlanID _ _) as [[e | vlanID] src]; simpl; [done |].
    match goal with
    | |- context [setupNetworkParameters p ?b ?s] =>
        pose proof (setupNetworkParameters_instancesData p b s) as Hsetup;
        destruct (setupNetworkParameters p b s) as [[np [e |]] m']
    end; simpl in *; [done |].
    by rewrite IH.
Qed.

Lemma removeProviderNetworks_kept providers nodeID (m : NetworkManager) :
  tables_kept m → tables_kept (removeProviderNetworks providers nodeID m).
Proof.
  intros [Hdata Hnetworks]. split.
  - intros k instances i info Hk Hi.
    rewrite removeProviderNetworks_instancesData in Hk.
    assert (instancesData m !! k = Some instances
            ∨ instances = ∅) as [Hold | ->].
    { destruct (providerNetworks m !! k) as [bindings |]; [| by left].
      destruct (keptNetworks _ _ _ _); [by left |].
      destruct (instancesData m !! k); simplify_eq/=; by right. }
    + by eapply Hdata.
    + by rewrite lookup_empty in Hi.
  - intros k kept b Hk Hb. rewrite removeProviderNetworks_lookup in Hk.
    destruct (providerNetworks m !! k) as [bindings |] eqn:Hold; [| done].
    simpl in Hk. eapply Hnetworks; [done |]. by eapply elem_of_keptNetworks.
Qed.

Lemma addProviderNetworks_kept providers nodeID (m : NetworkManager) :
  tables_kept m → tables_kept (addProviderNetworks providers nodeID m).2.
Proof.
  intros [Hdata Hnetworks]. unfold addProviderNetworks. split.
  { by rewrite addProviderNetworks_loop_instancesData. }
  apply (addProviderNetworks_loop_inv own_network providers nodeID);
    [| done | done].
  intros networks k b Hown _ [_ Hjoin] k' bindings x Hk' Hx.
  destruct (decide (k' = k)) as [-> | Hne].
  2: { rewrite lookup_insert_ne in Hk' by done. by eapply Hown. }
  rewrite lookup_insert_eq in Hk'. simplify_eq.
  destruct (networks !! k) as [old |] eqn:Hold; simpl in *.
  - apply elem_of_app in Hx as [Hx | ->%list_elem_of_singleton].
    + by eapply Hown.
    + destruct Hjoin as (_ & first & others & -> & -> & _).
      eapply Hown; [done | left].
  - by apply list_elem_of_singleton in Hx as ->.
Qed.

Lemma UpdateProviderNetwork_kept providers nodeID (m : NetworkManager) :
  tables_kept m → tables_kept (UpdateProviderNetwork providers nodeID m).2.
Proof.
  intros Hm. unfold UpdateProviderNetwork.
  pose proof (addProviderNetworks_kept providers nodeID _
                (removeProviderNetworks_kept providers nodeID m Hm)) as Hadd.
  destruct (addProviderNetworks _ _ _) as [[params [e |]] m']; [done |].
  by destruct (UpdateNetwork _ _ _).
Qed.

(** X22. In every manager the exported operations lead to from the
    tables [New] loads, whatever the rows of the storage, every instance
    record is filed under its own network and identity, and every
    binding of a provider network under its own network. *)
Theorem operated_tables_well_filed (m : NetworkManager) (Hop : operated m) :
  well_filed (instancesData m) ∧ own_network (providerNetworks m).
Proof.
  induction Hop as [m networksInfo infos Hp Hi | m instanceIdent networkID
                    params _ IH | m instanceIdent _ IH
                    | m providers nodeID _ IH].
  - rewrite Hp, Hi. split; [apply well_filed_New | apply own_network_New].
  - by apply PrepareInstanceNetworkParameters_kept.
  - by apply RemoveInstanceNetworkParameters_kept.
  - by apply UpdateProviderNetwork_kept.
Qed.

End lifecycle_properties.

Section lifecycle_witnesses.
Import networkmanager manager_spec policy_spec lifecycle_spec sim scenario
  lifecycle_scenario.

Lemma exposed_port_is_allowed_witness :
  ∃ port protocol,
    parseAllowConnection ("svcB" +:+ "/" +:+ "53/udp")
    = Ok ("svcB", port, protocol)
    ∧ ruleExists resolver port protocol = true.
Proof.
  apply (exposed_port_is_allowed ["80"; "53/udp"] resolver "svcB" "53/udp").
  - reflexivity.
  - apply list_elem_of_further, list_elem_of_here.
  - reflexivity.
Defined.

Lemma reconcile_settles_witness :
  settled ["netX"] "nodeA" (providerNetworks one_node).
Proof.
  apply (reconcile_settles ["netX"] "nodeA" (fresh [5%N; 7%N] false)).
  - discriminate.
  - vm_compute; reflexivity.
Defined.

Lemma addProviderNetworks_returns_bindings_witness :
  let out := addProviderNetworks ["netX"] "nodeB" one_node in
  Forall2
    (λ providerID np,
       aostypes.NetworkID np = providerID
       ∧ ∃ bindings b,
           providerNetworks out.2 !! providerID = Some bindings
           ∧ b ∈ bindings ∧ NodeID b = "nodeB"
           ∧ nps_NetworkParameters b = np)
    ["netX"] out.1.1.
Proof.
  apply (addProviderNetworks_returns_bindings ["netX"] "nodeB" one_node).
  - apply reachable_vlan_stable, reachable_update, reachable_empty;
      reflexivity.
  - vm_compute; reflexivity.
Defined.

Lemma removeProviderNetworks_tears_down_instances_witness :
  let m' := removeProviderNetworks [] "nodeA" served in
  bound_in served "netX" svcA ≠ None
  ∧ providerNetworks m' !! "netX" = None
  ∧ bound_in m' "netX" svcA = None.
Proof.
  split; [vm_compute; discriminate |].
  apply (removeProviderNetworks_tears_down_instances [] "nodeA" served
           "netX" svcA).
  eexists. split; vm_compute; reflexivity.
Defined.

Lemma operated_tables_well_filed_witness :
  well_filed (instancesData three_instances)
  ∧ own_network (providerNetworks three_instances).
Proof.
  apply (operated_tables_well_filed three_instances).
  unfold three_instances. cbv zeta.
  do 3 apply operated_prepare.
  apply (operated_new _ [] []); reflexivity.
Defined.

End lifecycle_witnesses.
